(** * Peng3D: the scene / physics synchronisation layer

    A shallow embedding of the [Peng3D] extension class (the file that
    registers the extension id [penguin3d]): the name-keyed registries
    [objects], [physicsBodies] and [objectPhysData], the direct transform
    setters with [_updatePhysicsTransform], the caller-driven [stepPhysics],
    the forward ray query [getLookingAt], the distance reporter and the
    scene serialiser [getSceneJSON] / [loadSceneJSON].

    Conventions of the embedding.
    - A JavaScript number is an IEEE-754 binary64 value: [float].
    - A JavaScript object used as a dictionary is a [gmap] keyed by
      [string]; prototype members of such an object are not modelled, and
      [for .. in] visits the keys in the order of [map_to_list].
    - three.js and cannon.js are collaborators behind their API.  Plain
      component-wise vector code is written out; whatever needs
      trigonometry, geometry intersection or the rigid-body solver is a
      field of the class [Engine].
    - Every block first tests [this.loaded] and otherwise re-schedules
      itself on the load promise.  The embedding describes the instance
      once both engines are loaded, that is the code after that first line.
    - Numeric block arguments are the values [Scratch.Cast.toNumber]
      returned for them.
    - The array reporters ([getPosition], [getRotation], [getYawPitch],
      [getScale], [getTouching]) return the value their text denotes;
      [getTouching] takes [world.contacts] as a list of pairs of body ids.
    - Left out: the ambient light, textures, the sprite hand-off, the
      snapshot and the rendering itself. *)

From Stdlib Require Import ZArith Ascii String List Lia.
From Stdlib Require Import PrimFloat Uint63 SpecFloat FloatOps FloatAxioms.
From stdpp Require Import base option list gmap strings.

Set Warnings "-inexact-float,-register-all,-clear-no-such-hyp".
Local Open Scope string_scope.

(** ** JavaScript values that cross the JSON boundary *)

Inductive JSON : Type :=
| JNull
| JBool (b : bool)
| JNum (n : float)
| JStr (s : string)
| JArr (items : list JSON)
| JObj (fields : list (string * JSON)).

(** What [JSON.parse] does with a text: it throws a [SyntaxError] or
    returns a value.  A JSON text is identified with this outcome. *)
Inductive ParseOutcome : Type :=
| SyntaxError
| Parsed (v : JSON).

(** [x.key] on a parsed object; [None] is [undefined]. *)
Fixpoint JObj_get (fields : list (string * JSON)) (key : string) : option JSON :=
  match fields with
  | [] => None
  | (k, v) :: rest => if String.eqb k key then Some v else JObj_get rest key
  end.

(** [ToBoolean] on a parsed value. *)
Definition truthy (v : JSON) : bool :=
  match v with
  | JNull => false
  | JBool b => b
  | JNum n => negb (PrimFloat.eqb n 0 || PrimFloat.is_nan n)
  | JStr s => negb (String.eqb s "")
  | JArr _ | JObj _ => true
  end.

Definition is_finite (n : float) : bool :=
  negb (PrimFloat.is_nan n || PrimFloat.is_infinity n).

(** The number the text of a finite number reads back as: a negative zero
    is written as [0]. *)
Definition json_number (n : float) : float :=
  if PrimFloat.eqb n 0 then 0%float else n.

(** [JSON.parse (JSON.stringify v)]: a number that is not finite is
    written as [null]. *)
Fixpoint JSON_stringify_parse (v : JSON) : JSON :=
  match v with
  | JNum n => if is_finite n then JNum (json_number n) else JNull
  | JArr items => JArr (List.map JSON_stringify_parse items)
  | JObj fields =>
      JObj (List.map (fun kv => (fst kv, JSON_stringify_parse (snd kv))) fields)
  | _ => v
  end.

(** ** three.js, as far as the extension touches it *)

Module Three.

Record Vector3 : Type := mkVector3 { vx : float; vy : float; vz : float }.

Record Quaternion : Type :=
  mkQuaternion { qx : float; qy : float; qz : float; qw : float }.

Inductive EulerOrder : Type := XYZ | YXZ.

Record Euler : Type :=
  mkEuler { ex : float; ey : float; ez : float; order : EulerOrder }.

Definition Vector3_zero : Vector3 := mkVector3 0 0 0.
Definition Vector3_one : Vector3 := mkVector3 1 1 1.
Definition Quaternion_identity : Quaternion := mkQuaternion 0 0 0 1.
Definition Euler_default : Euler := mkEuler 0 0 0 XYZ.

(** [a.add(b)] *)
Definition Vector3_add (a b : Vector3) : Vector3 :=
  mkVector3 (vx a + vx b) (vy a + vy b) (vz a + vz b).

(** [a.distanceTo(b)], the square root of [distanceToSquared]. *)
Definition Vector3_distanceTo (a b : Vector3) : float :=
  let dx := (vx a - vx b)%float in
  let dy := (vy a - vy b)%float in
  let dz := (vz a - vz b)%float in
  PrimFloat.sqrt (dx * dx + dy * dy + dz * dz).

(** A [Color] is represented by the packed 24-bit integer [getHex]
    reports for it. *)
Definition Color := Z.
Definition white : Color := 16777215%Z.

Definition hex_digit_value (c : Ascii.ascii) : option Z :=
  let n := Z.of_N (Ascii.N_of_ascii c) in
  if ((48 <=? n) && (n <=? 57))%Z then Some (n - 48)%Z
  else if ((97 <=? n) && (n <=? 102))%Z then Some (n - 87)%Z
  else if ((65 <=? n) && (n <=? 70))%Z then Some (n - 55)%Z
  else None.

Fixpoint parse_hex (s : string) (acc : Z) : option Z :=
  match s with
  | EmptyString => Some acc
  | String c rest =>
      match hex_digit_value c with
      | Some d => parse_hex rest (16 * acc + d)%Z
      | None => None
      end
  end.

Inductive Material : Type :=
| DefaultMaterial                    (* [_sharedMaterials.default] *)
| ClonedMaterial (color : Color).    (* a private clone *)

Definition Material_color (m : Material) : Color :=
  match m with
  | DefaultMaterial => white
  | ClonedMaterial c => c
  end.

(** The three classes [createObject] instantiates. *)
Inductive Node : Type :=
| Mesh (geometry : string) (material : Material)
| PointLight (color : Color) (intensity distance : float)
| PerspectiveCamera (fov aspect near far : float).

(** [obj.parent]: [null], the scene, or another object (by [id]). *)
Inductive Parent : Type :=
| NoParent
| SceneRoot
| ParentObject (pid : positive).

Record Object3D : Type := mkObject3D {
  id : positive;
  name : string;
  userData_type : option string;   (* [None] is [undefined] *)
  node : Node;
  position : Vector3;
  rotation : Euler;
  quaternion : Quaternion;
  scale : Vector3;
  castShadow : bool;
  receiveShadow : bool;
  parent : Parent
}.

Definition isMesh (o : Object3D) : bool :=
  match node o with Mesh _ _ => true | _ => false end.
Definition isLight (o : Object3D) : bool :=
  match node o with PointLight _ _ _ => true | _ => false end.
Definition isCamera (o : Object3D) : bool :=
  match node o with PerspectiveCamera _ _ _ _ => true | _ => false end.

Definition with_position (p : Vector3) (o : Object3D) : Object3D :=
  mkObject3D (id o) (name o) (userData_type o) (node o) p (rotation o)
             (quaternion o) (scale o) (castShadow o) (receiveShadow o) (parent o).

Definition with_orientation (e : Euler) (q : Quaternion) (o : Object3D) : Object3D :=
  mkObject3D (id o) (name o) (userData_type o) (node o) (position o) e
             q (scale o) (castShadow o) (receiveShadow o) (parent o).

Definition with_scale (v : Vector3) (o : Object3D) : Object3D :=
  mkObject3D (id o) (name o) (userData_type o) (node o) (position o) (rotation o)
             (quaternion o) v (castShadow o) (receiveShadow o) (parent o).

Definition with_node (n : Node) (o : Object3D) : Object3D :=
  mkObject3D (id o) (name o) (userData_type o) n (position o) (rotation o)
             (quaternion o) (scale o) (castShadow o) (receiveShadow o) (parent o).

Definition with_shadows (cast receive : bool) (o : Object3D) : Object3D :=
  mkObject3D (id o) (name o) (userData_type o) (node o) (position o) (rotation o)
             (quaternion o) (scale o) cast receive (parent o).

Definition with_parent (p : Parent) (o : Object3D) : Object3D :=
  mkObject3D (id o) (name o) (userData_type o) (node o) (position o) (rotation o)
             (quaternion o) (scale o) (castShadow o) (receiveShadow o) p.

(** *** World transforms

    [Matrix4.compose], [Matrix4.multiplyMatrices] and
    [Vector3.setFromMatrixPosition]; [nRC] is the entry in row [R] and
    column [C]. *)
Record Matrix4 : Type := mkMatrix4 {
  n11 : float; n12 : float; n13 : float; n14 : float;
  n21 : float; n22 : float; n23 : float; n24 : float;
  n31 : float; n32 : float; n33 : float; n34 : float;
  n41 : float; n42 : float; n43 : float; n44 : float
}.

Definition Matrix4_identity : Matrix4 :=
  mkMatrix4 1 0 0 0  0 1 0 0  0 0 1 0  0 0 0 1.

Definition Matrix4_compose (p : Vector3) (q : Quaternion) (s : Vector3) : Matrix4 :=
  let x := qx q in let y := qy q in let z := qz q in let w := qw q in
  let x2 := (x + x)%float in let y2 := (y + y)%float in let z2 := (z + z)%float in
  let xx := (x * x2)%float in let xy := (x * y2)%float in let xz := (x * z2)%float in
  let yy := (y * y2)%float in let yz := (y * z2)%float in let zz := (z * z2)%float in
  let wx := (w * x2)%float in let wy := (w * y2)%float in let wz := (w * z2)%float in
  let sx := vx s in let sy := vy s in let sz := vz s in
  mkMatrix4
    ((1 - (yy + zz)) * sx) ((xy - wz) * sy) ((xz + wy) * sz) (vx p)
    ((xy + wz) * sx) ((1 - (xx + zz)) * sy) ((yz - wx) * sz) (vy p)
    ((xz - wy) * sx) ((yz + wx) * sy) ((1 - (xx + yy)) * sz) (vz p)
    0 0 0 1.

Definition dot4 (a1 a2 a3 a4 b1 b2 b3 b4 : float) : float :=
  (a1 * b1 + a2 * b2 + a3 * b3 + a4 * b4)%float.

Definition Matrix4_multiplyMatrices (a b : Matrix4) : Matrix4 :=
  let row1 := dot4 (n11 a) (n12 a) (n13 a) (n14 a) in
  let row2 := dot4 (n21 a) (n22 a) (n23 a) (n24 a) in
  let row3 := dot4 (n31 a) (n32 a) (n33 a) (n34 a) in
  let row4 := dot4 (n41 a) (n42 a) (n43 a) (n44 a) in
  let col (r : float -> float -> float -> float -> float) (c : nat) : float :=
    match c with
    | 0%nat => r (n11 b) (n21 b) (n31 b) (n41 b)
    | 1%nat => r (n12 b) (n22 b) (n32 b) (n42 b)
    | 2%nat => r (n13 b) (n23 b) (n33 b) (n43 b)
    | _ => r (n14 b) (n24 b) (n34 b) (n44 b)
    end in
  mkMatrix4
    (col row1 0%nat) (col row1 1%nat) (col row1 2%nat) (col row1 3%nat)
    (col row2 0%nat) (col row2 1%nat) (col row2 2%nat) (col row2 3%nat)
    (col row3 0%nat) (col row3 1%nat) (col row3 2%nat) (col row3 3%nat)
    (col row4 0%nat) (col row4 1%nat) (col row4 2%nat) (col row4 3%nat).

Definition Vector3_setFromMatrixPosition (m : Matrix4) : Vector3 :=
  mkVector3 (n14 m) (n24 m) (n34 m).

(** [obj.matrix] after [updateMatrix]. *)
Definition Object3D_matrix (o : Object3D) : Matrix4 :=
  Matrix4_compose (position o) (quaternion o) (scale o).

End Three.

(** ** cannon.js, as far as the extension touches it *)

Module Cannon.

Record Vec3 : Type := mkVec3 { x : float; y : float; z : float }.

Record Quaternion : Type :=
  mkQuaternion { qx : float; qy : float; qz : float; qw : float }.

Definition Vec3_zero : Vec3 := mkVec3 0 0 0.

Inductive BodyType : Type := DYNAMIC | STATIC.

(** A [CANNON.Material]: the shared default one, or one made for a body
    by [setPhysProp] (identified by its [id]). *)
Inductive Material : Type :=
| DefaultPhysMaterial
| NamedMaterial (mid : positive) (label : string).

Definition Material_eqb (a b : Material) : bool :=
  match a, b with
  | DefaultPhysMaterial, DefaultPhysMaterial => true
  | NamedMaterial i _, NamedMaterial j _ => Pos.eqb i j
  | _, _ => false
  end.

Record ContactMaterial : Type := mkContactMaterial {
  cm_a : Material;
  cm_b : Material;
  cm_friction : float;
  cm_restitution : float
}.

(** The collision shape [enablePhysics] attaches.  The sixteen small
    spheres of a donut are kept as one [Ring] descriptor. *)
Inductive Shape : Type :=
| Sphere (radius : float)
| Cylinder (radiusTop radiusBottom height : float) (numSegments : Z)
| Ring (R r : float) (segments : Z)
| Box (halfExtents : Vec3).

Record Body : Type := mkBody {
  id : positive;
  name : string;
  position : Vec3;
  quaternion : Quaternion;
  velocity : Vec3;
  angularVelocity : Vec3;
  mass : float;
  type : BodyType;
  material : Material;
  linearDamping : float;
  angularDamping : float;
  shape : Shape;
  awake : bool           (* [sleepState === AWAKE] *)
}.

Record World : Type := mkWorld {
  gravity : Vec3;
  bodies : gset positive;                 (* the ids in [world.bodies] *)
  contactmaterials : list ContactMaterial
}.

(** [world.getContactMaterial(m1, m2)] *)
Definition ContactMaterial_matches (m1 m2 : Material) (cm : ContactMaterial) : bool :=
  (Material_eqb (cm_a cm) m1 && Material_eqb (cm_b cm) m2)
  || (Material_eqb (cm_a cm) m2 && Material_eqb (cm_b cm) m1).

Definition World_getContactMaterial (w : World) (m1 m2 : Material)
  : option ContactMaterial :=
  List.find (ContactMaterial_matches m1 m2) (contactmaterials w).

Definition World_addBody (b : Body) (w : World) : World :=
  mkWorld (gravity w) ({[ id b ]} ∪ bodies w) (contactmaterials w).

Definition World_removeBody (b : Body) (w : World) : World :=
  mkWorld (gravity w) (bodies w ∖ {[ id b ]}) (contactmaterials w).

Definition World_addContactMaterial (cm : ContactMaterial) (w : World) : World :=
  mkWorld (gravity w) (bodies w) (contactmaterials w ++ [cm]).

Definition World_with_contactmaterials (l : list ContactMaterial) (w : World) : World :=
  mkWorld (gravity w) (bodies w) l.

Definition World_with_gravity (g : Vec3) (w : World) : World :=
  mkWorld g (bodies w) (contactmaterials w).

(** [body.position.set], [body.quaternion.set], both [velocity.set(0,0,0)]
    calls and [body.wakeUp()] of [_updatePhysicsTransform]. *)
Definition Body_with_transform (p : Vec3) (q : Quaternion) (b : Body) : Body :=
  mkBody (id b) (name b) p q Vec3_zero Vec3_zero (mass b) (type b)
         (material b) (linearDamping b) (angularDamping b) (shape b) true.

Definition Body_wakeUp (b : Body) : Body :=
  mkBody (id b) (name b) (position b) (quaternion b) (velocity b)
         (angularVelocity b) (mass b) (type b) (material b)
         (linearDamping b) (angularDamping b) (shape b) true.

Definition Body_with_material (m : Material) (b : Body) : Body :=
  mkBody (id b) (name b) (position b) (quaternion b) (velocity b)
         (angularVelocity b) (mass b) (type b) m
         (linearDamping b) (angularDamping b) (shape b) (awake b).

(** The [fixed] branch of [setPhysProp]: mass, type, and a zeroed linear
    velocity. *)
Definition Body_with_mass (m : float) (t : BodyType) (b : Body) : Body :=
  mkBody (id b) (name b) (position b) (quaternion b) Vec3_zero
         (angularVelocity b) m t (material b)
         (linearDamping b) (angularDamping b) (shape b) (awake b).

End Cannon.

(** The component-wise copies between the two libraries' vector types. *)
Definition Vec3_of_Vector3 (v : Three.Vector3) : Cannon.Vec3 :=
  Cannon.mkVec3 (Three.vx v) (Three.vy v) (Three.vz v).
Definition Vector3_of_Vec3 (v : Cannon.Vec3) : Three.Vector3 :=
  Three.mkVector3 (Cannon.x v) (Cannon.y v) (Cannon.z v).
Definition CQuaternion_of_Quaternion (q : Three.Quaternion) : Cannon.Quaternion :=
  Cannon.mkQuaternion (Three.qx q) (Three.qy q) (Three.qz q) (Three.qw q).
Definition Quaternion_of_CQuaternion (q : Cannon.Quaternion) : Three.Quaternion :=
  Three.mkQuaternion (Cannon.qx q) (Cannon.qy q) (Cannon.qz q) (Cannon.qw q).

(** ** The operations of the two engines that stay behind their API *)

Class Engine : Type := {
  (** [q.setFromEuler(e)] *)
  Quaternion_setFromEuler : Three.Euler -> Three.Quaternion;
  (** the three angles [e.setFromQuaternion(q, order)] stores *)
  Euler_setFromQuaternion :
    Three.Quaternion -> Three.EulerOrder -> float * float * float;
  (** [v.applyQuaternion(q)] and [v.normalize()] *)
  Vector3_applyQuaternion : Three.Vector3 -> Three.Quaternion -> Three.Vector3;
  Vector3_normalize : Three.Vector3 -> Three.Vector3;
  (** the quaternion [obj.lookAt(target)] leaves in [obj], given the
      registry the object lives in *)
  Object3D_lookAt :
    gmap string Three.Object3D -> Three.Object3D -> Three.Vector3 -> Three.Quaternion;
  (** the quaternion [obj.rotateY(angle)] leaves in [obj] *)
  Object3D_rotateY : Three.Quaternion -> float -> Three.Quaternion;
  (** [scene.attach(obj)]: the local transform that keeps the world
      transform of [obj] *)
  Scene_attach :
    gmap string Three.Object3D -> Three.Object3D
    -> Three.Vector3 * Three.Quaternion * Three.Vector3;
  (** [raycaster.intersectObjects(targets, false)] for a ray with the given
      origin, direction, near and far, in the registry the targets live
      in: the hits as (distance, object) *)
  Raycaster_intersectObjects :
    gmap string Three.Object3D
    -> Three.Vector3 -> Three.Vector3 -> float -> float -> list Three.Object3D
    -> list (float * Three.Object3D);
  (** [color.set(style)] for a style that is not [#] followed by three or
      six hexadecimal digits *)
  Color_setStyle : string -> Three.Color -> Three.Color;
  (** the state [world.step(fixedTimeStep, dt, maxSubSteps)] leaves in one
      body of the world, given the world and all its bodies *)
  World_step :
    float -> float -> Z -> Cannon.World -> list Cannon.Body -> Cannon.Body -> Cannon.Body;
  (** [body.applyImpulse(impulse, point)] *)
  Body_applyImpulse : Cannon.Vec3 -> Cannon.Vec3 -> Cannon.Body -> Cannon.Body
}.

(** ** The extension instance *)

(** An entry of [objectPhysData]. *)
Record PhysData : Type := mkPhysData {
  enabled : bool;
  pd_mass : float;
  fixed : bool;
  friction : float;
  bounciness : float
}.

(** The fields of [Peng3D] the blocks read and write.  [renderer], [scene],
    [raycaster] and the helper canvas are handles into the engines; the
    scene graph is kept by the [parent] field of each object. *)
Record Peng3D : Type := mkPeng3D {
  objects : gmap string Three.Object3D;
  physicsBodies : gmap string Cannon.Body;
  objectPhysData : gmap string PhysData;
  world : Cannon.World;
  bodyToName : gmap positive string;
  _lastPhysTime : float;
  renderPending : bool;
  config_shadows : Z;
  config_renderDistance : float;
  activeCamera : option positive;   (* the [id] of the camera object *)
  _vec3 : Three.Vector3;
  _euler : Three.Euler;
  _cVec : Cannon.Vec3;
  nextObject3DId : positive;        (* three.js' object id counter *)
  nextBodyId : positive;            (* [CANNON.Body.idCounter] *)
  nextMaterialId : positive;        (* [CANNON.Material.idCounter] *)
  console_warnings : list string    (* what [console.warn] received *)
}.

Definition set_objects (v : gmap string Three.Object3D) (s : Peng3D) : Peng3D :=
  mkPeng3D v (physicsBodies s) (objectPhysData s) (world s) (bodyToName s)
    (_lastPhysTime s) (renderPending s) (config_shadows s)
    (config_renderDistance s) (activeCamera s) (_vec3 s) (_euler s) (_cVec s)
    (nextObject3DId s) (nextBodyId s) (nextMaterialId s) (console_warnings s).
Definition set_physicsBodies (v : gmap string Cannon.Body) (s : Peng3D) : Peng3D :=
  mkPeng3D (objects s) v (objectPhysData s) (world s) (bodyToName s)
    (_lastPhysTime s) (renderPending s) (config_shadows s)
    (config_renderDistance s) (activeCamera s) (_vec3 s) (_euler s) (_cVec s)
    (nextObject3DId s) (nextBodyId s) (nextMaterialId s) (console_warnings s).
Definition set_objectPhysData (v : gmap string PhysData) (s : Peng3D) : Peng3D :=
  mkPeng3D (objects s) (physicsBodies s) v (world s) (bodyToName s)
    (_lastPhysTime s) (renderPending s) (config_shadows s)
    (config_renderDistance s) (activeCamera s) (_vec3 s) (_euler s) (_cVec s)
    (nextObject3DId s) (nextBodyId s) (nextMaterialId s) (console_warnings s).
Definition set_world (v : Cannon.World) (s : Peng3D) : Peng3D :=
  mkPeng3D (objects s) (physicsBodies s) (objectPhysData s) v (bodyToName s)
    (_lastPhysTime s) (renderPending s) (config_shadows s)
    (config_renderDistance s) (activeCamera s) (_vec3 s) (_euler s) (_cVec s)
    (nextObject3DId s) (nextBodyId s) (nextMaterialId s) (console_warnings s).
Definition set_bodyToName (v : gmap positive string) (s : Peng3D) : Peng3D :=
  mkPeng3D (objects s) (physicsBodies s) (objectPhysData s) (world s) v
    (_lastPhysTime s) (renderPending s) (config_shadows s)
    (config_renderDistance s) (activeCamera s) (_vec3 s) (_euler s) (_cVec s)
    (nextObject3DId s) (nextBodyId s) (nextMaterialId s) (console_warnings s).
Definition set_lastPhysTime (v : float) (s : Peng3D) : Peng3D :=
  mkPeng3D (objects s) (physicsBodies s) (objectPhysData s) (world s)
    (bodyToName s) v (renderPending s) (config_shadows s)
    (config_renderDistance s) (activeCamera s) (_vec3 s) (_euler s) (_cVec s)
    (nextObject3DId s) (nextBodyId s) (nextMaterialId s) (console_warnings s).
Definition set_renderPending (v : bool) (s : Peng3D) : Peng3D :=
  mkPeng3D (objects s) (physicsBodies s) (objectPhysData s) (world s)
    (bodyToName s) (_lastPhysTime s) v (config_shadows s)
    (config_renderDistance s) (activeCamera s) (_vec3 s) (_euler s) (_cVec s)
    (nextObject3DId s) (nextBodyId s) (nextMaterialId s) (console_warnings s).
Definition set_config_shadows (v : Z) (s : Peng3D) : Peng3D :=
  mkPeng3D (objects s) (physicsBodies s) (objectPhysData s) (world s)
    (bodyToName s) (_lastPhysTime s) (renderPending s) v
    (config_renderDistance s) (activeCamera s) (_vec3 s) (_euler s) (_cVec s)
    (nextObject3DId s) (nextBodyId s) (nextMaterialId s) (console_warnings s).
Definition set_config_renderDistance (v : float) (s : Peng3D) : Peng3D :=
  mkPeng3D (objects s) (physicsBodies s) (objectPhysData s) (world s)
    (bodyToName s) (_lastPhysTime s) (renderPending s) (config_shadows s) v
    (activeCamera s) (_vec3 s) (_euler s) (_cVec s) (nextObject3DId s)
    (nextBodyId s) (nextMaterialId s) (console_warnings s).
Definition set_activeCamera (v : option positive) (s : Peng3D) : Peng3D :=
  mkPeng3D (objects s) (physicsBodies s) (objectPhysData s) (world s)
    (bodyToName s) (_lastPhysTime s) (renderPending s) (config_shadows s)
    (config_renderDistance s) v (_vec3 s) (_euler s) (_cVec s)
    (nextObject3DId s) (nextBodyId s) (nextMaterialId s) (console_warnings s).
Definition set_vec3 (v : Three.Vector3) (s : Peng3D) : Peng3D :=
  mkPeng3D (objects s) (physicsBodies s) (objectPhysData s) (world s)
    (bodyToName s) (_lastPhysTime s) (renderPending s) (config_shadows s)
    (config_renderDistance s) (activeCamera s) v (_euler s) (_cVec s)
    (nextObject3DId s) (nextBodyId s) (nextMaterialId s) (console_warnings s).
Definition set_euler (v : Three.Euler) (s : Peng3D) : Peng3D :=
  mkPeng3D (objects s) (physicsBodies s) (objectPhysData s) (world s)
    (bodyToName s) (_lastPhysTime s) (renderPending s) (config_shadows s)
    (config_renderDistance s) (activeCamera s) (_vec3 s) v (_cVec s)
    (nextObject3DId s) (nextBodyId s) (nextMaterialId s) (console_warnings s).
Definition set_cVec (v : Cannon.Vec3) (s : Peng3D) : Peng3D :=
  mkPeng3D (objects s) (physicsBodies s) (objectPhysData s) (world s)
    (bodyToName s) (_lastPhysTime s) (renderPending s) (config_shadows s)
    (config_renderDistance s) (activeCamera s) (_vec3 s) (_euler s) v
    (nextObject3DId s) (nextBodyId s) (nextMaterialId s) (console_warnings s).
Definition set_nextObject3DId (v : positive) (s : Peng3D) : Peng3D :=
  mkPeng3D (objects s) (physicsBodies s) (objectPhysData s) (world s)
    (bodyToName s) (_lastPhysTime s) (renderPending s) (config_shadows s)
    (config_renderDistance s) (activeCamera s) (_vec3 s) (_euler s) (_cVec s)
    v (nextBodyId s) (nextMaterialId s) (console_warnings s).
Definition set_nextBodyId (v : positive) (s : Peng3D) : Peng3D :=
  mkPeng3D (objects s) (physicsBodies s) (objectPhysData s) (world s)
    (bodyToName s) (_lastPhysTime s) (renderPending s) (config_shadows s)
    (config_renderDistance s) (activeCamera s) (_vec3 s) (_euler s) (_cVec s)
    (nextObject3DId s) v (nextMaterialId s) (console_warnings s).
Definition set_nextMaterialId (v : positive) (s : Peng3D) : Peng3D :=
  mkPeng3D (objects s) (physicsBodies s) (objectPhysData s) (world s)
    (bodyToName s) (_lastPhysTime s) (renderPending s) (config_shadows s)
    (config_renderDistance s) (activeCamera s) (_vec3 s) (_euler s) (_cVec s)
    (nextObject3DId s) (nextBodyId s) v (console_warnings s).
Definition set_console_warnings (v : list string) (s : Peng3D) : Peng3D :=
  mkPeng3D (objects s) (physicsBodies s) (objectPhysData s) (world s)
    (bodyToName s) (_lastPhysTime s) (renderPending s) (config_shadows s)
    (config_renderDistance s) (activeCamera s) (_vec3 s) (_euler s) (_cVec s)
    (nextObject3DId s) (nextBodyId s) (nextMaterialId s) v.

(** How a block ends: normally, by an exception that leaves the block, or
    on a value for which JavaScript would store something that is not a
    number, a string key or a type name in the scene (such inputs are
    outside this embedding). *)
Inductive Completion : Type :=
| Normal (s : Peng3D)
| Throw (s : Peng3D)
| Unmodelled.

(** What a reporter block hands back to the script. *)
Inductive Reported : Type :=
| RNumber (n : float)
| RString (str : string).

Definition PI : float := 3.141592653589793.
Definition d2r : float := (PI / 180)%float.
Definition r2d : float := (180 / PI)%float.

(** The keys of [_sharedGeometries]. *)
Definition _sharedGeometries (type : string) : bool :=
  String.eqb type "Cube" || String.eqb type "Sphere" || String.eqb type "Cone"
  || String.eqb type "Cylinder" || String.eqb type "Donut".

(** [obj.userData.type || 'Cube'] *)
Definition type_or_Cube (type : option string) : string :=
  match type with
  | Some t => if String.eqb t "" then "Cube" else t
  | None => "Cube"
  end.

(** The instance [_ensureInit] leaves behind: an empty scene, gravity
    [(0, -9.8, 0)], the default contact material, and the physics clock at
    its initial [0]. *)
Definition Peng3D_init : Peng3D :=
  mkPeng3D ∅ ∅ ∅
    (Cannon.mkWorld (Cannon.mkVec3 0 (-9.8) 0) ∅
       [Cannon.mkContactMaterial Cannon.DefaultPhysMaterial
          Cannon.DefaultPhysMaterial 0.3 0.1])
    ∅ 0%float false 1%Z 100%float None
    Three.Vector3_zero Three.Euler_default Cannon.Vec3_zero
    1%positive 1%positive 1%positive [].

(** [color.set(style)] when [style] is [#] followed by three or six
    hexadecimal digits; [None] for every other style. *)
Definition Color_hexStyle (style : string) : option Three.Color :=
  match style with
  | String "#"%char hex =>
      match hex with
      | String a (String b (String c EmptyString)) =>
          match Three.hex_digit_value a, Three.hex_digit_value b,
                Three.hex_digit_value c with
          | Some r, Some g, Some bl =>
              Some (r * 17 * 65536 + g * 17 * 256 + bl * 17)%Z
          | _, _, _ => None
          end
      | _ =>
          if (String.length hex =? 6)%nat then Three.parse_hex hex 0%Z else None
      end
  | _ => None
  end.

(** [n.toString(16).padStart(6, '0')] for a non-negative integer [n]. *)
Definition hex_digit (d : Z) : Ascii.ascii :=
  if (d <? 10)%Z then Ascii.ascii_of_N (Z.to_N (48 + d))
  else Ascii.ascii_of_N (Z.to_N (87 + d)).

Fixpoint to_hex (fuel : nat) (n : Z) (acc : string) : string :=
  match fuel with
  | O => acc
  | S fuel' =>
      let acc' := String (hex_digit (n mod 16)) acc in
      if (n / 16 =? 0)%Z then acc' else to_hex fuel' (n / 16) acc'
  end.

Fixpoint pad_zeros (k : nat) (str : string) : string :=
  match k with
  | O => str
  | S k' => String "0"%char (pad_zeros k' str)
  end.

Definition toString16_padStart6 (n : Z) : string :=
  let digits := to_hex 300 n "" in
  pad_zeros (6 - String.length digits) digits.

(** The integer a number denotes, when it denotes one. *)
Definition integer_value (n : float) : option Z :=
  match FloatOps.Prim2SF n with
  | SpecFloat.S754_zero _ => Some 0%Z
  | SpecFloat.S754_finite sign m e =>
      let magnitude :=
        if (0 <=? e)%Z then Some (Z.pos m * 2 ^ e)%Z
        else if (Z.pos m mod 2 ^ (- e) =? 0)%Z then Some (Z.pos m / 2 ^ (- e))%Z
        else None in
      if sign then option_map Z.opp magnitude else magnitude
  | _ => None
  end.

(** [color.getHex()] as the number the serialiser writes. *)
Definition number_of_color (c : Three.Color) : float :=
  PrimFloat.of_uint63 (Uint63.of_Z c).

(** ** The scene graph

    Objects refer to their parent by [id]; [find_by_id] resolves such a
    reference in the registry. *)

Definition find_by_id (objs : gmap string Three.Object3D) (i : positive)
  : option Three.Object3D :=
  List.find (fun o => Pos.eqb (Three.id o) i) (map_to_list objs).*2.

(** [scene.traverse] reaches an object when its chain of parents ends in
    the scene. *)
Fixpoint in_scene (fuel : nat) (objs : gmap string Three.Object3D)
                  (o : Three.Object3D) : bool :=
  match Three.parent o with
  | Three.SceneRoot => true
  | Three.NoParent => false
  | Three.ParentObject pid =>
      match fuel with
      | O => false
      | S fuel' =>
          match find_by_id objs pid with
          | Some p => in_scene fuel' objs p
          | None => false
          end
      end
  end.

(** [obj.getWorldPosition()]: the translation of [matrixWorld], which is
    [matrix] for an object without parent and the parent's [matrixWorld]
    times [matrix] otherwise.  The scene itself stays at the identity.
    [None] when the chain of parents leaves the registry or does not end
    within [fuel] steps. *)
Fixpoint matrixWorld (fuel : nat) (objs : gmap string Three.Object3D)
                     (o : Three.Object3D) : option Three.Matrix4 :=
  match Three.parent o with
  | Three.NoParent => Some (Three.Object3D_matrix o)
  | Three.SceneRoot =>
      Some (Three.Matrix4_multiplyMatrices Three.Matrix4_identity
                                           (Three.Object3D_matrix o))
  | Three.ParentObject pid =>
      match fuel with
      | O => None
      | S fuel' =>
          match find_by_id objs pid with
          | Some p =>
              match matrixWorld fuel' objs p with
              | Some m =>
                  Some (Three.Matrix4_multiplyMatrices m (Three.Object3D_matrix o))
              | None => None
              end
          | None => None
          end
      end
  end.

Definition getWorldPosition (s : Peng3D) (o : Three.Object3D)
  : option Three.Vector3 :=
  option_map Three.Vector3_setFromMatrixPosition
             (matrixWorld (size (objects s)) (objects s) o).

Section Blocks.

Context {E : Engine}.

(** *** Render scheduling *)

Definition _requestRender (s : Peng3D) : Peng3D :=
  if renderPending s then s else set_renderPending true s.

(** The callback handed to [requestAnimationFrame]. *)
Definition animationFrame (s : Peng3D) : Peng3D :=
  set_renderPending false s.

(** *** Object management *)

Definition _disposeObject (obj : option Three.Object3D) (name : string)
                          (s : Peng3D) : Peng3D :=
  match obj with
  | None => s
  | Some _ =>
      let s1 :=
        match physicsBodies s !! name with
        | Some body =>
            set_objectPhysData (delete name (objectPhysData s))
              (set_physicsBodies (delete name (physicsBodies s))
                 (set_bodyToName (delete (Cannon.id body) (bodyToName s))
                    (set_world (Cannon.World_removeBody body (world s)) s)))
        | None => s
        end in
      set_objects (delete name (objects s1)) s1
  end.

(** The object [createObject] builds for [type], before it is named. *)
Definition new_node (s : Peng3D) (type : option string) : Three.Node :=
  match type with
  | Some t =>
      if _sharedGeometries t then Three.Mesh t Three.DefaultMaterial
      else if String.eqb t "Light" then Three.PointLight Three.white 1 100
      else if String.eqb t "Camera" then
        Three.PerspectiveCamera 75 (480 / 360) 0.1 (config_renderDistance s)
      else Three.Mesh "Cube" Three.DefaultMaterial
  | None => Three.Mesh "Cube" Three.DefaultMaterial
  end.

Definition createObject (TYPE : option string) (NAME : string)
                        (s : Peng3D) : Peng3D :=
  let s1 :=
    match objects s !! NAME with
    | Some old => _disposeObject (Some old) NAME s
    | None => s
    end in
  let n := new_node s1 TYPE in
  let shadows := bool_decide (config_shadows s1 = 1%Z) in
  let cast :=
    match n with
    | Three.Mesh _ _ | Three.PointLight _ _ _ => shadows
    | Three.PerspectiveCamera _ _ _ _ => false
    end in
  let receive :=
    match n with
    | Three.Mesh _ _ => shadows
    | _ => false
    end in
  let obj :=
    Three.mkObject3D (nextObject3DId s1) NAME TYPE n
      Three.Vector3_zero Three.Euler_default Three.Quaternion_identity
      Three.Vector3_one cast receive Three.SceneRoot in
  _requestRender
    (set_objects (<[NAME := obj]> (objects s1))
       (set_nextObject3DId (Pos.succ (nextObject3DId s1)) s1)).

Definition deleteObject (NAME : string) (s : Peng3D) : Peng3D :=
  _requestRender (_disposeObject (objects s !! NAME) NAME s).

Definition deleteAllObjects (s : Peng3D) : Peng3D :=
  let s1 :=
    foldl (fun acc name => _disposeObject (objects acc !! name) name acc)
          s (map_to_list (objects s)).*1 in
  _requestRender (set_lastPhysTime 0%float (set_activeCamera None s1)).

(** *** Transforms *)

(** [obj.rotation.set(x, y, z)]: the quaternion follows the Euler angles. *)
Definition Object3D_setRotation (x y z : float) (o : Three.Object3D)
  : Three.Object3D :=
  let e := Three.mkEuler x y z (Three.order (Three.rotation o)) in
  Three.with_orientation e (Quaternion_setFromEuler e) o.

(** [e.setFromQuaternion(q, order)] *)
Definition Euler_ofQuaternion (q : Three.Quaternion) (order : Three.EulerOrder)
  : Three.Euler :=
  let '(x, y, z) := Euler_setFromQuaternion q order in
  Three.mkEuler x y z order.

(** Any write to [obj.quaternion]: the Euler angles follow the
    quaternion, in the order [obj.rotation] already has. *)
Definition Object3D_setQuaternion (q : Three.Quaternion) (o : Three.Object3D)
  : Three.Object3D :=
  Three.with_orientation
    (Euler_ofQuaternion q (Three.order (Three.rotation o))) q o.

Definition _updatePhysicsTransform (name : string) (s : Peng3D) : Peng3D :=
  match physicsBodies s !! name, objects s !! name with
  | Some body, Some obj =>
      set_physicsBodies
        (<[name := Cannon.Body_with_transform
                     (Vec3_of_Vector3 (Three.position obj))
                     (CQuaternion_of_Quaternion (Three.quaternion obj))
                     body]> (physicsBodies s)) s
  | _, _ => s
  end.

Definition setPos (NAME : string) (X Y Z : float) (s : Peng3D) : Peng3D :=
  match objects s !! NAME with
  | None => s
  | Some obj =>
      let obj' := Three.with_position (Three.mkVector3 X Y Z) obj in
      _requestRender
        (_updatePhysicsTransform NAME
           (set_objects (<[NAME := obj']> (objects s)) s))
  end.

Definition changePosition (NAME : string) (X Y Z : float) (s : Peng3D) : Peng3D :=
  match objects s !! NAME with
  | None => s
  | Some obj =>
      let p := Three.position obj in
      let obj' :=
        Three.with_position
          (Three.mkVector3 (Three.vx p + X) (Three.vy p + Y) (Three.vz p + Z))
          obj in
      _requestRender
        (_updatePhysicsTransform NAME
           (set_objects (<[NAME := obj']> (objects s)) s))
  end.

Definition moveObject (NAME : string) (X Y Z : float) (s : Peng3D) : Peng3D :=
  match objects s !! NAME with
  | None => s
  | Some obj =>
      let v :=
        Vector3_applyQuaternion (Three.mkVector3 X Y (- Z))
                                (Three.quaternion obj) in
      let obj' :=
        Three.with_position (Three.Vector3_add (Three.position obj) v) obj in
      _requestRender
        (_updatePhysicsTransform NAME
           (set_objects (<[NAME := obj']> (objects s)) (set_vec3 v s)))
  end.

Definition setRot (NAME : string) (X Y Z : float) (s : Peng3D) : Peng3D :=
  match objects s !! NAME with
  | None => s
  | Some obj =>
      let obj' := Object3D_setRotation (X * d2r) (Y * d2r) (Z * d2r) obj in
      _requestRender
        (_updatePhysicsTransform NAME
           (set_objects (<[NAME := obj']> (objects s)) s))
  end.

Definition changeRotation (NAME : string) (X Y Z : float) (s : Peng3D) : Peng3D :=
  match objects s !! NAME with
  | None => s
  | Some obj =>
      let e0 :=
        Euler_ofQuaternion (Three.quaternion obj) (Three.order (_euler s)) in
      let e :=
        Three.mkEuler (Three.ex e0 + X * d2r) (Three.ey e0 + Y * d2r)
                      (Three.ez e0 + Z * d2r) (Three.order e0) in
      let obj' := Object3D_setQuaternion (Quaternion_setFromEuler e) obj in
      _requestRender
        (_updatePhysicsTransform NAME
           (set_objects (<[NAME := obj']> (objects s)) (set_euler e s)))
  end.

Definition setRotYawPitch (NAME : string) (YAW PITCH : float) (s : Peng3D)
  : Peng3D :=
  match objects s !! NAME with
  | None => s
  | Some obj =>
      let e := Three.mkEuler (PITCH * d2r) (- YAW * d2r) 0 Three.YXZ in
      let obj' := Object3D_setQuaternion (Quaternion_setFromEuler e) obj in
      _requestRender
        (_updatePhysicsTransform NAME
           (set_objects (<[NAME := obj']> (objects s)) (set_euler e s)))
  end.

Definition lookAtObject (NAME TARGET : string) (s : Peng3D) : Peng3D :=
  match objects s !! NAME, objects s !! TARGET with
  | Some obj, Some target =>
      let q1 := Object3D_lookAt (objects s) obj (Three.position target) in
      let obj1 := Object3D_setQuaternion q1 obj in
      let obj' :=
        Object3D_setQuaternion (Object3D_rotateY (Three.quaternion obj1) PI)
                               obj1 in
      _requestRender
        (_updatePhysicsTransform NAME
           (set_objects (<[NAME := obj']> (objects s)) s))
  | _, _ => s
  end.

Definition setScale (NAME : string) (X Y Z : float) (s : Peng3D) : Peng3D :=
  match objects s !! NAME with
  | None => s
  | Some obj =>
      _requestRender
        (set_objects
           (<[NAME := Three.with_scale (Three.mkVector3 X Y Z) obj]> (objects s))
           s)
  end.

(** *** Appearance *)

Definition Color_set (style : string) (current : Three.Color) : Three.Color :=
  match Color_hexStyle style with
  | Some c => c
  | None => Color_setStyle style current
  end.

Definition setColor (NAME : string) (COLOR : string) (s : Peng3D) : Peng3D :=
  match objects s !! NAME with
  | None => s
  | Some obj =>
      let obj' :=
        match Three.node obj with
        | Three.Mesh g m =>
            Three.with_node
              (Three.Mesh g
                 (Three.ClonedMaterial (Color_set COLOR (Three.Material_color m))))
              obj
        | Three.PointLight c i d =>
            Three.with_node (Three.PointLight (Color_set COLOR c) i d) obj
        | Three.PerspectiveCamera _ _ _ _ => obj
        end in
      _requestRender (set_objects (<[NAME := obj']> (objects s)) s)
  end.

Definition setCamera (NAME : string) (s : Peng3D) : Peng3D :=
  match objects s !! NAME with
  | Some obj =>
      match Three.node obj with
      | Three.PerspectiveCamera fov _ near far =>
          let obj' :=
            Three.with_node (Three.PerspectiveCamera fov (480 / 360) near far)
                            obj in
          _requestRender
            (set_activeCamera (Some (Three.id obj'))
               (set_objects (<[NAME := obj']> (objects s)) s))
      | _ => s
      end
  | None => s
  end.

Definition setLightProp (NAME PROP : string) (VAL : float) (s : Peng3D) : Peng3D :=
  match objects s !! NAME with
  | Some obj =>
      match Three.node obj with
      | Three.PointLight c i d =>
          let i' := if String.eqb PROP "intensity" then VAL else i in
          let d' := if String.eqb PROP "distance" then VAL else d in
          _requestRender
            (set_objects
               (<[NAME := Three.with_node (Three.PointLight c i' d') obj]>
                  (objects s)) s)
      | _ => s
      end
  | None => s
  end.

Definition setFOV (NAME : string) (FOV : float) (s : Peng3D) : Peng3D :=
  match objects s !! NAME with
  | Some obj =>
      match Three.node obj with
      | Three.PerspectiveCamera _ aspect near far =>
          _requestRender
            (set_objects
               (<[NAME := Three.with_node
                            (Three.PerspectiveCamera FOV aspect near far) obj]>
                  (objects s)) s)
      | _ => s
      end
  | None => s
  end.

(** *** Quality settings *)

(** [Math.max(a, b)] *)
Definition Math_max (a b : float) : float :=
  if PrimFloat.is_nan a then a
  else if PrimFloat.is_nan b then b
  else if PrimFloat.ltb a b then b
  else if PrimFloat.ltb b a then a
  else if PrimFloat.eqb a 0 then (a + b)%float   (* [max(-0, +0)] is [+0] *)
  else a.

Definition setQualitySetting (SETTING : string) (VALUE : float) (s : Peng3D)
  : Peng3D :=
  if String.eqb SETTING "shadows" then
    let shadows := if PrimFloat.leb 1 VALUE then 1%Z else 0%Z in
    let on := bool_decide (shadows = 1%Z) in
    let objs := objects s in
    _requestRender
      (set_objects
         ((fun o =>
             if Three.isMesh o && in_scene (size objs) objs o
             then Three.with_shadows on on o else o) <$> objs)
         (set_config_shadows shadows s))
  else if String.eqb SETTING "renderDistance" then
    let renderDistance := Math_max 1 VALUE in
    _requestRender
      (set_objects
         ((fun o =>
             match Three.node o with
             | Three.PerspectiveCamera fov aspect near _ =>
                 Three.with_node
                   (Three.PerspectiveCamera fov aspect near renderDistance) o
             | _ => o
             end) <$> objects s)
         (set_config_renderDistance renderDistance s))
  else _requestRender s.

(** *** Grouping *)

Definition groupObjects (CHILD PARENT : string) (s : Peng3D) : Peng3D :=
  match objects s !! CHILD, objects s !! PARENT with
  | Some child, Some parent =>
      if Pos.eqb (Three.id child) (Three.id parent) then s
      else
        let s1 :=
          match physicsBodies s !! CHILD with
          | Some body =>
              set_physicsBodies (delete CHILD (physicsBodies s))
                (set_world (Cannon.World_removeBody body (world s)) s)
          | None => s
          end in
        let child' :=
          Three.with_position Three.Vector3_zero
            (Three.with_parent (Three.ParentObject (Three.id parent)) child) in
        _requestRender (set_objects (<[CHILD := child']> (objects s1)) s1)
  | _, _ => s
  end.

Definition ungroupObject (NAME : string) (s : Peng3D) : Peng3D :=
  match objects s !! NAME with
  | Some obj =>
      match Three.parent obj with
      | Three.SceneRoot => s
      | _ =>
          let '(p, q, sc) := Scene_attach (objects s) obj in
          let obj' :=
            Three.with_parent Three.SceneRoot
              (Three.with_scale sc
                 (Object3D_setQuaternion q (Three.with_position p obj))) in
          _requestRender (set_objects (<[NAME := obj']> (objects s)) s)
      end
  | None => s
  end.

(** *** Physics *)

(** The shape [enablePhysics] derives from the type and the current
    scale. *)
Definition shape_for (type : string) (s : Three.Vector3) : Cannon.Shape :=
  if String.eqb type "Sphere" then Cannon.Sphere (0.6 * Three.vx s)
  else if String.eqb type "Cylinder" || String.eqb type "Cone" then
    let rTop := if String.eqb type "Cone" then 0.01%float
                else (0.5 * Three.vx s)%float in
    Cannon.Cylinder rTop (0.5 * Three.vx s) (1 * Three.vy s) 32
  else if String.eqb type "Donut" then
    Cannon.Ring (0.5 * Three.vx s) (0.2 * Three.vx s) 16
  else
    Cannon.Box (Cannon.mkVec3 (0.5 * Three.vx s) (0.5 * Three.vy s)
                              (0.5 * Three.vz s)).

Definition enablePhysics (NAME : string) (s : Peng3D) : Peng3D :=
  match objects s !! NAME with
  | None => s
  | Some obj =>
      if negb (Three.isMesh obj) then s
      else
        let s1 :=
          match physicsBodies s !! NAME with
          | Some old =>
              set_bodyToName (delete (Cannon.id old) (bodyToName s))
                (set_world (Cannon.World_removeBody old (world s)) s)
          | None => s
          end in
        let body :=
          Cannon.mkBody (nextBodyId s1) NAME
            (Vec3_of_Vector3 (Three.position obj))
            (CQuaternion_of_Quaternion (Three.quaternion obj))
            Cannon.Vec3_zero Cannon.Vec3_zero 1 Cannon.DYNAMIC
            Cannon.DefaultPhysMaterial 0.01 0.01
            (shape_for (type_or_Cube (Three.userData_type obj)) (Three.scale obj))
            true in
        set_objectPhysData
          (<[NAME := mkPhysData true 1 false 0.3 0.3]> (objectPhysData s1))
          (set_bodyToName (<[Cannon.id body := NAME]> (bodyToName s1))
             (set_physicsBodies (<[NAME := body]> (physicsBodies s1))
                (set_world (Cannon.World_addBody body (world s1))
                   (set_nextBodyId (Pos.succ (nextBodyId s1)) s1))))
  end.

(** The bodies [world.step] sees: those of the registry that are in the
    world. *)
Definition in_world (w : Cannon.World) (b : Cannon.Body) : bool :=
  bool_decide (Cannon.id b ∈ Cannon.bodies w).

Definition world_bodies (s : Peng3D) : list Cannon.Body :=
  List.filter (in_world (world s)) (map_to_list (physicsBodies s)).*2.

(** [this.world.step(fixedTimeStep, dt, maxSubSteps)]: every body of the
    world is left in the state the solver computes for it. *)
Definition world_step (fixedTimeStep dt : float) (maxSubSteps : Z)
                      (s : Peng3D) : Peng3D :=
  let all := world_bodies s in
  set_physicsBodies
    ((fun b => if in_world (world s) b
               then World_step fixedTimeStep dt maxSubSteps (world s) all b
               else b) <$> physicsBodies s) s.

(** [m.position.set(b.position..); m.quaternion.set(b.quaternion..)] *)
Definition body_onto_object (b : Cannon.Body) (m : Three.Object3D)
  : Three.Object3D :=
  Object3D_setQuaternion
    (Quaternion_of_CQuaternion (Cannon.quaternion b))
    (Three.with_position (Vector3_of_Vec3 (Cannon.position b)) m).

(** One turn of the loop that follows the step: body to object. *)
Definition copy_body_to_object (objs : gmap string Three.Object3D)
                               (entry : string * Cannon.Body)
  : gmap string Three.Object3D :=
  match objs !! fst entry with
  | Some m => <[fst entry := body_onto_object (snd entry) m]> objs
  | None => objs
  end.

(** [now] is what [performance.now()] returns in this call. *)
Definition stepPhysics (now : float) (s : Peng3D) : Peng3D :=
  if PrimFloat.eqb (_lastPhysTime s) 0 then set_lastPhysTime now s
  else
    let dt := ((now - _lastPhysTime s) / 1000)%float in
    let s1 := set_lastPhysTime now s in
    let s2 := world_step (1 / 60) dt 10 s1 in
    let objs :=
      foldl copy_body_to_object (objects s2) (map_to_list (physicsBodies s2)) in
    _requestRender (set_objects objs s2).

Definition pushObject (NAME : string) (X Y Z : float) (s : Peng3D) : Peng3D :=
  match physicsBodies s !! NAME with
  | None => s
  | Some body =>
      let impulse := Cannon.mkVec3 X Y Z in
      let body1 := Cannon.Body_wakeUp body in
      let body' := Body_applyImpulse impulse (Cannon.position body1) body1 in
      set_physicsBodies (<[NAME := body']> (physicsBodies s))
        (set_cVec impulse s)
  end.

Definition setGravity (GRAV : float) (s : Peng3D) : Peng3D :=
  set_world (Cannon.World_with_gravity (Cannon.mkVec3 0 GRAV 0) (world s)) s.

(** [cm.friction = ..; cm.restitution = ..] on the contact material
    [getContactMaterial] found. *)
Fixpoint update_first {A : Type} (P : A -> bool) (f : A -> A) (l : list A)
  : list A :=
  match l with
  | [] => []
  | a :: rest => if P a then f a :: rest else a :: update_first P f rest
  end.

Definition setPhysProp (NAME PROP : string) (VAL : float) (s : Peng3D)
  : Completion :=
  match physicsBodies s !! NAME with
  | None => Normal s
  | Some body =>
      let pData := objectPhysData s !! NAME in
      if String.eqb PROP "fixed" then
        match pData with
        | None => Throw s                 (* [pData.fixed] on [undefined] *)
        | Some pd =>
            let fx := PrimFloat.eqb VAL 1 in
            let pd' :=
              mkPhysData (enabled pd) (pd_mass pd) fx (friction pd)
                         (bounciness pd) in
            let body' :=
              Cannon.Body_wakeUp
                (Cannon.Body_with_mass
                   (if fx then 0%float else pd_mass pd)
                   (if fx then Cannon.STATIC else Cannon.DYNAMIC) body) in
            Normal
              (set_physicsBodies (<[NAME := body']> (physicsBodies s))
                 (set_objectPhysData (<[NAME := pd']> (objectPhysData s)) s))
        end
      else
        let writes :=
          String.eqb PROP "friction" || String.eqb PROP "bounciness" in
        match pData with
        | None =>
            if writes then Throw s
            else
              (* the body's material is replaced before [pData.friction]
                 is read *)
              match Cannon.material body with
              | Cannon.DefaultPhysMaterial =>
                  let m :=
                    Cannon.NamedMaterial (nextMaterialId s) ("mat_" ++ NAME) in
                  Throw
                    (set_physicsBodies
                       (<[NAME := Cannon.Body_with_material m body]>
                          (physicsBodies s))
                       (set_nextMaterialId (Pos.succ (nextMaterialId s)) s))
              | _ => Throw s
              end
        | Some pd =>
            let pd' :=
              mkPhysData (enabled pd) (pd_mass pd) (fixed pd)
                (if String.eqb PROP "friction" then VAL else friction pd)
                (if String.eqb PROP "bounciness" then VAL else bounciness pd) in
            let '(m, next) :=
              match Cannon.material body with
              | Cannon.DefaultPhysMaterial =>
                  (Cannon.NamedMaterial (nextMaterialId s) ("mat_" ++ NAME),
                   Pos.succ (nextMaterialId s))
              | other => (other, nextMaterialId s)
              end in
            let w := world s in
            let w' :=
              match Cannon.World_getContactMaterial w m
                      Cannon.DefaultPhysMaterial with
              | None =>
                  Cannon.World_addContactMaterial
                    (Cannon.mkContactMaterial m Cannon.DefaultPhysMaterial
                       (friction pd') (bounciness pd')) w
              | Some _ =>
                  Cannon.World_with_contactmaterials
                    (update_first
                       (Cannon.ContactMaterial_matches m
                          Cannon.DefaultPhysMaterial)
                       (fun cm =>
                          Cannon.mkContactMaterial (Cannon.cm_a cm)
                            (Cannon.cm_b cm) (friction pd') (bounciness pd'))
                       (Cannon.contactmaterials w)) w
              end in
            let body' := Cannon.Body_wakeUp (Cannon.Body_with_material m body) in
            Normal
              (set_physicsBodies (<[NAME := body']> (physicsBodies s))
                 (set_objectPhysData (<[NAME := pd']> (objectPhysData s))
                    (set_world w' (set_nextMaterialId next s))))
        end
  end.

(** *** Reporters *)

Definition getDistanceBetween (OBJ1 OBJ2 : string) (s : Peng3D) : Reported :=
  match objects s !! OBJ1, objects s !! OBJ2 with
  | Some obj1, Some obj2 =>
      RNumber (Three.Vector3_distanceTo (Three.position obj1)
                                        (Three.position obj2))
  | _, _ => RNumber 0
  end.

(** The ray [getLookingAt] hands to the raycaster. *)
Record Ray : Type := mkRay {
  origin : Three.Vector3;
  direction : Three.Vector3;
  near : float;
  far : float
}.

Definition lookingAt_ray (s : Peng3D) (obj : Three.Object3D) : Ray :=
  mkRay (Three.position obj)
        (Vector3_normalize
           (Vector3_applyQuaternion (Three.mkVector3 0 0 (-1))
                                    (Three.quaternion obj)))
        0.1 (config_renderDistance s).

(** All mesh objects except the source. *)
Definition lookingAt_targets (s : Peng3D) (obj : Three.Object3D)
  : list Three.Object3D :=
  List.filter
    (fun item => negb (Pos.eqb (Three.id item) (Three.id obj)) && Three.isMesh item)
    (map_to_list (objects s)).*2.

Definition getLookingAt (NAME : string) (s : Peng3D) : Reported * Peng3D :=
  match objects s !! NAME with
  | None => (RString "", s)
  | Some obj =>
      let ray := lookingAt_ray s obj in
      let intersects :=
        Raycaster_intersectObjects (objects s) (origin ray) (direction ray)
          (near ray) (far ray) (lookingAt_targets s obj) in
      (match intersects with
       | hit :: _ => RString (Three.name (snd hit))
       | [] => RString ""
       end,
       set_vec3 (direction ray) s)
  end.

(** The array reporters return the text of [JSON.stringify]; as for the
    scene text, the text is identified with the value it denotes. *)
Definition JSON_numbers (l : list float) : JSON :=
  JSON_stringify_parse (JArr (List.map JNum l)).

Definition getPosition (NAME : string) (s : Peng3D) : JSON :=
  match objects s !! NAME with
  | None => JArr []
  | Some obj =>
      let p := Three.position obj in
      JSON_numbers [Three.vx p; Three.vy p; Three.vz p]
  end.

Definition getScale (NAME : string) (s : Peng3D) : JSON :=
  match objects s !! NAME with
  | None => JArr []
  | Some obj =>
      let sc := Three.scale obj in
      JSON_numbers [Three.vx sc; Three.vy sc; Three.vz sc]
  end.

(** [this._euler.setFromQuaternion(obj.quaternion)] keeps the order the
    shared temporary has. *)
Definition getRotation (NAME : string) (s : Peng3D) : JSON * Peng3D :=
  match objects s !! NAME with
  | None => (JArr [], s)
  | Some obj =>
      let e := Euler_ofQuaternion (Three.quaternion obj) (Three.order (_euler s)) in
      (JSON_numbers [(Three.ex e * r2d)%float; (Three.ey e * r2d)%float;
                     (Three.ez e * r2d)%float],
       set_euler e s)
  end.

Definition getYawPitch (NAME : string) (s : Peng3D) : JSON * Peng3D :=
  match objects s !! NAME with
  | None => (JArr [], s)
  | Some obj =>
      let e := Euler_ofQuaternion (Three.quaternion obj) Three.YXZ in
      (JSON_numbers [(- Three.ey e * r2d)%float; (Three.ex e * r2d)%float],
       set_euler e s)
  end.

(** The name [getTouching] takes from one entry of [world.contacts], given
    as the ids of [c.bi] and [c.bj]: the other body's name in [bodyToName],
    unless that name is empty. *)
Definition touching_name (s : Peng3D) (target : positive)
                         (c : positive * positive) : option string :=
  let other :=
    if Pos.eqb (fst c) target then Some (snd c)
    else if Pos.eqb (snd c) target then Some (fst c)
    else None in
  match other with
  | Some i =>
      match bodyToName s !! i with
      | Some name => if String.eqb name "" then None else Some name
      | None => None
      end
  | None => None
  end.

(** [touching.add(name)] on a [Set] kept in insertion order. *)
Definition Set_add (set : list string) (name : string) : list string :=
  if bool_decide (name ∈ set) then set else set ++ [name].

(** [contacts] is [this.world.contacts] when the block runs. *)
Definition getTouching (contacts : list (positive * positive)) (NAME : string)
                       (s : Peng3D) : JSON :=
  match physicsBodies s !! NAME with
  | None => JArr []
  | Some target =>
      JArr (List.map JStr
              (foldl Set_add []
                 (omap (touching_name s (Cannon.id target)) contacts)))
  end.

(** *** Scene serialisation *)

Definition JSON_xyz (x y z : float) : JSON :=
  JObj [("x", JNum x); ("y", JNum y); ("z", JNum z)].

Definition JSON_physData (pd : PhysData) : JSON :=
  JObj [("enabled", JBool (enabled pd)); ("mass", JNum (pd_mass pd));
        ("fixed", JBool (fixed pd)); ("friction", JNum (friction pd));
        ("bounciness", JNum (bounciness pd))].

(** The [entry] the loop of [getSceneJSON] pushes for one key. *)
Definition scene_entry (s : Peng3D) (key : string) (obj : Three.Object3D) : JSON :=
  let p := Three.position obj in
  let r := Three.rotation obj in
  let sc := Three.scale obj in
  let color :=
    match Three.node obj with
    | Three.Mesh _ m => Three.Material_color m
    | Three.PointLight c _ _ => c
    | Three.PerspectiveCamera _ _ _ _ => Three.white
    end in
  let lightProps :=
    match Three.node obj with
    | Three.PointLight _ i d =>
        [("lightProps",
          JObj [("intensity", JNum i);
                ("distance", JNum (if truthy (JNum d) then d else 0%float))])]
    | _ => []
    end in
  let physics :=
    match objectPhysData s !! key with
    | Some pd => [("physics", JSON_physData pd)]
    | None => []
    end in
  JObj ([("name", JStr key);
         ("type", JStr (type_or_Cube (Three.userData_type obj)));
         ("pos", JSON_xyz (Three.vx p) (Three.vy p) (Three.vz p));
         ("rot", JSON_xyz (Three.ex r) (Three.ey r) (Three.ez r));
         ("scale", JSON_xyz (Three.vx sc) (Three.vy sc) (Three.vz sc));
         ("color", JNum (number_of_color color))]
        ++ lightProps ++ physics).

(** The array [data] of [getSceneJSON]. *)
Definition sceneData (s : Peng3D) : JSON :=
  JArr (List.map (fun kv => scene_entry s (fst kv) (snd kv))
                 (map_to_list (objects s))).

(** The value the text [JSON.stringify(data)] denotes. *)
Definition getSceneJSON (s : Peng3D) : JSON :=
  JSON_stringify_parse (sceneData s).

(** Sequencing of steps that may throw: the next step runs in the state a
    normal completion leaves. *)
Definition bind (c : Completion) (k : Peng3D -> Completion) : Completion :=
  match c with
  | Normal s => k s
  | other => other
  end.

Notation "s' <- c ;; k" := (bind c (fun s' => k))
  (at level 100, c at next level, right associativity).

(** The three numbers [v.x], [v.y], [v.z] of an object [v] that holds
    numbers there. *)
Definition xyz_of (fields : list (string * JSON)) : option (float * float * float) :=
  match JObj_get fields "x", JObj_get fields "y", JObj_get fields "z" with
  | Some (JNum x), Some (JNum y), Some (JNum z) => Some (x, y, z)
  | _, _, _ => None
  end.

Definition update_object (NAME : string) (f : Three.Object3D -> Three.Object3D)
                         (s : Peng3D) : Peng3D :=
  match objects s !! NAME with
  | Some obj => set_objects (<[NAME := f obj]> (objects s)) s
  | None => s
  end.

Definition truthy_field (fields : list (string * JSON)) (key : string) : bool :=
  match JObj_get fields key with
  | Some v => truthy v
  | None => false
  end.

(** [if (item.scale) obj.scale.set(..)] *)
Definition load_scale (NAME : string) (item : list (string * JSON))
                      (s : Peng3D) : Completion :=
  match JObj_get item "scale" with
  | Some (JObj sc) =>
      match xyz_of sc with
      | Some (x, y, z) =>
          Normal (update_object NAME (Three.with_scale (Three.mkVector3 x y z)) s)
      | None => Unmodelled
      end
  | Some v => if truthy v then Unmodelled else Normal s
  | None => Normal s
  end.

(** [if (item.color) this.setColor(..)] *)
Definition load_color (NAME : string) (item : list (string * JSON))
                      (s : Peng3D) : Completion :=
  match JObj_get item "color" with
  | Some v =>
      if truthy v then
        match v with
        | JNum n =>
            match integer_value n with
            | Some k =>
                if (0 <=? k)%Z
                then Normal (setColor NAME ("#" ++ toString16_padStart6 k) s)
                else Unmodelled
            | None => Unmodelled
            end
        | _ => Unmodelled
        end
      else Normal s
  | None => Normal s
  end.

(** [if (item.physics && item.physics.enabled) { .. }] *)
Definition load_physics (NAME : string) (item : list (string * JSON))
                        (s : Peng3D) : Completion :=
  match JObj_get item "physics" with
  | Some (JObj ph) =>
      if truthy_field ph "enabled" then
        let s1 := enablePhysics NAME s in
        if truthy_field ph "fixed" then setPhysProp NAME "fixed" 1 s1
        else Normal s1
      else Normal s
  | _ => Normal s
  end.

(** The body of the loop of [loadSceneJSON] once [item.type] and
    [item.name] have been read. *)
Definition load_entry (TYPE : option string) (NAME : string)
                      (f : list (string * JSON)) (s : Peng3D) : Completion :=
  let s1 := createObject TYPE NAME s in
  match objects s1 !! NAME with
  | None => Normal s1                                (* [continue] *)
  | Some _ =>
      match JObj_get f "pos" with
      | None | Some JNull => Throw s1                (* [item.pos.x] *)
      | Some (JObj pos) =>
          match xyz_of pos with
          | None => Unmodelled
          | Some (px, py, pz) =>
              let s2 :=
                update_object NAME
                  (Three.with_position (Three.mkVector3 px py pz)) s1 in
              match JObj_get f "rot" with
              | None | Some JNull => Throw s2        (* [item.rot.x] *)
              | Some (JObj rot) =>
                  match xyz_of rot with
                  | None => Unmodelled
                  | Some (rx, ry, rz) =>
                      let s3 :=
                        update_object NAME (Object3D_setRotation rx ry rz) s2 in
                      s4 <- load_scale NAME f s3 ;;
                      s5 <- load_color NAME f s4 ;;
                      load_physics NAME f s5
                  end
              | Some _ => Unmodelled
              end
          end
      | Some _ => Unmodelled
      end
  end.

(** One turn of the loop of [loadSceneJSON]. *)
Definition load_item (item : JSON) (s : Peng3D) : Completion :=
  match item with
  | JNull => Throw s                                 (* [item.type] on [null] *)
  | JObj f =>
      let type :=
        match JObj_get f "type" with
        | None => Some None
        | Some (JStr t) => Some (Some t)
        | Some _ => None
        end in
      match type, JObj_get f "name" with
      | Some TYPE, Some (JStr NAME) => load_entry TYPE NAME f s
      | _, _ => Unmodelled
      end
  | _ => Unmodelled
  end.

Fixpoint load_items (items : list JSON) (s : Peng3D) : Completion :=
  match items with
  | [] => Normal s
  | item :: rest => s1 <- load_item item s ;; load_items rest s1
  end.

(** The [try] block of [loadSceneJSON]; [text] is what [JSON.parse] makes
    of [args.JSON]. *)
Definition loadSceneJSON_try (text : ParseOutcome) (s : Peng3D) : Completion :=
  match text with
  | SyntaxError => Throw s
  | Parsed data =>
      let s1 := deleteAllObjects s in
      match data with
      | JArr items =>
          s2 <- load_items items s1 ;; Normal (_requestRender s2)
      | JStr str =>
          if String.eqb str "" then Normal (_requestRender s1) else Unmodelled
      | _ => Throw s1                              (* [data] is not iterable *)
      end
  end.

Definition console_warn (msg : string) (s : Peng3D) : Peng3D :=
  set_console_warnings (console_warnings s ++ [msg]) s.

Definition loadSceneJSON (text : ParseOutcome) (s : Peng3D) : Completion :=
  match loadSceneJSON_try text s with
  | Normal s' => Normal s'
  | Throw s' => Normal (console_warn "Load Scene Failed" s')
  | Unmodelled => Unmodelled
  end.

End Blocks.

(** ** A stand-in engine

    Enough of an [Engine] to run the blocks on concrete scenes: rotations
    are carried by half angles and never applied to vectors, a ray looks
    down the negative Z axis at object centres, and the solver takes one
    explicit Euler step under gravity. *)

Module Stub.

Definition setFromEuler (e : Three.Euler) : Three.Quaternion :=
  Three.mkQuaternion (Three.ex e / 2) (Three.ey e / 2) (Three.ez e / 2) 1.

Definition setFromQuaternion (q : Three.Quaternion) (_ : Three.EulerOrder)
  : float * float * float :=
  ((2 * Three.qx q)%float, (2 * Three.qy q)%float, (2 * Three.qz q)%float).

Definition hit (o : Three.Vector3) (near far : float) (t : Three.Object3D)
  : list (float * Three.Object3D) :=
  let p := Three.position t in
  let d := (Three.vz o - Three.vz p)%float in
  if PrimFloat.eqb (Three.vx p) (Three.vx o)
     && PrimFloat.eqb (Three.vy p) (Three.vy o)
     && PrimFloat.leb near d && PrimFloat.leb d far
  then [(d, t)] else [].

Fixpoint insert_hit (h : float * Three.Object3D)
                    (l : list (float * Three.Object3D))
  : list (float * Three.Object3D) :=
  match l with
  | [] => [h]
  | h' :: rest =>
      if PrimFloat.ltb (fst h') (fst h) then h' :: insert_hit h rest
      else h :: l
  end.

Definition intersectObjects (_ : gmap string Three.Object3D)
                            (o _ : Three.Vector3) (near far : float)
                            (targets : list Three.Object3D)
  : list (float * Three.Object3D) :=
  List.fold_right insert_hit [] (List.flat_map (hit o near far) targets).

Definition step (_ dt : float) (_ : Z) (w : Cannon.World)
                (_ : list Cannon.Body) (b : Cannon.Body) : Cannon.Body :=
  match Cannon.type b with
  | Cannon.STATIC => b
  | Cannon.DYNAMIC =>
      let g := Cannon.gravity w in
      let v := Cannon.velocity b in
      let p := Cannon.position b in
      let v' := Cannon.mkVec3 (Cannon.x v + Cannon.x g * dt)
                              (Cannon.y v + Cannon.y g * dt)
                              (Cannon.z v + Cannon.z g * dt) in
      Cannon.mkBody (Cannon.id b) (Cannon.name b)
        (Cannon.mkVec3 (Cannon.x p + Cannon.x v' * dt)
                       (Cannon.y p + Cannon.y v' * dt)
                       (Cannon.z p + Cannon.z v' * dt))
        (Cannon.quaternion b) v' (Cannon.angularVelocity b) (Cannon.mass b)
        (Cannon.type b) (Cannon.material b) (Cannon.linearDamping b)
        (Cannon.angularDamping b) (Cannon.shape b) (Cannon.awake b)
  end.

Definition applyImpulse (j _ : Cannon.Vec3) (b : Cannon.Body) : Cannon.Body :=
  let v := Cannon.velocity b in
  Cannon.mkBody (Cannon.id b) (Cannon.name b) (Cannon.position b)
    (Cannon.quaternion b)
    (Cannon.mkVec3 (Cannon.x v + Cannon.x j) (Cannon.y v + Cannon.y j)
                   (Cannon.z v + Cannon.z j))
    (Cannon.angularVelocity b) (Cannon.mass b) (Cannon.type b)
    (Cannon.material b) (Cannon.linearDamping b) (Cannon.angularDamping b)
    (Cannon.shape b) (Cannon.awake b).

Definition engine : Engine := {|
  Quaternion_setFromEuler := setFromEuler;
  Euler_setFromQuaternion := setFromQuaternion;
  Vector3_applyQuaternion := fun v _ => v;
  Vector3_normalize := fun v => v;
  Object3D_lookAt := fun _ o _ => Three.quaternion o;
  Object3D_rotateY := fun q _ => q;
  Scene_attach := fun _ o => (Three.position o, Three.quaternion o, Three.scale o);
  Raycaster_intersectObjects := intersectObjects;
  Color_setStyle := fun _ c => c;
  World_step := step;
  Body_applyImpulse := applyImpulse
|}.

End Stub.

(** ** Vocabulary of the properties *)

Section Vocabulary.

Context {E : Engine}.

(** The seven blocks that set a transform directly; the object name is
    given apart. *)
Inductive TransformEdit : Type :=
| SetPos (X Y Z : float)
| ChangePosition (X Y Z : float)
| MoveObject (X Y Z : float)
| SetRot (X Y Z : float)
| ChangeRotation (X Y Z : float)
| SetRotYawPitch (YAW PITCH : float)
| LookAtObject (TARGET : string).

Definition run_edit (NAME : string) (e : TransformEdit) (s : Peng3D) : Peng3D :=
  match e with
  | SetPos X Y Z => setPos NAME X Y Z s
  | ChangePosition X Y Z => changePosition NAME X Y Z s
  | MoveObject X Y Z => moveObject NAME X Y Z s
  | SetRot X Y Z => setRot NAME X Y Z s
  | ChangeRotation X Y Z => changeRotation NAME X Y Z s
  | SetRotYawPitch YAW PITCH => setRotYawPitch NAME YAW PITCH s
  | LookAtObject TARGET => lookAtObject NAME TARGET s
  end.

(** A look-at needs its target; the other edits need nothing more than
    the object itself. *)
Definition target_known (e : TransformEdit) (s : Peng3D) : Prop :=
  match e with
  | LookAtObject TARGET => is_Some (objects s !! TARGET)
  | _ => True
  end.

(** The body of [name] sits where the object is, at rest and awake. *)
Definition synced (s : Peng3D) (name : string) : Prop :=
  exists obj body,
    objects s !! name = Some obj
    /\ physicsBodies s !! name = Some body
    /\ Cannon.position body = Vec3_of_Vector3 (Three.position obj)
    /\ Cannon.quaternion body = CQuaternion_of_Quaternion (Three.quaternion obj)
    /\ Cannon.velocity body = Cannon.Vec3_zero
    /\ Cannon.angularVelocity body = Cannon.Vec3_zero
    /\ Cannon.awake body = true.

(** Every registered object carries the name it is registered under. *)
Definition names_agree (s : Peng3D) : bool :=
  forallb (fun kv => String.eqb (Three.name (snd kv)) (fst kv))
          (map_to_list (objects s)).

(** Every body of the registry belongs to a registered object. *)
Definition bodies_have_objects (s : Peng3D) : bool :=
  forallb (fun kv => bool_decide (is_Some (objects s !! fst kv)))
          (map_to_list (physicsBodies s)).

(** The object [createObject] registers: a fresh node of the requested
    type at the origin, unrotated, at unit scale, attached to the scene. *)
Definition created (s : Peng3D) (TYPE : option string) (NAME : string)
                   (obj : Three.Object3D) : Prop :=
  Three.name obj = NAME
  /\ Three.userData_type obj = TYPE
  /\ Three.node obj = new_node s TYPE
  /\ Three.position obj = Three.Vector3_zero
  /\ Three.quaternion obj = Three.Quaternion_identity
  /\ Three.scale obj = Three.Vector3_one
  /\ Three.parent obj = Three.SceneRoot.

(** The blocks that act on one named object. *)
Inductive NameBlock : Type :=
| Edit (e : TransformEdit)
| SetScale (X Y Z : float)
| SetColor (COLOR : string)
| SetLightProp (PROP : string) (VAL : float)
| SetCamera
| SetFOV (FOV : float)
| DeleteObject
| GroupInto (PARENT : string)
| Ungroup
| EnablePhysics
| PushObject (X Y Z : float)
| SetPhysProp (PROP : string) (VAL : float).

Definition run_block (NAME : string) (b : NameBlock) (s : Peng3D) : Completion :=
  match b with
  | Edit e => Normal (run_edit NAME e s)
  | SetScale X Y Z => Normal (setScale NAME X Y Z s)
  | SetColor COLOR => Normal (setColor NAME COLOR s)
  | SetLightProp PROP VAL => Normal (setLightProp NAME PROP VAL s)
  | SetCamera => Normal (setCamera NAME s)
  | SetFOV FOV => Normal (setFOV NAME FOV s)
  | DeleteObject => Normal (deleteObject NAME s)
  | GroupInto PARENT => Normal (groupObjects NAME PARENT s)
  | Ungroup => Normal (ungroupObject NAME s)
  | EnablePhysics => Normal (enablePhysics NAME s)
  | PushObject X Y Z => Normal (pushObject NAME X Y Z s)
  | SetPhysProp PROP VAL => setPhysProp NAME PROP VAL s
  end.

(** Nothing of the scene differs between [s] and [s']: registries, world,
    clock, active camera and temporaries.  Only a pending render may have
    been requested. *)
Definition scene_unchanged (s s' : Peng3D) : Prop :=
  s' = s \/ s' = set_renderPending true s.

(** [v.key] for a parsed value that is an object. *)
Definition JSON_field (v : JSON) (key : string) : option JSON :=
  match v with
  | JObj fields => JObj_get fields key
  | _ => None
  end.

(** The entries of a parsed array. *)
Definition JSON_items (v : JSON) : list JSON :=
  match v with
  | JArr items => items
  | _ => []
  end.

(** The order three.js promises for the hits it returns: no hit is nearer
    than one listed before it. *)
Definition ascending (hits : list (float * Three.Object3D)) : Prop :=
  forall i j hi hj,
    (i <= j)%nat -> hits !! i = Some hi -> hits !! j = Some hj ->
    PrimFloat.ltb (fst hj) (fst hi) = false.

(** Radians to degrees, as [getRotation] converts them. *)
Definition degrees (radians : float) : float := (radians * r2d)%float.

(** The name an entry of a scene text asks for, when it is a string. *)
Definition entry_name (item : JSON) : option string :=
  match JSON_field item "name" with
  | Some (JStr n) => Some n
  | _ => None
  end.

Definition entry_names (items : list JSON) : list string :=
  omap entry_name items.

(** Parsed values [for .. of] cannot iterate. *)
Definition not_iterable (data : JSON) : bool :=
  match data with
  | JArr _ | JStr _ => false
  | _ => true
  end.

(** Every block of the embedding, as the script runs them. *)
Inductive Block : Type :=
| CreateObject (TYPE : option string) (NAME : string)
| OnName (NAME : string) (b : NameBlock)
| DeleteAllObjects
| SetQualitySetting (SETTING : string) (VALUE : float)
| SetGravity (GRAV : float)
| StepPhysics (now : float)
| LoadSceneJSON (text : ParseOutcome)
| GetLookingAt (NAME : string)
| GetRotation (NAME : string)
| GetYawPitch (NAME : string)
| AnimationFrame.

Definition run (blk : Block) (s : Peng3D) : Completion :=
  match blk with
  | CreateObject TYPE NAME => Normal (createObject TYPE NAME s)
  | OnName NAME b => run_block NAME b s
  | DeleteAllObjects => Normal (deleteAllObjects s)
  | SetQualitySetting SETTING VALUE => Normal (setQualitySetting SETTING VALUE s)
  | SetGravity GRAV => Normal (setGravity GRAV s)
  | StepPhysics now => Normal (stepPhysics now s)
  | LoadSceneJSON text => loadSceneJSON text s
  | GetLookingAt NAME => Normal (snd (getLookingAt NAME s))
  | GetRotation NAME => Normal (snd (getRotation NAME s))
  | GetYawPitch NAME => Normal (snd (getYawPitch NAME s))
  | AnimationFrame => Normal (animationFrame s)
  end.

(** The states a script can bring the instance into, starting from the
    initialised one; a block that throws leaves the state it threw in. *)
Inductive reachable : Peng3D -> Prop :=
| reachable_init : reachable Peng3D_init
| reachable_run (s s' : Peng3D) (blk : Block) :
    reachable s ->
    run blk s = Normal s' \/ run blk s = Throw s' ->
    reachable s'.

(** The two registry invariants, on the two maps. *)
Definition registries_ok (s : Peng3D) : Prop :=
  (forall key o, objects s !! key = Some o -> Three.name o = key)
  /\ (forall name, is_Some (physicsBodies s !! name) -> is_Some (objects s !! name)).

(** [frames key c s]: when [c] ends, normally or by an exception, the
    object registered under [key] is the one [s] had there. *)
Definition frames (key : string) (c : Completion) (s : Peng3D) : Prop :=
  forall s', c = Normal s' \/ c = Throw s' -> objects s' !! key = objects s !! key.

(** Dump the scene and load the text again. *)
Definition reload (s : Peng3D) : Completion :=
  loadSceneJSON (Parsed (getSceneJSON s)) s.

(** The colour the serialiser reads off an object. *)
Definition object_color (obj : Three.Object3D) : Three.Color :=
  match Three.node obj with
  | Three.Mesh _ m => Three.Material_color m
  | Three.PointLight c _ _ => c
  | Three.PerspectiveCamera _ _ _ _ => Three.white
  end.

Definition color_of (s : Peng3D) (name : string) : option Three.Color :=
  object_color <$> objects s !! name.

(** *** Scenes that survive their own text *)

Definition json_vector (v : Three.Vector3) : Three.Vector3 :=
  Three.mkVector3 (json_number (Three.vx v)) (json_number (Three.vy v))
                  (json_number (Three.vz v)).

Definition finite_vector (v : Three.Vector3) : bool :=
  is_finite (Three.vx v) && is_finite (Three.vy v) && is_finite (Three.vz v).

Definition finite_euler (e : Three.Euler) : bool :=
  is_finite (Three.ex e) && is_finite (Three.ey e) && is_finite (Three.ez e).

(** The colour is written as a number the guard [if (item.color)] lets
    through, and the hex text [loadSceneJSON] makes of that number reads
    back as the colour. *)
Definition color_survives (c : Three.Color) : bool :=
  let n := number_of_color c in
  is_finite n && truthy (JNum n)
  && match integer_value n with
     | Some k =>
         (0 <=? k)%Z
         && bool_decide
              (Color_hexStyle ("#" ++ toString16_padStart6 k) = Some c)
     | None => false
     end.

(** Two nodes of the same class among the three [createObject] builds. *)
Definition same_class (a b : Three.Node) : bool :=
  match a, b with
  | Three.Mesh _ _, Three.Mesh _ _ => true
  | Three.PointLight _ _ _, Three.PointLight _ _ _ => true
  | Three.PerspectiveCamera _ _ _ _, Three.PerspectiveCamera _ _ _ _ => true
  | _, _ => false
  end.

(** An object whose entry can be read back: finite coordinates, angles
    and scale, a node of the class its recorded type asks for, and a
    colour that survives. *)
Definition dumpable (s : Peng3D) (obj : Three.Object3D) : bool :=
  finite_vector (Three.position obj)
  && finite_euler (Three.rotation obj)
  && finite_vector (Three.scale obj)
  && same_class (Three.node obj)
       (new_node s (Some (type_or_Cube (Three.userData_type obj))))
  && color_survives (object_color obj).

(** What [s'] holds under [key] for the object [obj] that [s] held there:
    an object of the recorded type with the position, the Euler angles,
    the scale and the colour that were written, and, for a mesh whose
    physics was enabled, a body with the [fixed] flag of [s]. *)
Definition restored (s : Peng3D) (key : string) (obj : Three.Object3D)
                    (s' : Peng3D) : Prop :=
  exists obj',
    objects s' !! key = Some obj'
    /\ Three.userData_type obj' = Some (type_or_Cube (Three.userData_type obj))
    /\ Three.position obj' = json_vector (Three.position obj)
    /\ Three.ex (Three.rotation obj') = json_number (Three.ex (Three.rotation obj))
    /\ Three.ey (Three.rotation obj') = json_number (Three.ey (Three.rotation obj))
    /\ Three.ez (Three.rotation obj') = json_number (Three.ez (Three.rotation obj))
    /\ Three.scale obj' = json_vector (Three.scale obj)
    /\ object_color obj' = object_color obj
    /\ forall pd,
         objectPhysData s !! key = Some pd ->
         enabled pd = true -> Three.isMesh obj = true ->
         exists body pd',
           physicsBodies s' !! key = Some body
           /\ objectPhysData s' !! key = Some pd'
           /\ enabled pd' = true
           /\ fixed pd' = fixed pd
           /\ Cannon.type body
              = (if fixed pd then Cannon.STATIC else Cannon.DYNAMIC).

Definition scene_dumpable (s : Peng3D) : bool :=
  forallb (fun kv => dumpable s (snd kv)) (map_to_list (objects s)).

(** The three registries hold under [key] in [s'] what they hold in [s]. *)
Definition same_at (key : string) (s s' : Peng3D) : Prop :=
  objects s' !! key = objects s !! key
  /\ physicsBodies s' !! key = physicsBodies s !! key
  /\ objectPhysData s' !! key = objectPhysData s !! key.

(** *** Invariants of the reachable states *)

(** A property of the instance that every step of every block keeps: the
    blocks themselves, and the steps [loadSceneJSON] is made of. *)
Record Closed (P : Peng3D -> Prop) : Prop := {
  closed_createObject : forall T N s, P s -> P (createObject T N s);
  closed_run_edit : forall N e s, P s -> P (run_edit N e s);
  closed_setScale : forall N X Y Z s, P s -> P (setScale N X Y Z s);
  closed_setColor : forall N C s, P s -> P (setColor N C s);
  closed_setLightProp : forall N PROP VAL s, P s -> P (setLightProp N PROP VAL s);
  closed_setCamera : forall N s, P s -> P (setCamera N s);
  closed_setFOV : forall N FOV s, P s -> P (setFOV N FOV s);
  closed_deleteObject : forall N s, P s -> P (deleteObject N s);
  closed_groupObjects : forall C PARENT s, P s -> P (groupObjects C PARENT s);
  closed_ungroupObject : forall N s, P s -> P (ungroupObject N s);
  closed_enablePhysics : forall N s, P s -> P (enablePhysics N s);
  closed_pushObject : forall N X Y Z s, P s -> P (pushObject N X Y Z s);
  closed_setPhysProp :
    forall N PROP VAL s s',
      setPhysProp N PROP VAL s = Normal s' \/ setPhysProp N PROP VAL s = Throw s' ->
      P s -> P s';
  closed_deleteAllObjects : forall s, P s -> P (deleteAllObjects s);
  closed_setQualitySetting :
    forall SETTING VALUE s, P s -> P (setQualitySetting SETTING VALUE s);
  closed_setGravity : forall G s, P s -> P (setGravity G s);
  closed_stepPhysics : forall now s, P s -> P (stepPhysics now s);
  closed_getLookingAt : forall N s, P s -> P (snd (getLookingAt N s));
  closed_getRotation : forall N s, P s -> P (snd (getRotation N s));
  closed_getYawPitch : forall N s, P s -> P (snd (getYawPitch N s));
  closed_animationFrame : forall s, P s -> P (animationFrame s);
  closed_load_position :
    forall N v s, P s -> P (update_object N (Three.with_position v) s);
  closed_load_rotation :
    forall N x y z s, P s -> P (update_object N (Object3D_setRotation x y z) s);
  closed_load_scale :
    forall N v s, P s -> P (update_object N (Three.with_scale v) s);
  closed_requestRender : forall s, P s -> P (_requestRender s);
  closed_console_warn : forall msg s, P s -> P (console_warn msg s)
}.

(** Every registered body has its physics data. *)
Definition phys_ok (s : Peng3D) : Prop :=
  dom (physicsBodies s) ⊆ dom (objectPhysData s).

(** The engine hands a body back under the id it had. *)
Definition keeps_ids : Prop :=
  (forall f dt m w all b, Cannon.id (World_step f dt m w all b) = Cannon.id b)
  /\ (forall j p b, Cannon.id (Body_applyImpulse j p b) = Cannon.id b).

(** The ids of the registered bodies, the ids in the world, and
    [bodyToName] agree. *)
Definition ids_ok (M : gmap string positive) (W : gset positive)
                  (B : gmap positive string) (next : positive) : Prop :=
  (forall n i, M !! n = Some i -> (i < next)%positive /\ B !! i = Some n)
  /\ (forall i, i ∈ W <-> exists n, M !! n = Some i).

Definition bodies_ok (s : Peng3D) : Prop :=
  ids_ok (Cannon.id <$> physicsBodies s) (Cannon.bodies (world s))
         (bodyToName s) (nextBodyId s).

(** What stays of an object whatever block touches it: its three.js id,
    its recorded type, the order of its Euler angles, and the class of its
    node (with the far plane of a camera). *)
Inductive NodeClass : Type :=
| MeshClass
| LightClass
| CameraClass (far : float).

Definition class_of (n : Three.Node) : NodeClass :=
  match n with
  | Three.Mesh _ _ => MeshClass
  | Three.PointLight _ _ _ => LightClass
  | Three.PerspectiveCamera _ _ _ far => CameraClass far
  end.

Definition ident (o : Three.Object3D)
  : positive * option string * Three.EulerOrder * NodeClass :=
  (Three.id o, Three.userData_type o, Three.order (Three.rotation o),
   class_of (Three.node o)).

Definition objects_ok (s : Peng3D) : Prop :=
  (forall k o,
     objects s !! k = Some o ->
     (Three.id o < nextObject3DId s)%positive
     /\ Three.order (Three.rotation o) = Three.XYZ
     /\ same_class (Three.node o) (new_node s (Three.userData_type o)) = true
     /\ forall fov aspect near far,
          Three.node o = Three.PerspectiveCamera fov aspect near far ->
          far = config_renderDistance s)
  /\ (forall k1 k2 o1 o2,
        objects s !! k1 = Some o1 -> objects s !! k2 = Some o2 ->
        Three.id o1 = Three.id o2 -> k1 = k2)
  /\ (config_shadows s = 0%Z \/ config_shadows s = 1%Z).

End Vocabulary.

(** ** Properties *)

Section Properties.

Context {E : Engine}.

#[local] Arguments _disposeObject : simpl never.
#[local] Arguments _requestRender : simpl never.

(** *** Rendering requests leave the scene alone *)

Lemma requestRender_cases (s : Peng3D) :
  _requestRender s = s \/ _requestRender s = set_renderPending true s.
Proof. unfold _requestRender. destruct (renderPending s); auto. Qed.

Lemma requestRender_objects (s : Peng3D) :
  objects (_requestRender s) = objects s.
Proof. destruct (requestRender_cases s) as [-> | ->]; reflexivity. Qed.

Lemma requestRender_physicsBodies (s : Peng3D) :
  physicsBodies (_requestRender s) = physicsBodies s.
Proof. destruct (requestRender_cases s) as [-> | ->]; reflexivity. Qed.

Lemma requestRender_objectPhysData (s : Peng3D) :
  objectPhysData (_requestRender s) = objectPhysData s.
Proof. destruct (requestRender_cases s) as [-> | ->]; reflexivity. Qed.

Lemma requestRender_world (s : Peng3D) :
  world (_requestRender s) = world s.
Proof. destruct (requestRender_cases s) as [-> | ->]; reflexivity. Qed.

Lemma requestRender_bodyToName (s : Peng3D) :
  bodyToName (_requestRender s) = bodyToName s.
Proof. destruct (requestRender_cases s) as [-> | ->]; reflexivity. Qed.

Lemma requestRender_lastPhysTime (s : Peng3D) :
  _lastPhysTime (_requestRender s) = _lastPhysTime s.
Proof. destruct (requestRender_cases s) as [-> | ->]; reflexivity. Qed.

Lemma requestRender_config (s : Peng3D) :
  config_renderDistance (_requestRender s) = config_renderDistance s.
Proof. destruct (requestRender_cases s) as [-> | ->]; reflexivity. Qed.

(** *** Direct transform edits *)

Lemma synced_requestRender (s : Peng3D) (name : string) :
  synced s name -> synced (_requestRender s) name.
Proof.
  unfold synced.
  rewrite requestRender_objects, requestRender_physicsBodies. auto.
Qed.

Lemma updatePhysicsTransform_synced (s : Peng3D) (name : string)
      (obj : Three.Object3D) (body : Cannon.Body) :
  objects s !! name = Some obj ->
  physicsBodies s !! name = Some body ->
  synced (_updatePhysicsTransform name s) name.
Proof.
  intros Ho Hb. unfold _updatePhysicsTransform. rewrite Hb, Ho.
  exists obj. eexists. simpl. split; [exact Ho|].
  split; [apply lookup_insert_eq|]. repeat split.
Qed.

Lemma updatePhysicsTransform_objects (name : string) (s : Peng3D) :
  objects (_updatePhysicsTransform name s) = objects s.
Proof.
  unfold _updatePhysicsTransform.
  destruct (physicsBodies s !! name), (objects s !! name); reflexivity.
Qed.

(** After the object has been rewritten under its name, the physics
    transform update puts the body on it. *)
Lemma edit_tail_synced (s s' : Peng3D) (name : string)
      (obj' : Three.Object3D) (body : Cannon.Body) :
  physicsBodies s' = physicsBodies s ->
  physicsBodies s !! name = Some body ->
  synced
    (_requestRender
       (_updatePhysicsTransform name
          (set_objects (<[name := obj']> (objects s)) s'))) name.
Proof.
  intros Hsame Hb. apply synced_requestRender.
  apply updatePhysicsTransform_synced with (obj := obj') (body := body).
  - simpl. apply lookup_insert_eq.
  - simpl. rewrite Hsame. exact Hb.
Qed.


(** *** The two invariants, as propositions *)

Lemma names_agree_spec (s : Peng3D) :
  names_agree s = true <->
  forall key o, objects s !! key = Some o -> Three.name o = key.
Proof.
  unfold names_agree. rewrite forallb_forall. split.
  - intros H key o Hko.
    specialize (H (key, o)). simpl in H.
    apply String.eqb_eq, H, list_elem_of_In, elem_of_map_to_list, Hko.
  - intros H [key o] Hin. simpl.
    apply String.eqb_eq, H, elem_of_map_to_list, list_elem_of_In, Hin.
Qed.

Lemma bodies_have_objects_spec (s : Peng3D) :
  bodies_have_objects s = true <->
  forall name, is_Some (physicsBodies s !! name) -> is_Some (objects s !! name).
Proof.
  unfold bodies_have_objects. rewrite forallb_forall. split.
  - intros H name [b Hb].
    specialize (H (name, b)). simpl in H.
    eapply bool_decide_eq_true_1, H, list_elem_of_In, elem_of_map_to_list, Hb.
  - intros H [name b] Hin. simpl.
    apply bool_decide_eq_true_2, H.
    exists b. apply elem_of_map_to_list, list_elem_of_In, Hin.
Qed.

(** *** Creating and disposing *)

Lemma disposeObject_objects (o : Three.Object3D) (name : string) (s : Peng3D) :
  objects (_disposeObject (Some o) name s) = delete name (objects s).
Proof. unfold _disposeObject. destruct (physicsBodies s !! name); reflexivity. Qed.

Lemma disposeObject_physicsBodies (o : Three.Object3D) (name : string) (s : Peng3D) :
  physicsBodies (_disposeObject (Some o) name s) = delete name (physicsBodies s).
Proof.
  unfold _disposeObject.
  destruct (physicsBodies s !! name) eqn:Hb; simpl; [reflexivity|].
  symmetry. apply delete_id, Hb.
Qed.

Lemma disposeObject_world (o : Three.Object3D) (name : string) (s : Peng3D) :
  world (_disposeObject (Some o) name s) =
  match physicsBodies s !! name with
  | Some body => Cannon.World_removeBody body (world s)
  | None => world s
  end.
Proof. unfold _disposeObject. destruct (physicsBodies s !! name); reflexivity. Qed.

Lemma disposeObject_bodyToName (o : Three.Object3D) (name : string) (s : Peng3D) :
  bodyToName (_disposeObject (Some o) name s) =
  match physicsBodies s !! name with
  | Some body => delete (Cannon.id body) (bodyToName s)
  | None => bodyToName s
  end.
Proof. unfold _disposeObject. destruct (physicsBodies s !! name); reflexivity. Qed.

Lemma disposeObject_config (o : option Three.Object3D) (name : string) (s : Peng3D) :
  config_renderDistance (_disposeObject o name s) = config_renderDistance s.
Proof.
  unfold _disposeObject. destruct o; [|reflexivity].
  destruct (physicsBodies s !! name); reflexivity.
Qed.

Lemma disposeObject_lastPhysTime (o : option Three.Object3D) (name : string)
      (s : Peng3D) :
  _lastPhysTime (_disposeObject o name s) = _lastPhysTime s.
Proof.
  unfold _disposeObject. destruct o; [|reflexivity].
  destruct (physicsBodies s !! name); reflexivity.
Qed.

Lemma new_node_config (s s' : Peng3D) (TYPE : option string) :
  config_renderDistance s' = config_renderDistance s ->
  new_node s' TYPE = new_node s TYPE.
Proof. intros H. unfold new_node. rewrite H. reflexivity. Qed.

(** [createObject] registers a fresh object under [NAME], whatever was
    there before. *)
Lemma createObject_lookup (TYPE : option string) (NAME : string) (s : Peng3D) :
  exists obj,
    objects (createObject TYPE NAME s) !! NAME = Some obj
    /\ created s TYPE NAME obj.
Proof.
  unfold createObject. rewrite requestRender_objects. simpl.
  eexists. split; [apply lookup_insert_eq|].
  unfold created. simpl. repeat split.
  destruct (objects s !! NAME); [|reflexivity].
  apply new_node_config, disposeObject_config.
Qed.

Lemma createObject_lookup_ne (TYPE : option string) (NAME key : string) (s : Peng3D) :
  key <> NAME ->
  objects (createObject TYPE NAME s) !! key = objects s !! key.
Proof.
  intros Hne. unfold createObject. rewrite requestRender_objects. simpl.
  rewrite lookup_insert_ne by congruence.
  destruct (objects s !! NAME); [|reflexivity].
  rewrite disposeObject_objects. apply lookup_delete_ne. congruence.
Qed.

Lemma createObject_physicsBodies (TYPE : option string) (NAME : string) (s : Peng3D) :
  physicsBodies (createObject TYPE NAME s) =
  match objects s !! NAME with
  | Some _ => delete NAME (physicsBodies s)
  | None => physicsBodies s
  end.
Proof.
  unfold createObject. rewrite requestRender_physicsBodies. simpl.
  destruct (objects s !! NAME); [|reflexivity].
  apply disposeObject_physicsBodies.
Qed.

Lemma createObject_world (TYPE : option string) (NAME : string) (s : Peng3D) :
  world (createObject TYPE NAME s) =
  match objects s !! NAME, physicsBodies s !! NAME with
  | Some _, Some body => Cannon.World_removeBody body (world s)
  | _, _ => world s
  end.
Proof.
  unfold createObject. rewrite requestRender_world. simpl.
  destruct (objects s !! NAME); [|reflexivity].
  apply disposeObject_world.
Qed.

Lemma createObject_config (TYPE : option string) (NAME : string) (s : Peng3D) :
  config_renderDistance (createObject TYPE NAME s) = config_renderDistance s.
Proof.
  unfold createObject. rewrite requestRender_config. simpl.
  destruct (objects s !! NAME); [|reflexivity].
  apply disposeObject_config.
Qed.

Lemma removeBody_not_in (body : Cannon.Body) (w : Cannon.World) :
  Cannon.id body ∉ Cannon.bodies (Cannon.World_removeBody body w).
Proof. simpl. set_solver. Qed.

Lemma removeBody_keeps_out (body other : Cannon.Body) (w : Cannon.World) :
  Cannon.id body ∉ Cannon.bodies w ->
  Cannon.id body ∉ Cannon.bodies (Cannon.World_removeBody other w).
Proof. simpl. set_solver. Qed.

(** C2.  After [createObject k1 name] and then [createObject k2 name], the
    registry holds under [name] a fresh object of type [k2]; no other
    registered object carries that name; the body registry has no entry
    for [name]; and a body that was linked to [name] beforehand is no
    longer among the bodies of the physics world. *)
Theorem create_twice_keeps_one (s : Peng3D) (name : string) (k1 k2 : option string) :
  names_agree s = true ->
  let s2 := createObject k2 name (createObject k1 name s) in
  (exists obj, objects s2 !! name = Some obj /\ created s k2 name obj)
  /\ (forall key o, objects s2 !! key = Some o -> Three.name o = name -> key = name)
  /\ physicsBodies s2 !! name = None
  /\ (forall body, physicsBodies s !! name = Some body ->
                   Cannon.id body ∉ Cannon.bodies (world s2)).
Proof.
  intros Hnames s2. subst s2.
  set (s1 := createObject k1 name s).
  destruct (createObject_lookup k1 name s) as (o1 & Ho1 & _). fold s1 in Ho1.
  repeat split.
  - destruct (createObject_lookup k2 name s1) as (o2 & Ho2 & Hc).
    exists o2. split; [exact Ho2|].
    unfold created in *. rewrite (new_node_config s s1) in Hc; [exact Hc|].
    apply createObject_config.
  - intros key o Hko Hname.
    destruct (decide (key = name)) as [|Hne]; [assumption|].
    unfold s1 in Hko. rewrite !createObject_lookup_ne in Hko by assumption.
    pose proof (proj1 (names_agree_spec s) Hnames key o Hko). congruence.
  - rewrite createObject_physicsBodies, Ho1. apply lookup_delete_eq.
  - intros body Hb.
    rewrite createObject_world, Ho1.
    subst s1. rewrite createObject_physicsBodies, createObject_world.
    destruct (objects s !! name) as [old|].
    + rewrite lookup_delete_eq, Hb. apply removeBody_not_in.
    + rewrite Hb. apply removeBody_not_in.
Qed.

(** *** Stepping the physics *)

Lemma copy_loop_untouched (l : list (string * Cannon.Body))
      (objs : gmap string Three.Object3D) (name : string) :
  name ∉ l.*1 ->
  foldl copy_body_to_object objs l !! name = objs !! name.
Proof.
  revert objs. induction l as [|[n b] l IH]; intros objs Hnot; [reflexivity|].
  simpl in *. apply not_elem_of_cons in Hnot as [Hne Hnot].
  rewrite IH by exact Hnot.
  unfold copy_body_to_object. simpl.
  destruct (objs !! n); [|reflexivity].
  apply lookup_insert_ne. congruence.
Qed.

Lemma copy_loop_copied (l : list (string * Cannon.Body))
      (objs : gmap string Three.Object3D) (name : string)
      (b : Cannon.Body) (m : Three.Object3D) :
  NoDup l.*1 ->
  (name, b) ∈ l ->
  objs !! name = Some m ->
  foldl copy_body_to_object objs l !! name = Some (body_onto_object b m).
Proof.
  revert objs. induction l as [|[n b'] l IH]; intros objs Hnd Hin Hm.
  - inversion Hin.
  - simpl in *. apply NoDup_cons in Hnd as [Hhead Hnd].
    apply elem_of_cons in Hin as [Heq | Hin].
    + inversion Heq; subst n b'.
      rewrite copy_loop_untouched by exact Hhead.
      unfold copy_body_to_object. simpl. rewrite Hm. apply lookup_insert_eq.
    + assert (n <> name) as Hne.
      { intros ->. apply Hhead. apply list_elem_of_fmap. exists (name, b). auto. }
      apply IH; [exact Hnd | exact Hin |].
      unfold copy_body_to_object. simpl.
      destruct (objs !! n); [|exact Hm].
      rewrite lookup_insert_ne by exact Hne. exact Hm.
Qed.

(** The loop after [world.step], one key at a time. *)
Lemma copy_loop_lookup (bodies : gmap string Cannon.Body)
      (objs : gmap string Three.Object3D) (name : string) :
  foldl copy_body_to_object objs (map_to_list bodies) !! name =
  match bodies !! name, objs !! name with
  | Some b, Some m => Some (body_onto_object b m)
  | _, _ => objs !! name
  end.
Proof.
  destruct (bodies !! name) as [b|] eqn:Hb.
  - destruct (objs !! name) as [m|] eqn:Hm.
    + apply copy_loop_copied; [apply NoDup_fst_map_to_list | | exact Hm].
      apply elem_of_map_to_list, Hb.
    + assert (forall l o, o !! name = None ->
                          foldl copy_body_to_object o l !! name = None) as Hnone.
      { clear. induction l as [|[n b] l IH]; intros o Ho; [exact Ho|].
        simpl. apply IH. unfold copy_body_to_object. simpl.
        destruct (o !! n) eqn:Hn; [|exact Ho].
        rewrite lookup_insert_ne; [exact Ho|]. intros ->. congruence. }
      apply Hnone, Hm.
  - apply copy_loop_untouched.
    intros Hin. apply list_elem_of_fmap in Hin as [[n b] [Hn Hin]].
    simpl in Hn. subst n. apply elem_of_map_to_list in Hin. congruence.
Qed.

Lemma body_onto_object_transform (b : Cannon.Body) (m : Three.Object3D) :
  Three.position (body_onto_object b m) = Vector3_of_Vec3 (Cannon.position b)
  /\ Three.quaternion (body_onto_object b m)
     = Quaternion_of_CQuaternion (Cannon.quaternion b)
  /\ Three.scale (body_onto_object b m) = Three.scale m
  /\ Three.node (body_onto_object b m) = Three.node m.
Proof. repeat split. Qed.

(** The first call on a clock at [0] stores the reading and does nothing
    else. *)
Lemma stepPhysics_first (s : Peng3D) (now : float) :
  PrimFloat.eqb (_lastPhysTime s) 0 = true ->
  stepPhysics now s = set_lastPhysTime now s.
Proof. intros H. unfold stepPhysics. rewrite H. reflexivity. Qed.

(** A call on a running clock: the bodies are those the solver leaves, and
    the objects are rewritten from them. *)
Lemma stepPhysics_later (s : Peng3D) (now : float) :
  PrimFloat.eqb (_lastPhysTime s) 0 = false ->
  let dt := ((now - _lastPhysTime s) / 1000)%float in
  physicsBodies (stepPhysics now s) = physicsBodies (world_step (1 / 60) dt 10 s)
  /\ objects (stepPhysics now s) =
     foldl copy_body_to_object (objects s)
           (map_to_list (physicsBodies (world_step (1 / 60) dt 10 s)))
  /\ world (stepPhysics now s) = world s
  /\ _lastPhysTime (stepPhysics now s) = now.
Proof.
  intros H dt. unfold stepPhysics. rewrite H.
  rewrite requestRender_physicsBodies, requestRender_objects,
          requestRender_world, requestRender_lastPhysTime.
  repeat split.
Qed.

Lemma deleteAllObjects_lastPhysTime (s : Peng3D) :
  _lastPhysTime (deleteAllObjects s) = 0%float.
Proof.
  unfold deleteAllObjects. rewrite requestRender_lastPhysTime. reflexivity.
Qed.

(** C3.  On a physics clock at its initial [0], which is where
    [_ensureInit] and [deleteAllObjects] leave it, the first [stepPhysics]
    only stores the clock reading: bodies, objects and world stay as they
    are.  The next call hands the solver the time elapsed since that first
    reading, in seconds.  The reading of the first call is taken to be
    non-zero, as [performance.now()] is once a script runs. *)
Theorem first_step_sets_baseline (s : Peng3D) (now1 now2 : float) :
  PrimFloat.eqb (_lastPhysTime s) 0 = true ->
  PrimFloat.eqb now1 0 = false ->
  let s1 := stepPhysics now1 s in
  let s2 := stepPhysics now2 s1 in
  (_lastPhysTime Peng3D_init = 0%float
   /\ forall s0, _lastPhysTime (deleteAllObjects s0) = 0%float)
  /\ s1 = set_lastPhysTime now1 s
  /\ physicsBodies s1 = physicsBodies s
  /\ objects s1 = objects s
  /\ world s1 = world s
  /\ physicsBodies s2
     = physicsBodies (world_step (1 / 60) ((now2 - now1) / 1000) 10 s)
  /\ _lastPhysTime s2 = now2.
Proof.
  intros H0 H1 s1 s2. subst s2 s1.
  rewrite (stepPhysics_first s now1 H0).
  assert (PrimFloat.eqb (_lastPhysTime (set_lastPhysTime now1 s)) 0 = false)
    as Hrun by exact H1.
  destruct (stepPhysics_later (set_lastPhysTime now1 s) now2 Hrun)
    as (Hb & _ & _ & Ht).
  split; [split; [reflexivity | exact deleteAllObjects_lastPhysTime]|].
  repeat split; [exact Hb | exact Ht].
Qed.

(** C4.  A [stepPhysics] call on a running clock steps the world with the
    fixed tick [1/60], the measured [dt] and at most [10] sub-steps: every
    body of the world is left as the solver computes it.  Then each body
    that has a registered object writes its position and quaternion into
    that object; objects without a body are not touched, and the bodies
    (their velocities included) stay exactly as the solver left them. *)
Theorem running_step_steps_and_copies (s : Peng3D) (now : float) :
  PrimFloat.eqb (_lastPhysTime s) 0 = false ->
  let dt := ((now - _lastPhysTime s) / 1000)%float in
  let s' := stepPhysics now s in
  physicsBodies s' =
    (fun b => if in_world (world s) b
              then World_step (1 / 60) dt 10 (world s) (world_bodies s) b
              else b) <$> physicsBodies s
  /\ (forall name b m,
        physicsBodies s' !! name = Some b ->
        objects s !! name = Some m ->
        exists m',
          objects s' !! name = Some m'
          /\ Three.position m' = Vector3_of_Vec3 (Cannon.position b)
          /\ Three.quaternion m' = Quaternion_of_CQuaternion (Cannon.quaternion b)
          /\ Three.scale m' = Three.scale m
          /\ Three.node m' = Three.node m)
  /\ (forall name,
        physicsBodies s' !! name = None ->
        objects s' !! name = objects s !! name)
  /\ _lastPhysTime s' = now.
Proof.
  intros H dt s'. subst s'.
  destruct (stepPhysics_later s now H) as (Hb & Ho & _ & Ht).
  fold dt in Hb, Ho. rewrite Hb, Ho. clear Hb Ho.
  split; [reflexivity|]. split; [|split; [|exact Ht]].
  - intros name b m Hbody Hobj.
    exists (body_onto_object b m).
    rewrite copy_loop_lookup, Hbody, Hobj.
    split; [reflexivity | apply body_onto_object_transform].
  - intros name Hnone. rewrite copy_loop_lookup, Hnone. reflexivity.
Qed.

(** *** Unknown names *)

Lemma scene_unchanged_fields (s s' : Peng3D) :
  scene_unchanged s s' ->
  objects s' = objects s
  /\ physicsBodies s' = physicsBodies s
  /\ objectPhysData s' = objectPhysData s
  /\ world s' = world s
  /\ bodyToName s' = bodyToName s
  /\ _lastPhysTime s' = _lastPhysTime s.
Proof. intros [-> | ->]; repeat split. Qed.

Lemma no_object_no_body (s : Peng3D) (name : string) :
  bodies_have_objects s = true ->
  objects s !! name = None ->
  physicsBodies s !! name = None.
Proof.
  intros Hinv Hnone.
  destruct (physicsBodies s !! name) as [b|] eqn:Hb; [|reflexivity].
  destruct (proj1 (bodies_have_objects_spec s) Hinv name) as [o Ho]; [eauto|].
  congruence.
Qed.


(** A look-at towards a name with no registered object is the same silent
    return. *)
Lemma lookAtObject_unknown_target (s : Peng3D) (NAME TARGET : string) :
  objects s !! TARGET = None -> lookAtObject NAME TARGET s = s.
Proof.
  intros H. unfold lookAtObject. rewrite H.
  destruct (objects s !! NAME); reflexivity.
Qed.

(** *** The distance reporter *)


(** *** The forward ray *)

Lemma lookingAt_targets_spec (s : Peng3D) (obj item : Three.Object3D) :
  item ∈ lookingAt_targets s obj <->
  (exists key, objects s !! key = Some item)
  /\ Three.id item <> Three.id obj
  /\ Three.isMesh item = true.
Proof.
  unfold lookingAt_targets.
  rewrite list_elem_of_In, filter_In, <- list_elem_of_In, list_elem_of_fmap.
  rewrite andb_true_iff, negb_true_iff, Pos.eqb_neq.
  split.
  - intros [[[key o] [-> Hin]] [Hid Hmesh]]. simpl in *.
    repeat split; [|assumption..].
    exists key. apply elem_of_map_to_list, Hin.
  - intros [[key Hkey] [Hid Hmesh]].
    repeat split; [|assumption..].
    exists (key, item). split; [reflexivity|]. apply elem_of_map_to_list, Hkey.
Qed.


(** *** What the serialiser writes for a rotation *)

Lemma scene_entry_listed (s : Peng3D) (key : string) (obj : Three.Object3D) :
  objects s !! key = Some obj ->
  scene_entry s key obj ∈ JSON_items (sceneData s).
Proof.
  intros H. unfold sceneData. simpl.
  apply list_elem_of_fmap. exists (key, obj). split; [reflexivity|].
  apply elem_of_map_to_list, H.
Qed.

Lemma setRot_lookup (s : Peng3D) (NAME : string) (X Y Z : float)
      (obj : Three.Object3D) :
  objects s !! NAME = Some obj ->
  objects (setRot NAME X Y Z s) !! NAME
  = Some (Object3D_setRotation (X * d2r) (Y * d2r) (Z * d2r) obj).
Proof.
  intros H. unfold setRot.
  rewrite H, requestRender_objects, updatePhysicsTransform_objects.
  apply lookup_insert_eq.
Qed.


(** *** Clearing the scene *)

Lemma disposeObject_registered (name : string) (s : Peng3D) :
  objects (_disposeObject (objects s !! name) name s) = delete name (objects s).
Proof.
  destruct (objects s !! name) eqn:H.
  - apply disposeObject_objects.
  - symmetry. apply delete_id, H.
Qed.

Lemma dispose_loop_objects (l : list string) (s : Peng3D) (key : string) :
  objects (foldl (fun acc name => _disposeObject (objects acc !! name) name acc)
                 s l) !! key
  = if decide (key ∈ l) then None else objects s !! key.
Proof.
  revert s. induction l as [|n l IH]; intros s.
  - simpl. destruct (decide (key ∈ [])) as [Hin|]; [inversion Hin | reflexivity].
  - simpl. rewrite IH, disposeObject_registered.
    destruct (decide (key ∈ l)) as [Hin | Hnot].
    + rewrite decide_True by (right; exact Hin). reflexivity.
    + destruct (decide (key = n)) as [-> | Hne].
      * rewrite decide_True by left. apply lookup_delete_eq.
      * rewrite decide_False by (intros Hc; apply elem_of_cons in Hc; tauto).
        apply lookup_delete_ne. congruence.
Qed.

Lemma deleteAllObjects_objects (s : Peng3D) :
  objects (deleteAllObjects s) = ∅.
Proof.
  unfold deleteAllObjects. rewrite requestRender_objects. simpl.
  apply map_empty. intros key. rewrite dispose_loop_objects.
  destruct (decide (key ∈ (map_to_list (objects s)).*1)) as [|Hnot]; [reflexivity|].
  destruct (objects s !! key) as [o|] eqn:Ho; [|reflexivity].
  exfalso. apply Hnot, list_elem_of_fmap.
  exists (key, o). split; [reflexivity|]. apply elem_of_map_to_list, Ho.
Qed.

Lemma disposeObject_keeps_invariant (o : option Three.Object3D) (name : string)
      (s : Peng3D) :
  (forall n, is_Some (physicsBodies s !! n) -> is_Some (objects s !! n)) ->
  forall n, is_Some (physicsBodies (_disposeObject o name s) !! n) ->
            is_Some (objects (_disposeObject o name s) !! n).
Proof.
  intros Hinv n. destruct o as [o|]; [|apply Hinv].
  rewrite disposeObject_objects, disposeObject_physicsBodies.
  destruct (decide (n = name)) as [-> | Hne].
  - rewrite lookup_delete_eq. intros [b Hb]. discriminate.
  - rewrite !lookup_delete_ne by congruence. apply Hinv.
Qed.

Lemma deleteAllObjects_physicsBodies (s : Peng3D) :
  bodies_have_objects s = true ->
  physicsBodies (deleteAllObjects s) = ∅.
Proof.
  intros Hbool.
  pose proof (proj1 (bodies_have_objects_spec s) Hbool) as Hinv. clear Hbool.
  pose proof (deleteAllObjects_objects s) as Hempty.
  unfold deleteAllObjects in *.
  rewrite requestRender_physicsBodies. rewrite requestRender_objects in Hempty.
  simpl in *.
  remember (map_to_list (objects s)).*1 as l eqn:Hl. clear Hl.
  assert (forall n,
            is_Some (physicsBodies
                       (foldl (fun acc name =>
                                 _disposeObject (objects acc !! name) name acc)
                              s l) !! n) ->
            is_Some (objects
                       (foldl (fun acc name =>
                                 _disposeObject (objects acc !! name) name acc)
                              s l) !! n)) as Hfinal.
  { clear Hempty. revert s Hinv. induction l as [|n l IH]; intros s Hinv.
    - exact Hinv.
    - simpl. apply IH. apply disposeObject_keeps_invariant, Hinv. }
  apply map_empty. intros n.
  destruct (physicsBodies _ !! n) as [b|] eqn:Hb; [|reflexivity].
  destruct (Hfinal n) as [o Ho]; [eauto|].
  rewrite Hempty, lookup_empty in Ho. discriminate.
Qed.

(** *** Loading touches only the names of the text *)

Lemma setColor_lookup_ne (NAME COLOR key : string) (s : Peng3D) :
  key <> NAME -> objects (setColor NAME COLOR s) !! key = objects s !! key.
Proof.
  intros Hne. unfold setColor. destruct (objects s !! NAME); [|reflexivity].
  rewrite requestRender_objects. simpl. apply lookup_insert_ne. congruence.
Qed.

Lemma update_object_lookup_ne (NAME key : string)
      (f : Three.Object3D -> Three.Object3D) (s : Peng3D) :
  key <> NAME -> objects (update_object NAME f s) !! key = objects s !! key.
Proof.
  intros Hne. unfold update_object. destruct (objects s !! NAME); [|reflexivity].
  simpl. apply lookup_insert_ne. congruence.
Qed.

Lemma enablePhysics_objects (NAME : string) (s : Peng3D) :
  objects (enablePhysics NAME s) = objects s.
Proof.
  unfold enablePhysics. destruct (objects s !! NAME) as [obj|]; [|reflexivity].
  destruct (negb (Three.isMesh obj)); [reflexivity|].
  destruct (physicsBodies s !! NAME); reflexivity.
Qed.

Lemma setPhysProp_objects (NAME PROP : string) (VAL : float) (s s' : Peng3D) :
  setPhysProp NAME PROP VAL s = Normal s' \/ setPhysProp NAME PROP VAL s = Throw s' ->
  objects s' = objects s.
Proof.
  unfold setPhysProp.
  destruct (physicsBodies s !! NAME) as [body|]; [|intros [H | H]; congruence].
  destruct (String.eqb PROP "fixed").
  - destruct (objectPhysData s !! NAME); intros [H | H];
      inversion H; subst; reflexivity.
  - destruct (objectPhysData s !! NAME) as [pd|].
    + destruct (Cannon.material body);
        destruct (Cannon.World_getContactMaterial _ _ _);
        intros [H | H]; inversion H; subst; reflexivity.
    + destruct (String.eqb PROP "friction" || String.eqb PROP "bounciness");
        [intros [H | H]; inversion H; subst; reflexivity|].
      destruct (Cannon.material body); intros [H | H];
        inversion H; subst; reflexivity.
Qed.

Lemma frames_Normal (key : string) (s0 s : Peng3D) :
  objects s0 !! key = objects s !! key -> frames key (Normal s0) s.
Proof. intros H s' [Hs | Hs]; inversion Hs; subst; exact H. Qed.

Lemma frames_Throw (key : string) (s0 s : Peng3D) :
  objects s0 !! key = objects s !! key -> frames key (Throw s0) s.
Proof. intros H s' [Hs | Hs]; inversion Hs; subst; exact H. Qed.

Lemma frames_Unmodelled (key : string) (s : Peng3D) :
  frames key Unmodelled s.
Proof. intros s' [Hs | Hs]; discriminate Hs. Qed.

Lemma frames_bind (key : string) (c : Completion) (k : Peng3D -> Completion)
      (s : Peng3D) :
  frames key c s ->
  (forall s1, c = Normal s1 -> frames key (k s1) s1) ->
  frames key (bind c k) s.
Proof.
  intros Hc Hk s' Hend. destruct c as [s1 | s1 |]; simpl in Hend.
  - rewrite (Hk s1 eq_refl s' Hend). apply Hc. left; reflexivity.
  - apply Hc. exact Hend.
  - destruct Hend as [H | H]; discriminate H.
Qed.

Lemma frames_from (key : string) (c : Completion) (s0 s : Peng3D) :
  objects s0 !! key = objects s !! key -> frames key c s0 -> frames key c s.
Proof. intros H Hc s' Hend. rewrite (Hc s' Hend). exact H. Qed.

Lemma load_scale_frame (NAME key : string) (f : list (string * JSON)) (s : Peng3D) :
  key <> NAME -> frames key (load_scale NAME f s) s.
Proof.
  intros Hne. unfold load_scale.
  destruct (JObj_get f "scale") as [v|]; [|apply frames_Normal; reflexivity].
  destruct v as [|b|n|str|l|sc];
    try (destruct (truthy _);
         [apply frames_Unmodelled | apply frames_Normal; reflexivity]).
  destruct (xyz_of sc) as [[[x y] z]|]; [|apply frames_Unmodelled].
  apply frames_Normal, update_object_lookup_ne, Hne.
Qed.

Lemma load_color_frame (NAME key : string) (f : list (string * JSON)) (s : Peng3D) :
  key <> NAME -> frames key (load_color NAME f s) s.
Proof.
  intros Hne. unfold load_color.
  destruct (JObj_get f "color") as [v|]; [|apply frames_Normal; reflexivity].
  destruct (truthy v); [|apply frames_Normal; reflexivity].
  destruct v as [| |n| | |]; try apply frames_Unmodelled.
  destruct (integer_value n) as [k|]; [|apply frames_Unmodelled].
  destruct (0 <=? k)%Z; [|apply frames_Unmodelled].
  apply frames_Normal, setColor_lookup_ne, Hne.
Qed.

Lemma load_physics_frame (NAME key : string) (f : list (string * JSON)) (s : Peng3D) :
  frames key (load_physics NAME f s) s.
Proof.
  unfold load_physics.
  destruct (JObj_get f "physics") as [v|]; [|apply frames_Normal; reflexivity].
  destruct v as [| | | | |ph]; try (apply frames_Normal; reflexivity).
  destruct (truthy_field ph "enabled"); [|apply frames_Normal; reflexivity].
  destruct (truthy_field ph "fixed").
  - intros s' Hend. apply setPhysProp_objects in Hend.
    rewrite Hend, enablePhysics_objects. reflexivity.
  - apply frames_Normal. rewrite enablePhysics_objects. reflexivity.
Qed.

Lemma load_entry_frame (TYPE : option string) (NAME key : string)
      (f : list (string * JSON)) (s : Peng3D) :
  key <> NAME -> frames key (load_entry TYPE NAME f s) s.
Proof.
  intros Hne. unfold load_entry. cbv zeta.
  pose proof (createObject_lookup_ne TYPE NAME key s Hne) as H1.
  set (s1 := createObject TYPE NAME s) in *.
  destruct (objects s1 !! NAME); [|apply frames_Normal, H1].
  destruct (JObj_get f "pos") as [[| | | | |pos]|];
    try apply frames_Unmodelled; try (apply frames_Throw, H1).
  destruct (xyz_of pos) as [[[px py] pz]|]; [|apply frames_Unmodelled].
  set (s2 := update_object NAME _ s1).
  assert (objects s2 !! key = objects s !! key) as H2.
  { unfold s2. rewrite update_object_lookup_ne by exact Hne. exact H1. }
  destruct (JObj_get f "rot") as [[| | | | |rot]|];
    try apply frames_Unmodelled; try (apply frames_Throw, H2).
  destruct (xyz_of rot) as [[[rx ry] rz]|]; [|apply frames_Unmodelled].
  set (s3 := update_object NAME _ s2).
  assert (objects s3 !! key = objects s !! key) as H3.
  { unfold s3. rewrite update_object_lookup_ne by exact Hne. exact H2. }
  apply (frames_from key _ s3 s H3).
  apply frames_bind; [apply load_scale_frame, Hne|]. intros s4 _.
  apply frames_bind; [apply load_color_frame, Hne|]. intros s5 _.
  apply load_physics_frame.
Qed.

(** Whatever one turn of the loading loop does, it does to the object
    named by its entry. *)
Lemma load_item_frame (item : JSON) (s : Peng3D) (key : string) :
  Some key <> entry_name item ->
  frames key (load_item item s) s.
Proof.
  intros Hkey.
  destruct item as [| | | | |f]; simpl;
    try apply frames_Unmodelled; [apply frames_Throw; reflexivity|].
  unfold entry_name in Hkey. simpl in Hkey.
  destruct (JObj_get f "name") as [[| | |NAME| |]|];
    try (destruct (JObj_get f "type") as [[| | | | |]|]; apply frames_Unmodelled).
  assert (key <> NAME) as Hne by congruence. clear Hkey.
  destruct (JObj_get f "type") as [[| | |t| |]|];
    try apply frames_Unmodelled; apply load_entry_frame, Hne.
Qed.

Lemma load_items_frame (items : list JSON) (s : Peng3D) (key : string) :
  key ∉ entry_names items ->
  frames key (load_items items s) s.
Proof.
  revert s. induction items as [|item items IH]; intros s Hkey.
  - apply frames_Normal. reflexivity.
  - assert (Some key <> entry_name item /\ key ∉ entry_names items) as [Hhead Htail].
    { unfold entry_names in *. simpl in Hkey.
      destruct (entry_name item) as [n|]; [|split; [discriminate | exact Hkey]].
      apply not_elem_of_cons in Hkey as [Hne Hrest].
      split; [congruence | exact Hrest]. }
    simpl. apply frames_bind; [apply load_item_frame, Hhead|].
    intros s1 _. apply IH, Htail.
Qed.


(** *** The registry invariants hold in every reachable state *)

Lemma registries_ok_bool (s : Peng3D) :
  registries_ok s <-> names_agree s = true /\ bodies_have_objects s = true.
Proof.
  unfold registries_ok. rewrite names_agree_spec, bodies_have_objects_spec.
  reflexivity.
Qed.

Lemma registries_ok_ext (s s' : Peng3D) :
  objects s' = objects s -> physicsBodies s' = physicsBodies s ->
  registries_ok s -> registries_ok s'.
Proof. unfold registries_ok. intros -> ->. auto. Qed.

Lemma registries_ok_requestRender (s : Peng3D) :
  registries_ok s -> registries_ok (_requestRender s).
Proof.
  apply registries_ok_ext;
    [apply requestRender_objects | apply requestRender_physicsBodies].
Qed.

(** Rewriting the object under a registered name, keeping its name. *)
Lemma registries_ok_object (s s' : Peng3D) (NAME : string)
      (obj obj' : Three.Object3D) :
  objects s !! NAME = Some obj ->
  Three.name obj' = Three.name obj ->
  objects s' = <[NAME := obj']> (objects s) ->
  physicsBodies s' = physicsBodies s ->
  registries_ok s -> registries_ok s'.
Proof.
  intros Hobj Hname Ho Hb [Hn Hh]. unfold registries_ok. rewrite Ho, Hb. split.
  - intros key o. destruct (decide (key = NAME)) as [-> | Hne].
    + rewrite lookup_insert_eq. intros [= <-]. rewrite Hname. apply Hn, Hobj.
    + rewrite lookup_insert_ne by congruence. apply Hn.
  - intros n Hsome. destruct (decide (n = NAME)) as [-> | Hne].
    + rewrite lookup_insert_eq. eauto.
    + rewrite lookup_insert_ne by congruence. apply Hh, Hsome.
Qed.

(** Writing a body under a name that has an object. *)
Lemma registries_ok_body (s s' : Peng3D) (NAME : string) (b : Cannon.Body) :
  is_Some (objects s !! NAME) ->
  objects s' = objects s ->
  physicsBodies s' = <[NAME := b]> (physicsBodies s) ->
  registries_ok s -> registries_ok s'.
Proof.
  intros Hobj Ho Hb [Hn Hh]. unfold registries_ok. rewrite Ho, Hb.
  split; [exact Hn|].
  intros n. destruct (decide (n = NAME)) as [-> | Hne]; [intros _; exact Hobj|].
  rewrite lookup_insert_ne by congruence. apply Hh.
Qed.

(** Dropping a body. *)
Lemma registries_ok_no_body (s s' : Peng3D) (NAME : string) :
  objects s' = objects s ->
  physicsBodies s' = delete NAME (physicsBodies s) ->
  registries_ok s -> registries_ok s'.
Proof.
  intros Ho Hb [Hn Hh]. unfold registries_ok. rewrite Ho, Hb.
  split; [exact Hn|].
  intros n. destruct (decide (n = NAME)) as [-> | Hne].
  - rewrite lookup_delete_eq. intros [b Hnone]. discriminate.
  - rewrite lookup_delete_ne by congruence. apply Hh.
Qed.

Lemma registries_ok_updatePhysicsTransform (name : string) (s : Peng3D) :
  registries_ok s -> registries_ok (_updatePhysicsTransform name s).
Proof.
  intros Hok. unfold _updatePhysicsTransform.
  destruct (physicsBodies s !! name) as [body|] eqn:Hb; [|exact Hok].
  destruct (objects s !! name) as [obj|] eqn:Ho; [|exact Hok].
  eapply (registries_ok_body s); [| | |exact Hok]; [eauto | reflexivity | reflexivity].
Qed.

Lemma registries_ok_dispose (o : option Three.Object3D) (name : string)
      (s : Peng3D) :
  registries_ok s -> registries_ok (_disposeObject o name s).
Proof.
  intros [Hn Hh]. split; [|apply disposeObject_keeps_invariant, Hh].
  destruct o as [o|]; [|exact Hn].
  rewrite disposeObject_objects. intros key o'.
  destruct (decide (key = name)) as [-> | Hne].
  - rewrite lookup_delete_eq. discriminate.
  - rewrite lookup_delete_ne by congruence. apply Hn.
Qed.

Lemma registries_ok_createObject (TYPE : option string) (NAME : string)
      (s : Peng3D) :
  registries_ok s -> registries_ok (createObject TYPE NAME s).
Proof.
  intros Hok. unfold createObject. apply registries_ok_requestRender.
  set (s1 := match objects s !! NAME with
             | Some old => _disposeObject (Some old) NAME s
             | None => s
             end).
  assert (registries_ok s1) as [Hn Hh].
  { unfold s1. destruct (objects s !! NAME); [apply registries_ok_dispose|];
      exact Hok. }
  split; simpl.
  - intros key o. destruct (decide (key = NAME)) as [-> | Hne].
    + rewrite lookup_insert_eq. intros [= <-]. reflexivity.
    + rewrite lookup_insert_ne by congruence. apply Hn.
  - intros n Hsome. destruct (decide (n = NAME)) as [-> | Hne].
    + rewrite lookup_insert_eq. eauto.
    + rewrite lookup_insert_ne by congruence. apply Hh, Hsome.
Qed.

Lemma registries_ok_deleteAllObjects (s : Peng3D) :
  registries_ok s -> registries_ok (deleteAllObjects s).
Proof.
  intros Hok. unfold deleteAllObjects. apply registries_ok_requestRender.
  eapply registries_ok_ext; [reflexivity | reflexivity |].
  generalize (map_to_list (objects s)).*1. intros l.
  revert s Hok. induction l as [|n l IH]; intros s Hok; [exact Hok|].
  simpl. apply IH, registries_ok_dispose, Hok.
Qed.

(** An edit of the object under [NAME] followed by the physics transform
    update and the render request. *)
Lemma registries_ok_edit (s s0 : Peng3D) (NAME : string)
      (obj obj' : Three.Object3D) :
  objects s !! NAME = Some obj ->
  Three.name obj' = Three.name obj ->
  objects s0 = objects s ->
  physicsBodies s0 = physicsBodies s ->
  registries_ok s ->
  registries_ok
    (_requestRender
       (_updatePhysicsTransform NAME
          (set_objects (<[NAME := obj']> (objects s)) s0))).
Proof.
  intros Hobj Hname Ho Hb Hok.
  apply registries_ok_requestRender, registries_ok_updatePhysicsTransform.
  eapply (registries_ok_object s); [exact Hobj | exact Hname | reflexivity | | exact Hok].
  exact Hb.
Qed.

Lemma registries_ok_run_edit (NAME : string) (e : TransformEdit) (s : Peng3D) :
  registries_ok s -> registries_ok (run_edit NAME e s).
Proof.
  intros Hok.
  destruct e; simpl;
    [ unfold setPos | unfold changePosition | unfold moveObject | unfold setRot
    | unfold changeRotation | unfold setRotYawPitch | unfold lookAtObject ];
    destruct (objects s !! NAME) as [obj|] eqn:Hobj; try exact Hok.
  1-6: eapply registries_ok_edit; [exact Hobj | reflexivity.. | exact Hok].
  destruct (objects s !! TARGET); [|exact Hok].
  eapply registries_ok_edit; [exact Hobj | reflexivity.. | exact Hok].
Qed.

Lemma registries_ok_enablePhysics (NAME : string) (s : Peng3D) :
  registries_ok s -> registries_ok (enablePhysics NAME s).
Proof.
  intros Hok. unfold enablePhysics.
  destruct (objects s !! NAME) as [obj|] eqn:Hobj; [|exact Hok].
  destruct (negb (Three.isMesh obj)); [exact Hok|].
  destruct (physicsBodies s !! NAME);
    (eapply (registries_ok_body s); [| | |exact Hok]; [eauto | reflexivity..]).
Qed.

Lemma registries_ok_setPhysProp (NAME PROP : string) (VAL : float) (s s' : Peng3D) :
  setPhysProp NAME PROP VAL s = Normal s' \/ setPhysProp NAME PROP VAL s = Throw s' ->
  registries_ok s -> registries_ok s'.
Proof.
  intros Hend Hok. unfold setPhysProp in Hend.
  destruct (physicsBodies s !! NAME) as [body|] eqn:Hbody;
    [|destruct Hend as [H | H]; inversion H; subst; exact Hok].
  assert (is_Some (objects s !! NAME)) as Hobj by (apply Hok; eauto).
  destruct (String.eqb PROP "fixed").
  - destruct (objectPhysData s !! NAME); destruct Hend as [H | H];
      inversion H; subst; try exact Hok.
    eapply (registries_ok_body s); [exact Hobj | reflexivity | reflexivity | exact Hok].
  - destruct (objectPhysData s !! NAME) as [pd|].
    + destruct (Cannon.material body);
        destruct (Cannon.World_getContactMaterial _ _ _);
        destruct Hend as [H | H]; inversion H; subst;
        (eapply (registries_ok_body s);
         [exact Hobj | reflexivity | reflexivity | exact Hok]).
    + destruct (String.eqb PROP "friction" || String.eqb PROP "bounciness");
        [destruct Hend as [H | H]; inversion H; subst; exact Hok|].
      destruct (Cannon.material body); destruct Hend as [H | H];
        inversion H; subst; try exact Hok;
        (eapply (registries_ok_body s);
         [exact Hobj | reflexivity | reflexivity | exact Hok]).
Qed.

Lemma registries_ok_setColor (NAME COLOR : string) (s : Peng3D) :
  registries_ok s -> registries_ok (setColor NAME COLOR s).
Proof.
  intros Hok. unfold setColor.
  destruct (objects s !! NAME) as [obj|] eqn:Hobj; [|exact Hok].
  apply registries_ok_requestRender.
  eapply (registries_ok_object s);
    [exact Hobj | | reflexivity | reflexivity | exact Hok].
  destruct (Three.node obj); reflexivity.
Qed.

Lemma registries_ok_update_object (NAME : string)
      (f : Three.Object3D -> Three.Object3D) (s : Peng3D) :
  (forall o, Three.name (f o) = Three.name o) ->
  registries_ok s -> registries_ok (update_object NAME f s).
Proof.
  intros Hf Hok. unfold update_object.
  destruct (objects s !! NAME) as [obj|] eqn:Hobj; [|exact Hok].
  eapply (registries_ok_object s);
    [exact Hobj | apply Hf | reflexivity | reflexivity | exact Hok].
Qed.

Lemma registries_ok_run_block (NAME : string) (b : NameBlock) (s s' : Peng3D) :
  run_block NAME b s = Normal s' \/ run_block NAME b s = Throw s' ->
  registries_ok s -> registries_ok s'.
Proof.
  intros Hend Hok.
  destruct b as [e|X Y Z|COLOR|LP LV| |FOV| |PARENT| | |X Y Z|PROP VAL];
    simpl in Hend.
  12: eapply registries_ok_setPhysProp; [exact Hend | exact Hok].
  all: destruct Hend as [H | H]; inversion H; subst; clear H.
  - apply registries_ok_run_edit, Hok.
  - unfold setScale. destruct (objects s !! NAME) as [obj|] eqn:Hobj; [|exact Hok].
    apply registries_ok_requestRender.
    eapply (registries_ok_object s);
      [exact Hobj | | reflexivity | reflexivity | exact Hok]. reflexivity.
  - apply registries_ok_setColor, Hok.
  - unfold setLightProp.
    destruct (objects s !! NAME) as [obj|] eqn:Hobj; [|exact Hok].
    destruct (Three.node obj) eqn:Hnode; try exact Hok.
    apply registries_ok_requestRender.
    eapply (registries_ok_object s);
      [exact Hobj | | reflexivity | reflexivity | exact Hok]. reflexivity.
  - unfold setCamera. destruct (objects s !! NAME) as [obj|] eqn:Hobj; [|exact Hok].
    destruct (Three.node obj) eqn:Hnode; try exact Hok.
    apply registries_ok_requestRender.
    eapply (registries_ok_object s);
      [exact Hobj | | reflexivity | reflexivity | exact Hok]. reflexivity.
  - unfold setFOV. destruct (objects s !! NAME) as [obj|] eqn:Hobj; [|exact Hok].
    destruct (Three.node obj) eqn:Hnode; try exact Hok.
    apply registries_ok_requestRender.
    eapply (registries_ok_object s);
      [exact Hobj | | reflexivity | reflexivity | exact Hok]. reflexivity.
  - unfold deleteObject.
    apply registries_ok_requestRender, registries_ok_dispose, Hok.
  - unfold groupObjects.
    destruct (objects s !! NAME) as [child|] eqn:Hchild; [|exact Hok].
    destruct (objects s !! PARENT) as [parent|]; [|exact Hok].
    destruct (Pos.eqb _ _); [exact Hok|].
    apply registries_ok_requestRender.
    set (s1 := match physicsBodies s !! NAME with
               | Some body => _
               | None => s
               end).
    assert (registries_ok s1 /\ objects s1 = objects s) as [Hok1 Ho1].
    { unfold s1. destruct (physicsBodies s !! NAME); [|split; [exact Hok | reflexivity]].
      split; [|reflexivity].
      apply (registries_ok_no_body s _ NAME); [reflexivity | reflexivity | exact Hok]. }
    eapply (registries_ok_object s1);
      [rewrite Ho1; exact Hchild | | reflexivity | reflexivity | exact Hok1].
    reflexivity.
  - unfold ungroupObject.
    destruct (objects s !! NAME) as [obj|] eqn:Hobj; [|exact Hok].
    destruct (Three.parent obj); try exact Hok;
      destruct (Scene_attach (objects s) obj) as [[p q] sc];
      apply registries_ok_requestRender;
      (eapply (registries_ok_object s);
       [exact Hobj | | reflexivity | reflexivity | exact Hok]); reflexivity.
  - apply registries_ok_enablePhysics, Hok.
  - unfold pushObject.
    destruct (physicsBodies s !! NAME) as [body|] eqn:Hbody; [|exact Hok].
    eapply (registries_ok_body s); [| reflexivity | reflexivity | exact Hok].
    apply Hok. eauto.
Qed.

(** Rewriting every object in place, names kept. *)
Lemma registries_ok_fmap (f : Three.Object3D -> Three.Object3D) (s s' : Peng3D) :
  (forall o, Three.name (f o) = Three.name o) ->
  objects s' = f <$> objects s ->
  physicsBodies s' = physicsBodies s ->
  registries_ok s -> registries_ok s'.
Proof.
  intros Hf Ho Hb [Hn Hh]. unfold registries_ok. rewrite Ho, Hb. split.
  - intros key o. rewrite lookup_fmap.
    destruct (objects s !! key) as [m|] eqn:Hm; simpl; [|discriminate].
    intros [= <-]. rewrite Hf. apply (Hn key m Hm).
  - intros n Hsome. rewrite lookup_fmap.
    destruct (Hh n Hsome) as [m Hm]. rewrite Hm. simpl. eauto.
Qed.

Lemma registries_ok_setQualitySetting (SETTING : string) (VALUE : float)
      (s : Peng3D) :
  registries_ok s -> registries_ok (setQualitySetting SETTING VALUE s).
Proof.
  intros Hok. unfold setQualitySetting.
  destruct (String.eqb SETTING "shadows");
    [|destruct (String.eqb SETTING "renderDistance")];
    apply registries_ok_requestRender; [| |exact Hok].
  - eapply (registries_ok_fmap _ s); [|reflexivity|reflexivity|exact Hok].
    intros o. simpl. destruct (Three.isMesh o && _); reflexivity.
  - eapply (registries_ok_fmap _ s); [|reflexivity|reflexivity|exact Hok].
    intros o. simpl. destruct (Three.node o); reflexivity.
Qed.

Lemma registries_ok_stepPhysics (now : float) (s : Peng3D) :
  registries_ok s -> registries_ok (stepPhysics now s).
Proof.
  intros Hok. unfold stepPhysics.
  destruct (PrimFloat.eqb (_lastPhysTime s) 0); [exact Hok|].
  apply registries_ok_requestRender.
  destruct Hok as [Hn Hh]. split; simpl.
  - intros key o. rewrite copy_loop_lookup.
    destruct (_ !! key) as [b|]; [|apply Hn].
    destruct (objects s !! key) as [m|] eqn:Hm; [|discriminate].
    intros [= <-]. apply (Hn key m Hm).
  - intros n. rewrite lookup_fmap, copy_loop_lookup, lookup_fmap.
    destruct (physicsBodies s !! n) as [b|] eqn:Hb; simpl;
      [|intros [x Hx]; discriminate].
    intros _. destruct (Hh n) as [m Hm]; [eauto|]. rewrite Hm. eauto.
Qed.

(** However the loading of one entry ends, the invariants hold in the
    state it ends in. *)
Lemma registries_ok_load_entry (TYPE : option string) (NAME : string)
      (f : list (string * JSON)) (s s' : Peng3D) :
  load_entry TYPE NAME f s = Normal s' \/ load_entry TYPE NAME f s = Throw s' ->
  registries_ok s -> registries_ok s'.
Proof.
  intros Hend Hok. unfold load_entry in Hend. cbv zeta in Hend.
  pose proof (registries_ok_createObject TYPE NAME s Hok) as H1.
  set (s1 := createObject TYPE NAME s) in *.
  destruct (objects s1 !! NAME);
    [|destruct Hend as [H | H]; inversion H; subst; exact H1].
  destruct (JObj_get f "pos") as [[| | | | |pos]|];
    try (destruct Hend as [H | H]; inversion H; subst; exact H1).
  destruct (xyz_of pos) as [[[px py] pz]|];
    [|destruct Hend as [H | H]; discriminate H].
  assert (registries_ok
            (update_object NAME
               (Three.with_position (Three.mkVector3 px py pz)) s1)) as H2
    by (apply registries_ok_update_object; [reflexivity | exact H1]).
  set (s2 := update_object NAME _ s1) in *.
  destruct (JObj_get f "rot") as [[| | | | |rot]|];
    try (destruct Hend as [H | H]; inversion H; subst; exact H2).
  destruct (xyz_of rot) as [[[rx ry] rz]|];
    [|destruct Hend as [H | H]; discriminate H].
  assert (registries_ok
            (update_object NAME (Object3D_setRotation rx ry rz) s2)) as H3
    by (apply registries_ok_update_object; [reflexivity | exact H2]).
  set (s3 := update_object NAME _ s2) in *.
  clearbody s3. clear H1 H2 s1 s2.
  assert (exists s4, registries_ok s4
                     /\ (bind (load_color NAME f s4)
                              (fun s5 => load_physics NAME f s5) = Normal s'
                         \/ bind (load_color NAME f s4)
                                 (fun s5 => load_physics NAME f s5) = Throw s'))
    as (s4 & H4 & Hend4).
  { unfold load_scale in Hend.
    destruct (JObj_get f "scale") as [v|]; [|exists s3; split; assumption].
    destruct v as [|b|n|str|l|sc];
      try (destruct (truthy _); simpl in Hend;
           [destruct Hend as [H | H]; discriminate H
           | exists s3; split; assumption]).
    destruct (xyz_of sc) as [[[x y] z]|];
      [|destruct Hend as [H | H]; discriminate H].
    eexists. split; [|exact Hend].
    apply registries_ok_update_object; [reflexivity | exact H3]. }
  clear Hend H3 s3.
  assert (exists s5, registries_ok s5
                     /\ (load_physics NAME f s5 = Normal s'
                         \/ load_physics NAME f s5 = Throw s'))
    as (s5 & H5 & Hend5).
  { unfold load_color in Hend4.
    destruct (JObj_get f "color") as [v|]; [|exists s4; split; assumption].
    destruct (truthy v); [|exists s4; split; assumption].
    destruct v as [| |n| | |];
      try (destruct Hend4 as [H | H]; discriminate H).
    destruct (integer_value n) as [k|];
      [|destruct Hend4 as [H | H]; discriminate H].
    destruct (0 <=? k)%Z; [|destruct Hend4 as [H | H]; discriminate H].
    eexists. split; [|exact Hend4]. apply registries_ok_setColor, H4. }
  clear Hend4 H4 s4.
  unfold load_physics in Hend5.
  destruct (JObj_get f "physics") as [[| | | | |ph]|];
    try (destruct Hend5 as [H | H]; inversion H; subst; exact H5).
  destruct (truthy_field ph "enabled");
    [|destruct Hend5 as [H | H]; inversion H; subst; exact H5].
  destruct (truthy_field ph "fixed").
  - eapply registries_ok_setPhysProp;
      [exact Hend5 | apply registries_ok_enablePhysics, H5].
  - destruct Hend5 as [H | H]; inversion H; subst.
    apply registries_ok_enablePhysics, H5.
Qed.

Lemma registries_ok_load_items (items : list JSON) (s s' : Peng3D) :
  load_items items s = Normal s' \/ load_items items s = Throw s' ->
  registries_ok s -> registries_ok s'.
Proof.
  revert s. induction items as [|item items IH]; intros s Hend Hok.
  - simpl in Hend. destruct Hend as [H | H]; inversion H; subst; exact Hok.
  - simpl in Hend.
    destruct (load_item item s) as [s1 | s1 |] eqn:Hitem; simpl in Hend;
      [| |destruct Hend as [H | H]; discriminate H].
    + apply (IH s1 Hend).
      destruct item as [| | | | |f]; simpl in Hitem; try discriminate Hitem.
      destruct (JObj_get f "type") as [[| | |t| |]|]; try discriminate Hitem;
        destruct (JObj_get f "name") as [[| | |NAME| |]|]; try discriminate Hitem;
        (eapply registries_ok_load_entry; [left; exact Hitem | exact Hok]).
    + destruct Hend as [H | H]; inversion H; subst.
      destruct item as [| | | | |f]; simpl in Hitem; try discriminate Hitem;
        [inversion Hitem; subst; exact Hok|].
      destruct (JObj_get f "type") as [[| | |t| |]|]; try discriminate Hitem;
        destruct (JObj_get f "name") as [[| | |NAME| |]|]; try discriminate Hitem;
        (eapply registries_ok_load_entry; [right; exact Hitem | exact Hok]).
Qed.

Lemma registries_ok_console_warn (msg : string) (s : Peng3D) :
  registries_ok s -> registries_ok (console_warn msg s).
Proof. apply registries_ok_ext; reflexivity. Qed.

Lemma registries_ok_loadSceneJSON (text : ParseOutcome) (s s' : Peng3D) :
  loadSceneJSON text s = Normal s' \/ loadSceneJSON text s = Throw s' ->
  registries_ok s -> registries_ok s'.
Proof.
  intros Hend Hok. unfold loadSceneJSON, loadSceneJSON_try in Hend.
  destruct text as [|data].
  - destruct Hend as [H | H]; inversion H; subst.
    apply registries_ok_console_warn, Hok.
  - pose proof (registries_ok_deleteAllObjects s Hok) as Hclear.
    destruct data as [|b|n|str|items|f];
      try (destruct Hend as [H | H]; inversion H; subst;
           apply registries_ok_console_warn, Hclear).
    + destruct (String.eqb str "");
        destruct Hend as [H | H]; inversion H; subst.
      apply registries_ok_requestRender, Hclear.
    + destruct (load_items items (deleteAllObjects s)) as [s1 | s1 |] eqn:Hitems;
        simpl in Hend; destruct Hend as [H | H]; inversion H; subst.
      * apply registries_ok_requestRender.
        eapply registries_ok_load_items; [left; exact Hitems | exact Hclear].
      * apply registries_ok_console_warn.
        eapply registries_ok_load_items; [right; exact Hitems | exact Hclear].
Qed.

Lemma registries_ok_run (blk : Block) (s s' : Peng3D) :
  run blk s = Normal s' \/ run blk s = Throw s' ->
  registries_ok s -> registries_ok s'.
Proof.
  intros Hend Hok. destruct blk; simpl in Hend.
  - destruct Hend as [H | H]; inversion H; subst.
    apply registries_ok_createObject, Hok.
  - eapply registries_ok_run_block; [exact Hend | exact Hok].
  - destruct Hend as [H | H]; inversion H; subst.
    apply registries_ok_deleteAllObjects, Hok.
  - destruct Hend as [H | H]; inversion H; subst.
    apply registries_ok_setQualitySetting, Hok.
  - destruct Hend as [H | H]; inversion H; subst. exact Hok.
  - destruct Hend as [H | H]; inversion H; subst.
    apply registries_ok_stepPhysics, Hok.
  - eapply registries_ok_loadSceneJSON; [exact Hend | exact Hok].
  - destruct Hend as [H | H]; inversion H; subst.
    unfold getLookingAt. destruct (objects s !! NAME); exact Hok.
  - destruct Hend as [H | H]; inversion H; subst.
    unfold getRotation. destruct (objects s !! NAME); exact Hok.
  - destruct Hend as [H | H]; inversion H; subst.
    unfold getYawPitch. destruct (objects s !! NAME); exact Hok.
  - destruct Hend as [H | H]; inversion H; subst. exact Hok.
Qed.

(** X1.  In every state a script can reach, every object is registered
    under its own name and every body of the registry belongs to a
    registered object. *)
Lemma reachable_registries_ok (s : Peng3D) :
  reachable s -> names_agree s = true /\ bodies_have_objects s = true.
Proof.
  intros Hreach. apply registries_ok_bool.
  induction Hreach as [|s s' blk _ IH Hend].
  - split; [intros key o H | intros n [b H]];
      simpl in H; rewrite lookup_empty in H; discriminate.
  - eapply registries_ok_run; [exact Hend | exact IH].
Qed.

(** *** Reloading a dumped scene

    [loadSceneJSON] on the text of [getSceneJSON] restores every object
    that is [dumpable]; the one colour the text cannot carry back is
    black. *)

(** **** What the entry of a dumpable object holds *)

Lemma dumped_entry_fields (s : Peng3D) (key : string) (obj : Three.Object3D) :
  exists f, JSON_stringify_parse (scene_entry s key obj) = JObj f.
Proof. eexists. reflexivity. Qed.

Lemma dumped_name (s : Peng3D) (key : string) (obj : Three.Object3D) :
  JSON_field (JSON_stringify_parse (scene_entry s key obj)) "name"
  = Some (JStr key).
Proof. reflexivity. Qed.

Lemma dumped_type (s : Peng3D) (key : string) (obj : Three.Object3D) :
  JSON_field (JSON_stringify_parse (scene_entry s key obj)) "type"
  = Some (JStr (type_or_Cube (Three.userData_type obj))).
Proof. reflexivity. Qed.

Lemma stringify_xyz (x y z : float) :
  is_finite x && is_finite y && is_finite z = true ->
  JSON_stringify_parse (JSON_xyz x y z)
  = JSON_xyz (json_number x) (json_number y) (json_number z).
Proof.
  intros H. apply andb_prop in H as [H Hz]. apply andb_prop in H as [Hx Hy].
  unfold JSON_xyz. simpl. rewrite Hx, Hy, Hz. reflexivity.
Qed.

Lemma dumped_pos (s : Peng3D) (key : string) (obj : Three.Object3D) :
  finite_vector (Three.position obj) = true ->
  JSON_field (JSON_stringify_parse (scene_entry s key obj)) "pos"
  = Some (JSON_xyz (json_number (Three.vx (Three.position obj)))
                   (json_number (Three.vy (Three.position obj)))
                   (json_number (Three.vz (Three.position obj)))).
Proof.
  intros H. rewrite <- (stringify_xyz _ _ _ H). reflexivity.
Qed.

Lemma dumped_rot (s : Peng3D) (key : string) (obj : Three.Object3D) :
  finite_euler (Three.rotation obj) = true ->
  JSON_field (JSON_stringify_parse (scene_entry s key obj)) "rot"
  = Some (JSON_xyz (json_number (Three.ex (Three.rotation obj)))
                   (json_number (Three.ey (Three.rotation obj)))
                   (json_number (Three.ez (Three.rotation obj)))).
Proof.
  intros H. rewrite <- (stringify_xyz _ _ _ H). reflexivity.
Qed.

Lemma dumped_scale (s : Peng3D) (key : string) (obj : Three.Object3D) :
  finite_vector (Three.scale obj) = true ->
  JSON_field (JSON_stringify_parse (scene_entry s key obj)) "scale"
  = Some (JSON_xyz (json_number (Three.vx (Three.scale obj)))
                   (json_number (Three.vy (Three.scale obj)))
                   (json_number (Three.vz (Three.scale obj)))).
Proof.
  intros H. rewrite <- (stringify_xyz _ _ _ H). reflexivity.
Qed.

Lemma truthy_number (n : float) :
  truthy (JNum n) = true -> json_number n = n.
Proof.
  unfold truthy, json_number. destruct (PrimFloat.eqb n 0); [discriminate|].
  reflexivity.
Qed.

Lemma dumped_color (s : Peng3D) (key : string) (obj : Three.Object3D) :
  is_finite (number_of_color (object_color obj)) = true ->
  truthy (JNum (number_of_color (object_color obj))) = true ->
  JSON_field (JSON_stringify_parse (scene_entry s key obj)) "color"
  = Some (JNum (number_of_color (object_color obj))).
Proof.
  intros Hfin Htruthy.
  transitivity (Some (JSON_stringify_parse
                        (JNum (number_of_color (object_color obj)))));
    [reflexivity|].
  simpl. rewrite Hfin, (truthy_number _ Htruthy). reflexivity.
Qed.

Lemma dumped_physics (s : Peng3D) (key : string) (obj : Three.Object3D) :
  JSON_field (JSON_stringify_parse (scene_entry s key obj)) "physics"
  = (fun pd => JSON_stringify_parse (JSON_physData pd)) <$> objectPhysData s !! key.
Proof.
  unfold scene_entry. cbv zeta.
  destruct (Three.node obj); destruct (objectPhysData s !! key); reflexivity.
Qed.


(** **** The steps of the loader, at the name they act on and elsewhere *)

Lemma same_at_refl (key : string) (s : Peng3D) : same_at key s s.
Proof. repeat split. Qed.

Lemma same_at_trans (key : string) (s1 s2 s3 : Peng3D) :
  same_at key s1 s2 -> same_at key s2 s3 -> same_at key s1 s3.
Proof.
  intros (Ho & Hb & Hp) (Ho' & Hb' & Hp'). repeat split; congruence.
Qed.

Lemma same_at_restored (s s1 s2 : Peng3D) (key : string) (obj : Three.Object3D) :
  same_at key s1 s2 -> restored s key obj s1 -> restored s key obj s2.
Proof.
  intros (Ho & Hb & Hp) (obj' & Hobj & Hrest).
  exists obj'. rewrite Ho, Hb, Hp. split; assumption.
Qed.

Lemma disposeObject_objectPhysData_ne (o : option Three.Object3D)
      (name key : string) (s : Peng3D) :
  key <> name ->
  objectPhysData (_disposeObject o name s) !! key = objectPhysData s !! key.
Proof.
  intros Hne. unfold _disposeObject. destruct o; [|reflexivity].
  destruct (physicsBodies s !! name); [|reflexivity].
  simpl. apply lookup_delete_ne. congruence.
Qed.

Lemma same_at_createObject (TYPE : option string) (NAME key : string)
      (s : Peng3D) :
  key <> NAME -> same_at key s (createObject TYPE NAME s).
Proof.
  intros Hne. split; [apply createObject_lookup_ne, Hne|]. split.
  - rewrite createObject_physicsBodies.
    destruct (objects s !! NAME); [|reflexivity].
    apply lookup_delete_ne. congruence.
  - unfold createObject. rewrite requestRender_objectPhysData. simpl.
    destruct (objects s !! NAME); [|reflexivity].
    apply disposeObject_objectPhysData_ne, Hne.
Qed.

Lemma update_object_lookup (NAME : string) (f : Three.Object3D -> Three.Object3D)
      (s : Peng3D) (obj : Three.Object3D) :
  objects s !! NAME = Some obj ->
  objects (update_object NAME f s) !! NAME = Some (f obj).
Proof.
  intros H. unfold update_object. rewrite H. simpl. apply lookup_insert_eq.
Qed.

Lemma update_object_physicsBodies (NAME : string)
      (f : Three.Object3D -> Three.Object3D) (s : Peng3D) :
  physicsBodies (update_object NAME f s) = physicsBodies s.
Proof. unfold update_object. destruct (objects s !! NAME); reflexivity. Qed.

Lemma update_object_objectPhysData (NAME : string)
      (f : Three.Object3D -> Three.Object3D) (s : Peng3D) :
  objectPhysData (update_object NAME f s) = objectPhysData s.
Proof. unfold update_object. destruct (objects s !! NAME); reflexivity. Qed.

Lemma same_at_update_object (NAME key : string)
      (f : Three.Object3D -> Three.Object3D) (s : Peng3D) :
  key <> NAME -> same_at key s (update_object NAME f s).
Proof.
  intros Hne. split; [apply update_object_lookup_ne, Hne|].
  rewrite update_object_physicsBodies, update_object_objectPhysData.
  split; reflexivity.
Qed.

Lemma setColor_physicsBodies (NAME COLOR : string) (s : Peng3D) :
  physicsBodies (setColor NAME COLOR s) = physicsBodies s.
Proof.
  unfold setColor. destruct (objects s !! NAME); [|reflexivity].
  rewrite requestRender_physicsBodies. reflexivity.
Qed.

Lemma setColor_objectPhysData (NAME COLOR : string) (s : Peng3D) :
  objectPhysData (setColor NAME COLOR s) = objectPhysData s.
Proof.
  unfold setColor. destruct (objects s !! NAME); [|reflexivity].
  rewrite requestRender_objectPhysData. reflexivity.
Qed.

Lemma same_at_setColor (NAME COLOR key : string) (s : Peng3D) :
  key <> NAME -> same_at key s (setColor NAME COLOR s).
Proof.
  intros Hne. split; [apply setColor_lookup_ne, Hne|].
  rewrite setColor_physicsBodies, setColor_objectPhysData. split; reflexivity.
Qed.

(** [setColor] with a hex text: meshes and lights take the colour of the
    text, a camera keeps none. *)
Lemma setColor_lookup (NAME COLOR : string) (c : Three.Color) (s : Peng3D)
      (obj : Three.Object3D) :
  objects s !! NAME = Some obj ->
  Color_hexStyle COLOR = Some c ->
  exists obj',
    objects (setColor NAME COLOR s) !! NAME = Some obj'
    /\ Three.userData_type obj' = Three.userData_type obj
    /\ Three.position obj' = Three.position obj
    /\ Three.rotation obj' = Three.rotation obj
    /\ Three.scale obj' = Three.scale obj
    /\ Three.isMesh obj' = Three.isMesh obj
    /\ object_color obj'
       = (if Three.isCamera obj then Three.white else c).
Proof.
  intros Hobj Hc. unfold setColor. rewrite Hobj, requestRender_objects. simpl.
  rewrite lookup_insert_eq. eexists. split; [reflexivity|].
  unfold object_color, Three.isMesh, Three.isCamera, Color_set. rewrite Hc.
  destruct (Three.node obj) eqn:Hnode; simpl; rewrite ?Hnode; repeat split.
Qed.

Lemma enablePhysics_mesh (NAME : string) (s : Peng3D) (obj : Three.Object3D) :
  objects s !! NAME = Some obj ->
  Three.isMesh obj = true ->
  exists body,
    physicsBodies (enablePhysics NAME s) !! NAME = Some body
    /\ Cannon.type body = Cannon.DYNAMIC
    /\ objectPhysData (enablePhysics NAME s) !! NAME
       = Some (mkPhysData true 1 false 0.3 0.3).
Proof.
  intros Hobj Hmesh. unfold enablePhysics. rewrite Hobj, Hmesh. simpl.
  eexists. rewrite !lookup_insert_eq. repeat split.
Qed.

Lemma enablePhysics_other (NAME : string) (s : Peng3D) (obj : Three.Object3D) :
  objects s !! NAME = Some obj ->
  Three.isMesh obj = false ->
  enablePhysics NAME s = s.
Proof. intros Hobj Hmesh. unfold enablePhysics. rewrite Hobj, Hmesh. reflexivity. Qed.

Lemma same_at_enablePhysics (NAME key : string) (s : Peng3D) :
  key <> NAME -> same_at key s (enablePhysics NAME s).
Proof.
  intros Hne. split; [rewrite enablePhysics_objects; reflexivity|].
  unfold enablePhysics. destruct (objects s !! NAME) as [obj|]; [|split; reflexivity].
  destruct (negb (Three.isMesh obj)); [split; reflexivity|].
  destruct (physicsBodies s !! NAME); simpl;
    rewrite !lookup_insert_ne by congruence; split; reflexivity.
Qed.

(** [setPhysProp(name, 'fixed', 1)] on a body with its data: the body
    becomes static. *)
Lemma setPhysProp_fixed (NAME : string) (s : Peng3D) (body : Cannon.Body)
      (pd : PhysData) :
  physicsBodies s !! NAME = Some body ->
  objectPhysData s !! NAME = Some pd ->
  exists s' body',
    setPhysProp NAME "fixed" 1 s = Normal s'
    /\ objects s' = objects s
    /\ physicsBodies s' !! NAME = Some body'
    /\ Cannon.type body' = Cannon.STATIC
    /\ objectPhysData s' !! NAME
       = Some (mkPhysData (enabled pd) (pd_mass pd) true (friction pd)
                          (bounciness pd))
    /\ forall key, key <> NAME -> same_at key s s'.
Proof.
  intros Hb Hp. unfold setPhysProp. rewrite Hb, Hp. simpl.
  eexists. eexists. split; [reflexivity|]. simpl.
  rewrite !lookup_insert_eq. repeat split.
  all: simpl; apply lookup_insert_ne; congruence.
Qed.

Lemma setPhysProp_no_body (NAME PROP : string) (VAL : float) (s : Peng3D) :
  physicsBodies s !! NAME = None ->
  setPhysProp NAME PROP VAL s = Normal s.
Proof. intros Hb. unfold setPhysProp. rewrite Hb. reflexivity. Qed.


Lemma dumped_physData (pd : PhysData) :
  exists ph,
    JSON_stringify_parse (JSON_physData pd) = JObj ph
    /\ truthy_field ph "enabled" = enabled pd
    /\ truthy_field ph "fixed" = fixed pd.
Proof. eexists. repeat split. Qed.

(** The physics part of an entry, read into a state where the object has
    no body yet. *)
Lemma load_physics_dumped (s s5 : Peng3D) (key : string) (o5 : Three.Object3D)
      (f : list (string * JSON)) :
  JObj_get f "physics"
  = (fun pd => JSON_stringify_parse (JSON_physData pd)) <$> objectPhysData s !! key ->
  objects s5 !! key = Some o5 ->
  physicsBodies s5 !! key = None ->
  exists s6,
    load_physics key f s5 = Normal s6
    /\ objects s6 = objects s5
    /\ (forall key', key' <> key -> same_at key' s5 s6)
    /\ forall pd,
         objectPhysData s !! key = Some pd ->
         enabled pd = true -> Three.isMesh o5 = true ->
         exists body pd',
           physicsBodies s6 !! key = Some body
           /\ objectPhysData s6 !! key = Some pd'
           /\ enabled pd' = true
           /\ fixed pd' = fixed pd
           /\ Cannon.type body
              = (if fixed pd then Cannon.STATIC else Cannon.DYNAMIC).
Proof.
  intros Hf Ho5 Hb5. unfold load_physics. rewrite Hf.
  destruct (objectPhysData s !! key) as [pd|]; cbn [fmap option_fmap option_map].
  2: { exists s5. split; [reflexivity|]. split; [reflexivity|].
       split; [intros; apply same_at_refl | discriminate]. }
  destruct (dumped_physData pd) as (ph & -> & -> & ->).
  destruct (enabled pd) eqn:Hen.
  2: { exists s5. split; [reflexivity|]. split; [reflexivity|].
       split; [intros; apply same_at_refl|].
       intros pd' [= <-]. congruence. }
  destruct (Three.isMesh o5) eqn:Hmesh.
  - destruct (enablePhysics_mesh key s5 o5 Ho5 Hmesh) as (body & Hbody & Htype & Hpd).
    destruct (fixed pd) eqn:Hfx.
    + destruct (setPhysProp_fixed key _ body _ Hbody Hpd)
        as (s6 & body' & Hrun & Hobjs & Hbody' & Htype' & Hpd' & Hframe).
      exists s6. split; [exact Hrun|].
      split; [rewrite Hobjs; apply enablePhysics_objects|].
      split.
      * intros key' Hne.
        eapply same_at_trans; [apply same_at_enablePhysics, Hne | apply Hframe, Hne].
      * intros pd0 [= <-] _ _. exists body'. eexists.
        split; [exact Hbody'|]. split; [exact Hpd'|].
        simpl. rewrite Hfx. repeat split. exact Htype'.
    + exists (enablePhysics key s5). split; [reflexivity|].
      split; [apply enablePhysics_objects|].
      split; [intros key' Hne; apply same_at_enablePhysics, Hne|].
      intros pd0 [= <-] _ _. exists body. eexists.
      split; [exact Hbody|]. split; [exact Hpd|].
      simpl. rewrite Hfx. repeat split. exact Htype.
  - rewrite (enablePhysics_other key s5 o5 Ho5 Hmesh).
    exists s5.
    split; [destruct (fixed pd); [apply setPhysProp_no_body, Hb5 | reflexivity]|].
    split; [reflexivity|].
    split; [intros; apply same_at_refl | discriminate].
Qed.


Lemma xyz_of_xyz (a b c : float) :
  xyz_of [("x", JNum a); ("y", JNum b); ("z", JNum c)] = Some (a, b, c).
Proof. reflexivity. Qed.

Lemma same_class_new_node (a : Three.Node) (s s' : Peng3D) (T : option string) :
  same_class a (new_node s T) = same_class a (new_node s' T).
Proof.
  unfold new_node. destruct T as [t|]; [|reflexivity].
  destruct (_sharedGeometries t); [reflexivity|].
  destruct (String.eqb t "Light"); [reflexivity|].
  destruct (String.eqb t "Camera"); destruct a; reflexivity.
Qed.

Lemma createObject_no_body (TYPE : option string) (NAME : string) (s : Peng3D) :
  registries_ok s ->
  physicsBodies (createObject TYPE NAME s) !! NAME = None.
Proof.
  intros [_ Hh]. rewrite createObject_physicsBodies.
  destruct (objects s !! NAME) eqn:Hobj; [apply lookup_delete_eq|].
  destruct (physicsBodies s !! NAME) eqn:Hb; [|reflexivity].
  destruct (Hh NAME) as [o Ho]; [eauto | congruence].
Qed.

(** One entry of the text of a dumpable object, read into any state: the
    object is restored under its name, and no other name is touched. *)
Lemma load_dumped_entry (s s1 : Peng3D) (key : string) (obj : Three.Object3D) :
  dumpable s obj = true ->
  registries_ok s1 ->
  exists s2,
    load_item (JSON_stringify_parse (scene_entry s key obj)) s1 = Normal s2
    /\ restored s key obj s2
    /\ forall key', key' <> key -> same_at key' s1 s2.
Proof.
  intros Hd Hok. unfold dumpable in Hd.
  apply andb_prop in Hd as [Hd Hcol]. apply andb_prop in Hd as [Hd Hclass].
  apply andb_prop in Hd as [Hd Hsc]. apply andb_prop in Hd as [Hpos Hrot].
  unfold color_survives in Hcol. cbv zeta in Hcol.
  apply andb_prop in Hcol as [Hcol Hhex]. apply andb_prop in Hcol as [Hfin Htruthy].
  destruct (integer_value (number_of_color (object_color obj))) as [k|] eqn:Hk;
    [|discriminate].
  apply andb_prop in Hhex as [Hk0 Hhex]. apply bool_decide_eq_true_1 in Hhex.
  pose proof (dumped_name s key obj) as Fname.
  pose proof (dumped_type s key obj) as Ftype.
  pose proof (dumped_pos s key obj Hpos) as Fpos.
  pose proof (dumped_rot s key obj Hrot) as Frot.
  pose proof (dumped_scale s key obj Hsc) as Fscale.
  pose proof (dumped_color s key obj Hfin Htruthy) as Fcolor.
  pose proof (dumped_physics s key obj) as Fphys.
  destruct (dumped_entry_fields s key obj) as [f Hf].
  rewrite Hf in *. unfold JSON_field, JSON_xyz in *.
  unfold load_item. rewrite Ftype, Fname. unfold load_entry. cbv zeta.
  set (t := type_or_Cube (Three.userData_type obj)) in *.
  destruct (createObject_lookup (Some t) key s1)
    as (o0 & Ho0 & _ & Htype0 & Hnode0 & _).
  pose proof (createObject_no_body (Some t) key s1 Hok) as Hb0.
  pose proof (fun key' (Hne : key' <> key) =>
                same_at_createObject (Some t) key key' s1 Hne) as Hframe0.
  set (s1' := createObject (Some t) key s1) in *. clearbody s1'.
  rewrite Ho0, Fpos, xyz_of_xyz. cbv beta iota.
  set (p := Three.mkVector3 _ _ _).
  pose proof (update_object_lookup key (Three.with_position p) s1' o0 Ho0) as Ho2.
  set (s2 := update_object key (Three.with_position p) s1') in *.
  rewrite Frot, xyz_of_xyz. cbv beta iota.
  set (rx := json_number (Three.ex _)). set (ry := json_number (Three.ey _)).
  set (rz := json_number (Three.ez _)).
  pose proof (update_object_lookup key (Object3D_setRotation rx ry rz) s2 _ Ho2)
    as Ho3.
  set (s3 := update_object key (Object3D_setRotation rx ry rz) s2) in *.
  unfold load_scale. rewrite Fscale, xyz_of_xyz. cbv beta iota.
  set (sc := Three.mkVector3 _ _ _).
  pose proof (update_object_lookup key (Three.with_scale sc) s3 _ Ho3) as Ho4.
  set (s4 := update_object key (Three.with_scale sc) s3) in *.
  unfold bind at 1. cbv beta iota.
  unfold load_color. rewrite Fcolor, Htruthy, Hk, Hk0.
  destruct (setColor_lookup key _ _ s4 _ Ho4 Hhex)
    as (o5 & Ho5 & Htype5 & Hpos5 & Hrot5 & Hsc5 & Hmesh5 & Hcol5).
  assert (physicsBodies (setColor key ("#" ++ toString16_padStart6 k) s4) !! key
          = None) as Hb5.
  { rewrite setColor_physicsBodies. unfold s4, s3, s2.
    rewrite !update_object_physicsBodies. exact Hb0. }
  assert (forall key', key' <> key ->
            same_at key' s1 (setColor key ("#" ++ toString16_padStart6 k) s4))
    as Hframe5.
  { intros key' Hne.
    apply (same_at_trans key' s1 s1'); [apply Hframe0, Hne|].
    apply (same_at_trans key' s1' s2); [apply same_at_update_object, Hne|].
    apply (same_at_trans key' s2 s3); [apply same_at_update_object, Hne|].
    apply (same_at_trans key' s3 s4); [apply same_at_update_object, Hne|].
    apply same_at_setColor, Hne. }
  set (s5 := setColor key _ s4) in *. clearbody s5.
  unfold bind. cbv beta iota.
  destruct (load_physics_dumped s s5 key o5 f Fphys Ho5 Hb5)
    as (s6 & Hrun & Hobjs & Hframe6 & Hphys).
  exists s6. split; [exact Hrun|]. split.
  - exists o5. rewrite Hobjs. split; [exact Ho5|].
    rewrite Htype5, Hpos5, Hrot5, Hsc5. simpl.
    split; [exact Htype0|]. do 5 (split; [reflexivity|]).
    assert (same_class (Three.node obj) (Three.node o0) = true) as Hsame.
    { rewrite Hnode0, (same_class_new_node _ s1 s). exact Hclass. }
    split.
    + rewrite Hcol5. unfold Three.isCamera. simpl. unfold object_color.
      destruct (Three.node obj), (Three.node o0);
        try discriminate Hsame; reflexivity.
    + intros pd Hpd Hen Hmesh. apply (Hphys pd Hpd Hen).
      rewrite Hmesh5. unfold Three.isMesh in *. simpl.
      destruct (Three.node obj), (Three.node o0);
        try discriminate Hsame; try discriminate Hmesh; reflexivity.
  - intros key' Hne.
    eapply same_at_trans; [apply Hframe5, Hne | apply Hframe6, Hne].
Qed.


Lemma same_at_requestRender (key : string) (s : Peng3D) :
  same_at key s (_requestRender s).
Proof.
  unfold same_at.
  rewrite requestRender_objects, requestRender_physicsBodies,
    requestRender_objectPhysData.
  repeat split.
Qed.

(** The entries of dumpable objects under distinct names, read one after
    the other. *)
Lemma load_dumped_entries (s : Peng3D) (l : list (string * Three.Object3D))
      (s1 : Peng3D) :
  NoDup l.*1 ->
  (forall key obj, (key, obj) ∈ l -> dumpable s obj = true) ->
  registries_ok s1 ->
  exists s2,
    load_items
      (List.map (fun kv => JSON_stringify_parse (scene_entry s (fst kv) (snd kv))) l)
      s1 = Normal s2
    /\ (forall key obj, (key, obj) ∈ l -> restored s key obj s2)
    /\ forall key, key ∉ l.*1 -> same_at key s1 s2.
Proof.
  revert s1. induction l as [|[k o] l IH]; intros s1 Hnd Hd Hok.
  - exists s1. split; [reflexivity|]. split.
    + intros key obj Hin. apply elem_of_nil in Hin. destruct Hin.
    + intros key _. apply same_at_refl.
  - simpl in Hnd. apply NoDup_cons in Hnd as [Hk Hnd].
    destruct (load_dumped_entry s s1 k o) as (s2 & Hrun & Hres & Hframe);
      [apply (Hd k o); left | exact Hok|].
    assert (registries_ok s2) as Hok2.
    { apply (registries_ok_load_items [JSON_stringify_parse (scene_entry s k o)] s1);
        [left; unfold load_items; rewrite Hrun; reflexivity | exact Hok]. }
    destruct (IH s2 Hnd) as (s3 & Hrun3 & Hres3 & Hframe3);
      [intros key obj Hin; apply (Hd key obj); right; exact Hin | exact Hok2|].
    exists s3. cbn [load_items List.map fst snd]. rewrite Hrun.
    split; [exact Hrun3|]. split.
    + intros key obj Hin. apply elem_of_cons in Hin as [Heq | Hin].
      * inversion Heq; subst.
        eapply same_at_restored; [apply Hframe3, Hk | exact Hres].
      * apply Hres3, Hin.
    + intros key Hkey. simpl in Hkey.
      apply not_elem_of_cons in Hkey as [Hne Hrest].
      eapply same_at_trans; [apply Hframe, Hne | apply Hframe3, Hrest].
Qed.

(** X2.  Reloading a scene of dumpable objects: the load completes, the
    names are those of the scene, and every object is restored. *)
Lemma reload_restores (s : Peng3D) :
  registries_ok s ->
  scene_dumpable s = true ->
  exists s',
    reload s = Normal s'
    /\ dom (objects s') = dom (objects s)
    /\ forall key obj, objects s !! key = Some obj -> restored s key obj s'.
Proof.
  intros Hok Hall.
  assert (forall key obj, objects s !! key = Some obj -> dumpable s obj = true)
    as Hd.
  { intros key obj Hobj. unfold scene_dumpable in Hall.
    rewrite forallb_forall in Hall.
    apply (Hall (key, obj)), list_elem_of_In, elem_of_map_to_list, Hobj. }
  unfold reload, loadSceneJSON, loadSceneJSON_try, getSceneJSON, sceneData.
  simpl JSON_stringify_parse. rewrite map_map.
  destruct (load_dumped_entries s (map_to_list (objects s)) (deleteAllObjects s))
    as (s2 & Hrun & Hres & Hframe).
  - apply NoDup_fst_map_to_list.
  - intros key obj Hin. apply elem_of_map_to_list in Hin. eauto.
  - apply registries_ok_deleteAllObjects, Hok.
  - rewrite Hrun. simpl. exists (_requestRender s2). split; [reflexivity|]. split.
    + apply set_eq. intros key. rewrite !elem_of_dom, requestRender_objects.
      destruct (objects s !! key) as [obj|] eqn:Hobj.
      * destruct (Hres key obj) as (obj' & Ho' & _);
          [apply elem_of_map_to_list, Hobj|].
        rewrite Ho'. split; eauto.
      * destruct (Hframe key) as (Ho & _).
        { intros Hin. apply list_elem_of_fmap in Hin as [[k o] [-> Hin]].
          apply elem_of_map_to_list in Hin. simpl in Hobj. congruence. }
        rewrite Ho, deleteAllObjects_objects, lookup_empty.
        split; intros [? ?]; discriminate.
    + intros key obj Hobj.
      eapply same_at_restored; [apply same_at_requestRender|].
      apply Hres, elem_of_map_to_list, Hobj.
Qed.

(** The default colour survives, black does not. *)
Lemma white_survives : color_survives Three.white = true.
Proof. vm_compute. reflexivity. Qed.

Lemma black_does_not_survive : color_survives 0%Z = false.
Proof. vm_compute. reflexivity. Qed.

(** **** The colour the guard loses *)

(** The guard [if (item.color)] passes over an entry whose colour is the
    number [0]. *)
Lemma load_color_skips_black (NAME : string) (f : list (string * JSON))
      (s : Peng3D) :
  JObj_get f "color" = Some (JNum 0) ->
  load_color NAME f s = Normal s.
Proof. intros H. unfold load_color. rewrite H. reflexivity. Qed.

(** C5, at the input where the code departs from it.  A cube coloured
    [#000000] is dumped with [color: 0]; [loadSceneJSON] tests
    [if (item.color)], finds [0] falsy, and never calls [setColor]: the
    reloaded cube has the default white material. *)
Theorem black_is_lost_on_reload :
  let s := setColor "A" "#000000" (createObject (Some "Cube") "A" Peng3D_init) in
  color_of s "A" = Some 0%Z
  /\ (fun entry => JSON_field entry "color") <$> JSON_items (getSceneJSON s)
     = [Some (JNum 0)]
  /\ exists s', reload s = Normal s' /\ color_of s' "A" = Some Three.white.
Proof.
  cbv zeta. split; [vm_compute; reflexivity|]. split; [vm_compute; reflexivity|].
  eexists. split; vm_compute; reflexivity.
Qed.

(** The same scene in another colour comes back in that colour. *)
Lemma coloured_cube_reloads :
  let s := setColor "A" "#12ab00" (createObject (Some "Cube") "A" Peng3D_init) in
  color_of s "A" = Some 1223424%Z
  /\ exists s', reload s = Normal s' /\ color_of s' "A" = Some 1223424%Z.
Proof.
  cbv zeta. split; [vm_compute; reflexivity|].
  eexists. split; vm_compute; reflexivity.
Qed.

End Properties.

(** ** More of the blocks

    What the blocks do beyond the ten properties above: the physics
    blocks, grouping, the reporters, the scene text, the quality settings,
    and what every reachable state keeps. *)

Section Coverage.

Context {E : Engine}.

#[local] Arguments _disposeObject : simpl never.
#[local] Arguments _requestRender : simpl never.

(** Case analysis on whatever a block branches on. *)
Ltac branch_step :=
  match goal with
  | |- context [match ?x with _ => _ end] =>
      match x with
      | context [match _ with _ => _ end] => fail 1
      | _ => destruct x eqn:?
      end
  end.

Ltac branch := repeat first [branch_step | progress simpl].

(** *** The hex text of a colour *)

Lemma hex_digit_value_hex_digit (d : Z) :
  (0 <= d < 16)%Z -> Three.hex_digit_value (hex_digit d) = Some d.
Proof.
  intros Hd.
  assert (d = 0 \/ d = 1 \/ d = 2 \/ d = 3 \/ d = 4 \/ d = 5 \/ d = 6 \/ d = 7
          \/ d = 8 \/ d = 9 \/ d = 10 \/ d = 11 \/ d = 12 \/ d = 13 \/ d = 14
          \/ d = 15)%Z as Hcases by lia.
  repeat (destruct Hcases as [-> | Hcases]; [reflexivity|]).
  subst. reflexivity.
Qed.

Lemma parse_hex_to_hex (fuel : nat) (n : Z) (acc : string) :
  (0 <= n < 16 ^ Z.of_nat fuel)%Z ->
  Three.parse_hex (to_hex fuel n acc) 0 = Three.parse_hex acc n.
Proof.
  revert n acc. induction fuel as [|fuel IH]; intros n acc Hn.
  - simpl in Hn. assert (n = 0)%Z as -> by lia. reflexivity.
  - assert (0 <= n mod 16 < 16)%Z as Hmod by (apply Z.mod_pos_bound; lia).
    assert (n = 16 * (n / 16) + n mod 16)%Z as Hsplit by (apply Z.div_mod; lia).
    cbn [to_hex]. destruct (n / 16 =? 0)%Z eqn:Hq.
    + apply Z.eqb_eq in Hq. cbn [Three.parse_hex].
      rewrite hex_digit_value_hex_digit by exact Hmod.
      f_equal. lia.
    + rewrite IH.
      * cbn [Three.parse_hex]. rewrite hex_digit_value_hex_digit by exact Hmod.
        f_equal. lia.
      * rewrite Nat2Z.inj_succ, Z.pow_succ_r in Hn by lia.
        split; [apply Z.div_pos; lia|].
        apply Z.div_lt_upper_bound; lia.
Qed.

Lemma to_hex_length (fuel : nat) (m : nat) (n : Z) (acc : string) :
  (1 <= m <= fuel)%nat -> (0 <= n < 16 ^ Z.of_nat m)%Z ->
  (String.length (to_hex fuel n acc) <= m + String.length acc)%nat.
Proof.
  revert m n acc. induction fuel as [|fuel IH]; intros m n acc Hm Hn; [lia|].
  cbn [to_hex]. destruct (n / 16 =? 0)%Z eqn:Hq; [simpl; lia|].
  apply Z.eqb_neq in Hq.
  destruct m as [|[|m]]; [lia| |].
  - exfalso. apply Hq. apply Z.div_small. simpl in Hn. lia.
  - specialize (IH (S m) (n / 16)%Z (String (hex_digit (n mod 16)) acc)).
    cbn [String.length] in IH.
    assert (String.length (to_hex fuel (n / 16) (String (hex_digit (n mod 16)) acc))
            <= S m + S (String.length acc))%nat; [|lia].
    apply IH; [lia|].
    rewrite (Nat2Z.inj_succ (S m)), Z.pow_succ_r in Hn by lia.
    split; [apply Z.div_pos; lia|].
    apply Z.div_lt_upper_bound; lia.
Qed.

Lemma parse_hex_pad_zeros (k : nat) (str : string) :
  Three.parse_hex (pad_zeros k str) 0 = Three.parse_hex str 0.
Proof. induction k as [|k IH]; [reflexivity|]. simpl. exact IH. Qed.

Lemma pad_zeros_length (k : nat) (str : string) :
  String.length (pad_zeros k str) = (k + String.length str)%nat.
Proof. induction k as [|k IH]; [reflexivity|]. simpl. rewrite IH. reflexivity. Qed.

(** X3.  The text ['#' + n.toString(16).padStart(6, '0')] that
    [loadSceneJSON] makes of a colour number between [0] and [0xffffff] is
    read by [color.set] as that same number. *)
Theorem hex_text_round_trip (k : Z) :
  (0 <= k < 16777216)%Z ->
  Color_hexStyle ("#" ++ toString16_padStart6 k) = Some k.
Proof.
  intros Hk. unfold toString16_padStart6. cbv zeta.
  set (digits := to_hex 300 k "").
  assert (String.length digits <= 6)%nat as Hlen.
  { pose proof (to_hex_length 300 6 k "") as H.
    change (String.length "") with 0%nat in H.
    unfold digits. rewrite Nat.add_0_r in H. apply H; [lia|].
    change (16 ^ Z.of_nat 6)%Z with 16777216%Z. exact Hk. }
  assert (Three.parse_hex digits 0 = Some k) as Hparse.
  { unfold digits. rewrite parse_hex_to_hex; [reflexivity|].
    split; [lia|]. eapply Z.lt_le_trans; [apply Hk|].
    change 16777216%Z with (16 ^ 6)%Z. apply Z.pow_le_mono_r; lia. }
  set (hex := pad_zeros (6 - String.length digits) digits).
  assert (String.length hex = 6%nat) as Hsix
    by (unfold hex; rewrite pad_zeros_length; lia).
  assert (Three.parse_hex hex 0 = Some k) as Hhex
    by (unfold hex; rewrite parse_hex_pad_zeros; exact Hparse).
  clearbody hex. clear digits Hlen Hparse.
  change ("#" ++ hex) with (String "#"%char hex). unfold Color_hexStyle.
  destruct hex as [|a [|b [|c [|d rest]]]]; try discriminate Hsix.
  rewrite Hsix. exact Hhex.
Qed.

(** *** Physics, grouping and kinds *)

(** X4.  [enablePhysics] on a mesh leaves a new dynamic body of mass 1 at
    rest where the object is, with the default physics data; the object
    is untouched, and a body the name had before is out of the world and
    out of [bodyToName]. *)
Theorem enablePhysics_gives_fresh_body (s : Peng3D) (NAME : string)
        (obj : Three.Object3D) :
  objects s !! NAME = Some obj ->
  Three.isMesh obj = true ->
  let s' := enablePhysics NAME s in
  synced s' NAME
  /\ objects s' = objects s
  /\ objectPhysData s' !! NAME = Some (mkPhysData true 1 false 0.3 0.3)
  /\ exists body,
       physicsBodies s' !! NAME = Some body
       /\ Cannon.id body ∈ Cannon.bodies (world s')
       /\ bodyToName s' !! Cannon.id body = Some NAME
       /\ Cannon.mass body = 1%float
       /\ Cannon.type body = Cannon.DYNAMIC
       /\ Cannon.shape body
          = shape_for (type_or_Cube (Three.userData_type obj)) (Three.scale obj)
       /\ forall old,
            physicsBodies s !! NAME = Some old ->
            Cannon.id old <> Cannon.id body ->
            (Cannon.id old ∉ Cannon.bodies (world s'))
            /\ bodyToName s' !! Cannon.id old = None.
Proof.
  intros Hobj Hmesh. cbv zeta. unfold synced, enablePhysics.
  rewrite Hobj, Hmesh. simpl.
  destruct (physicsBodies s !! NAME) as [old0|] eqn:Hb; simpl;
    rewrite !lookup_insert_eq, Hobj.
  all: split; [eexists; eexists; repeat split|].
  all: split; [reflexivity|]. all: split; [reflexivity|].
  all: eexists; split; [reflexivity|]; simpl.
  all: split; [set_solver|]; split; [apply lookup_insert_eq|].
  all: do 3 (split; [reflexivity|]).
  all: intros old [= <-] Hne.
  split; [set_solver|].
  rewrite lookup_insert_ne by congruence. apply lookup_delete_eq.
Qed.


(** X5.  Grouping a child into another object takes the child's body out
    of the registry and out of the world, moves the child to the parent's
    origin and leaves its physics data in place; afterwards pushing the
    child or setting one of its physics properties does nothing. *)
Theorem groupObjects_drops_body (s : Peng3D) (CHILD PARENT : string)
        (child parent : Three.Object3D) :
  objects s !! CHILD = Some child ->
  objects s !! PARENT = Some parent ->
  Three.id child <> Three.id parent ->
  let s' := groupObjects CHILD PARENT s in
  objects s' !! CHILD
  = Some (Three.with_position Three.Vector3_zero
            (Three.with_parent (Three.ParentObject (Three.id parent)) child))
  /\ (forall key, key <> CHILD -> objects s' !! key = objects s !! key)
  /\ physicsBodies s' = delete CHILD (physicsBodies s)
  /\ (forall body,
        physicsBodies s !! CHILD = Some body ->
        Cannon.id body ∉ Cannon.bodies (world s'))
  /\ objectPhysData s' = objectPhysData s
  /\ (forall X Y Z, pushObject CHILD X Y Z s' = s')
  /\ (forall PROP VAL, setPhysProp CHILD PROP VAL s' = Normal s').
Proof.
  intros Hc Hp Hne. cbv zeta.
  assert (physicsBodies (groupObjects CHILD PARENT s)
          = delete CHILD (physicsBodies s)) as Hbodies.
  { unfold groupObjects. rewrite Hc, Hp.
    destruct (Pos.eqb_spec (Three.id child) (Three.id parent)) as [|_];
      [contradiction|].
    rewrite requestRender_physicsBodies.
    destruct (physicsBodies s !! CHILD) eqn:Hb; simpl; [reflexivity|].
    symmetry. apply delete_id, Hb. }
  assert (physicsBodies (groupObjects CHILD PARENT s) !! CHILD = None) as Hnone
    by (rewrite Hbodies; apply lookup_delete_eq).
  repeat split.
  - unfold groupObjects. rewrite Hc, Hp.
    destruct (Pos.eqb_spec (Three.id child) (Three.id parent)) as [|_];
      [contradiction|].
    rewrite requestRender_objects. simpl. rewrite lookup_insert_eq.
    reflexivity.
  - intros key Hkey. unfold groupObjects. rewrite Hc, Hp.
    destruct (Pos.eqb_spec (Three.id child) (Three.id parent)) as [|_];
      [contradiction|].
    rewrite requestRender_objects. simpl.
    rewrite lookup_insert_ne by congruence.
    destruct (physicsBodies s !! CHILD); reflexivity.
  - exact Hbodies.
  - intros body Hb. unfold groupObjects. rewrite Hc, Hp.
    destruct (Pos.eqb_spec (Three.id child) (Three.id parent)) as [|_];
      [contradiction|].
    rewrite requestRender_world, Hb. simpl. set_solver.
  - unfold groupObjects. rewrite Hc, Hp.
    destruct (Pos.eqb_spec (Three.id child) (Three.id parent)) as [|_];
      [contradiction|].
    rewrite requestRender_objectPhysData.
    destruct (physicsBodies s !! CHILD); reflexivity.
  - intros X Y Z. unfold pushObject. rewrite Hnone. reflexivity.
  - intros PROP VAL. unfold setPhysProp. rewrite Hnone. reflexivity.
Qed.

(** X6.  [setPhysProp(name, 'fixed', 1)] makes the body static with mass 0
    and no linear velocity, awake, and keeps its angular velocity; setting
    ['fixed'] to any other number afterwards makes it dynamic again with
    the mass of its physics data. *)
Theorem fixed_flag_toggles (s : Peng3D) (NAME : string) (body : Cannon.Body)
        (pd : PhysData) (VAL : float) :
  physicsBodies s !! NAME = Some body ->
  objectPhysData s !! NAME = Some pd ->
  PrimFloat.eqb VAL 1 = false ->
  exists s1 s2 b1 b2,
    setPhysProp NAME "fixed" 1 s = Normal s1
    /\ physicsBodies s1 !! NAME = Some b1
    /\ Cannon.type b1 = Cannon.STATIC
    /\ Cannon.mass b1 = 0%float
    /\ Cannon.velocity b1 = Cannon.Vec3_zero
    /\ Cannon.angularVelocity b1 = Cannon.angularVelocity body
    /\ Cannon.awake b1 = true
    /\ fixed <$> objectPhysData s1 !! NAME = Some true
    /\ setPhysProp NAME "fixed" VAL s1 = Normal s2
    /\ physicsBodies s2 !! NAME = Some b2
    /\ Cannon.type b2 = Cannon.DYNAMIC
    /\ Cannon.mass b2 = pd_mass pd
    /\ Cannon.position b2 = Cannon.position body
    /\ objectPhysData s2 !! NAME
       = Some (mkPhysData (enabled pd) (pd_mass pd) false (friction pd)
                          (bounciness pd))
    /\ objects s2 = objects s.
Proof.
  intros Hb Hp Hval.
  eexists. eexists. eexists. eexists.
  split; [unfold setPhysProp; rewrite Hb, Hp; reflexivity|].
  simpl. rewrite !lookup_insert_eq.
  split; [reflexivity|]. do 5 (split; [reflexivity|]).
  split; [reflexivity|].
  split; [unfold setPhysProp; simpl; rewrite !lookup_insert_eq; simpl;
          rewrite Hval; reflexivity|].
  simpl. rewrite !lookup_insert_eq. repeat split.
Qed.

(** X7.  The blocks for one kind of object leave any other kind alone:
    [setLightProp] does nothing to a mesh or a camera, [setCamera] and
    [setFOV] nothing to a mesh or a light, [enablePhysics] nothing to a
    light or a camera, and [setColor] on a camera changes nothing but the
    pending render. *)
Theorem wrong_kind_is_noop (s : Peng3D) (NAME : string) (obj : Three.Object3D) :
  objects s !! NAME = Some obj ->
  (Three.isLight obj = false ->
   forall PROP VAL, setLightProp NAME PROP VAL s = s)
  /\ (Three.isCamera obj = false ->
      setCamera NAME s = s /\ forall FOV, setFOV NAME FOV s = s)
  /\ (Three.isMesh obj = false -> enablePhysics NAME s = s)
  /\ (Three.isCamera obj = true ->
      forall COLOR, scene_unchanged s (setColor NAME COLOR s)).
Proof.
  intros Hobj. unfold Three.isLight, Three.isCamera, Three.isMesh.
  repeat split.
  - intros Hk PROP VAL. unfold setLightProp. rewrite Hobj.
    destruct (Three.node obj); [reflexivity | discriminate | reflexivity].
  - unfold setCamera. rewrite Hobj.
    destruct (Three.node obj); [reflexivity | reflexivity | discriminate].
  - intros FOV. unfold setFOV. rewrite Hobj.
    destruct (Three.node obj); [reflexivity | reflexivity | discriminate].
  - intros Hk. unfold enablePhysics, Three.isMesh. rewrite Hobj.
    destruct (Three.node obj); [discriminate | reflexivity | reflexivity].
  - intros Hk COLOR. unfold setColor. rewrite Hobj.
    destruct (Three.node obj); try discriminate.
    rewrite insert_id by exact Hobj.
    unfold scene_unchanged. destruct s as [? ? ? ? ? ? pending].
    unfold _requestRender. simpl. destruct pending; [left | right]; reflexivity.
Qed.


Lemma find_app_last {A : Type} (P : A -> bool) (l : list A) (a : A) :
  List.find P l = None -> P a = true -> List.find P (l ++ [a])%list = Some a.
Proof.
  intros Hl Ha. induction l as [|b l IH]; simpl in *; [rewrite Ha; reflexivity|].
  destruct (P b); [discriminate | apply IH, Hl].
Qed.

Lemma update_first_app_last {A : Type} (P : A -> bool) (f : A -> A)
      (l : list A) (a : A) :
  List.find P l = None -> P a = true ->
  update_first P f (l ++ [a])%list = (l ++ [f a])%list.
Proof.
  intros Hl Ha. induction l as [|b l IH]; simpl in *; [rewrite Ha; reflexivity|].
  destruct (P b); [discriminate|]. rewrite IH by exact Hl. reflexivity.
Qed.

(** X8.  The first [friction] or [bounciness] a body with the default
    material is given makes a material of its own for the body and adds
    one contact material against the default material; a later setting
    updates that contact material and adds none. *)
Theorem friction_then_bounciness (s : Peng3D) (NAME : string)
        (body : Cannon.Body) (pd : PhysData) (v w : float) :
  physicsBodies s !! NAME = Some body ->
  objectPhysData s !! NAME = Some pd ->
  Cannon.material body = Cannon.DefaultPhysMaterial ->
  Cannon.World_getContactMaterial (world s)
    (Cannon.NamedMaterial (nextMaterialId s) ("mat_" ++ NAME))
    Cannon.DefaultPhysMaterial = None ->
  let m := Cannon.NamedMaterial (nextMaterialId s) ("mat_" ++ NAME) in
  exists s1 s2,
    setPhysProp NAME "friction" v s = Normal s1
    /\ Cannon.contactmaterials (world s1)
       = (Cannon.contactmaterials (world s)
          ++ [Cannon.mkContactMaterial m Cannon.DefaultPhysMaterial v
                (bounciness pd)])%list
    /\ Cannon.material <$> physicsBodies s1 !! NAME = Some m
    /\ setPhysProp NAME "bounciness" w s1 = Normal s2
    /\ Cannon.contactmaterials (world s2)
       = (Cannon.contactmaterials (world s)
          ++ [Cannon.mkContactMaterial m Cannon.DefaultPhysMaterial v w])%list
    /\ Cannon.material <$> physicsBodies s2 !! NAME = Some m
    /\ objectPhysData s2 !! NAME
       = Some (mkPhysData (enabled pd) (pd_mass pd) (fixed pd) v w).
Proof.
  intros Hb Hp Hmat Hfresh. cbv zeta.
  set (m := Cannon.NamedMaterial (nextMaterialId s) ("mat_" ++ NAME)) in *.
  set (cm := Cannon.mkContactMaterial m Cannon.DefaultPhysMaterial v
               (bounciness pd)).
  assert (Cannon.ContactMaterial_matches m Cannon.DefaultPhysMaterial cm = true)
    as Hcm.
  { unfold Cannon.ContactMaterial_matches, cm, m. simpl.
    rewrite Pos.eqb_refl. reflexivity. }
  eexists. eexists.
  split.
  { unfold setPhysProp. rewrite Hb, Hp, Hmat. simpl.
    fold m. rewrite Hfresh. reflexivity. }
  simpl. rewrite !lookup_insert_eq. simpl.
  split; [reflexivity|]. split; [reflexivity|].
  split.
  { unfold setPhysProp. simpl. rewrite !lookup_insert_eq. simpl.
    unfold Cannon.World_getContactMaterial. simpl.
    fold m. fold cm.
    rewrite (find_app_last _ _ cm Hfresh Hcm). reflexivity. }
  simpl. rewrite !lookup_insert_eq. simpl.
  split; [|split; reflexivity].
  fold m. fold cm. rewrite (update_first_app_last _ _ _ cm Hfresh Hcm).
  reflexivity.
Qed.

(** *** The array reporters *)

Lemma setPos_lookup (s : Peng3D) (NAME : string) (X Y Z : float)
      (obj : Three.Object3D) :
  objects s !! NAME = Some obj ->
  objects (setPos NAME X Y Z s) !! NAME
  = Some (Three.with_position (Three.mkVector3 X Y Z) obj).
Proof.
  intros H. unfold setPos.
  rewrite H, requestRender_objects, updatePhysicsTransform_objects.
  apply lookup_insert_eq.
Qed.

Lemma changePosition_lookup (s : Peng3D) (NAME : string) (X Y Z : float)
      (obj : Three.Object3D) :
  objects s !! NAME = Some obj ->
  objects (changePosition NAME X Y Z s) !! NAME
  = Some (Three.with_position
            (Three.mkVector3 (Three.vx (Three.position obj) + X)
                             (Three.vy (Three.position obj) + Y)
                             (Three.vz (Three.position obj) + Z)) obj).
Proof.
  intros H. unfold changePosition.
  rewrite H, requestRender_objects, updatePhysicsTransform_objects.
  apply lookup_insert_eq.
Qed.

Lemma setScale_lookup (s : Peng3D) (NAME : string) (X Y Z : float)
      (obj : Three.Object3D) :
  objects s !! NAME = Some obj ->
  objects (setScale NAME X Y Z s) !! NAME
  = Some (Three.with_scale (Three.mkVector3 X Y Z) obj).
Proof.
  intros H. unfold setScale. rewrite H, requestRender_objects.
  apply lookup_insert_eq.
Qed.

(** X9.  The position and scale reporters give back what the setters
    stored: after [setPos] the position array is the three arguments,
    after [changePosition] the old coordinates plus the arguments, after
    [setScale] the scale array is the three arguments; neither setter
    shows in the other reporter. *)
Theorem array_reporters_read_back (s : Peng3D) (NAME : string)
        (obj : Three.Object3D) (X Y Z : float) :
  objects s !! NAME = Some obj ->
  getPosition NAME (setPos NAME X Y Z s) = JSON_numbers [X; Y; Z]
  /\ getPosition NAME (changePosition NAME X Y Z s)
     = JSON_numbers [(Three.vx (Three.position obj) + X)%float;
                     (Three.vy (Three.position obj) + Y)%float;
                     (Three.vz (Three.position obj) + Z)%float]
  /\ getScale NAME (setScale NAME X Y Z s) = JSON_numbers [X; Y; Z]
  /\ getPosition NAME (setScale NAME X Y Z s) = getPosition NAME s
  /\ getScale NAME (setPos NAME X Y Z s) = getScale NAME s.
Proof.
  intros H. unfold getPosition, getScale.
  rewrite (setPos_lookup s NAME X Y Z obj H),
    (changePosition_lookup s NAME X Y Z obj H),
    (setScale_lookup s NAME X Y Z obj H), H.
  repeat split.
Qed.


(** *** Contacts *)

Lemma Set_add_all (l acc : list string) :
  NoDup acc ->
  NoDup (foldl Set_add acc l)
  /\ forall n, n ∈ foldl Set_add acc l <-> n ∈ acc \/ n ∈ l.
Proof.
  revert acc. induction l as [|a l IH]; intros acc Hnd; simpl.
  - split; [exact Hnd|]. intros n. rewrite elem_of_nil. tauto.
  - assert (NoDup (Set_add acc a)) as Hnd'.
    { unfold Set_add. destruct (bool_decide (a ∈ acc)) eqn:Hin; [exact Hnd|].
      apply bool_decide_eq_false_1 in Hin.
      apply NoDup_app. split; [exact Hnd|]. split.
      - intros x Hx Hxa. apply list_elem_of_singleton in Hxa. subst. auto.
      - apply NoDup_singleton. }
    destruct (IH _ Hnd') as [H1 H2]. split; [exact H1|].
    intros n. rewrite H2, elem_of_cons. unfold Set_add.
    destruct (bool_decide (a ∈ acc)) eqn:Hin.
    + apply bool_decide_eq_true_1 in Hin. split; [tauto|].
      intros [?|[->|?]]; tauto.
    + rewrite elem_of_app, list_elem_of_singleton. tauto.
Qed.

(** X11.  [getTouching] lists a name once, however many contacts the pair
    has, and lists exactly the non-empty names [bodyToName] has for the
    bodies that share a contact with the target, whichever side of the
    contact the target is on. *)
Theorem getTouching_lists_each_name_once
        (contacts : list (positive * positive)) (NAME : string) (s : Peng3D)
        (target : Cannon.Body) :
  physicsBodies s !! NAME = Some target ->
  exists names,
    getTouching contacts NAME s = JArr (List.map JStr names)
    /\ NoDup names
    /\ forall n,
         n ∈ names <->
         n <> ""
         /\ exists i,
              ((Cannon.id target, i) ∈ contacts \/ (i, Cannon.id target) ∈ contacts)
              /\ bodyToName s !! i = Some n.
Proof.
  intros Hb. unfold getTouching. rewrite Hb.
  eexists. split; [reflexivity|].
  destruct (Set_add_all (omap (touching_name s (Cannon.id target)) contacts) [])
    as [Hnd Hin]; [apply NoDup_nil_2|].
  split; [exact Hnd|]. intros n. rewrite Hin, elem_of_nil, list_elem_of_omap.
  unfold touching_name. split.
  - intros [[] | [[a b] [Hc Hn]]]. simpl in Hn.
    destruct (Pos.eqb_spec a (Cannon.id target)) as [-> | Ha].
    + destruct (bodyToName s !! b) as [m|] eqn:Hm; [|discriminate].
      destruct (String.eqb_spec m ""); [discriminate|].
      injection Hn as <-. split; [assumption|]. exists b. auto.
    + destruct (Pos.eqb_spec b (Cannon.id target)) as [-> | Hb']; [|discriminate].
      destruct (bodyToName s !! a) as [m|] eqn:Hm; [|discriminate].
      destruct (String.eqb_spec m ""); [discriminate|].
      injection Hn as <-. split; [assumption|]. exists a. auto.
  - intros [Hne [i [[Hc | Hc] Hi]]]; right.
    + exists (Cannon.id target, i). split; [exact Hc|]. simpl.
      rewrite Pos.eqb_refl, Hi.
      destruct (String.eqb_spec n ""); [contradiction | reflexivity].
    + exists (i, Cannon.id target). split; [exact Hc|]. simpl.
      destruct (Pos.eqb_spec i (Cannon.id target)) as [-> | Hi'].
      * rewrite Hi. destruct (String.eqb_spec n ""); [contradiction | reflexivity].
      * rewrite Pos.eqb_refl, Hi.
        destruct (String.eqb_spec n ""); [contradiction | reflexivity].
Qed.

(** *** The entries of the scene text *)

Lemma entry_names_dump (s : Peng3D) (l : list (string * Three.Object3D)) :
  entry_names
    (List.map (fun kv => JSON_stringify_parse (scene_entry s (fst kv) (snd kv))) l)
  = l.*1.
Proof.
  unfold entry_names. induction l as [|[k o] l IH]; [reflexivity|].
  cbn [List.map omap list_omap fmap list_fmap fst snd].
  unfold entry_name at 1. rewrite dumped_name. cbn [fmap list_fmap] in IH.
  rewrite IH. reflexivity.
Qed.


(** *** Deleting *)

(** X13.  [deleteObject] takes the object out of the registry, and its body,
    if it has one, out of the body registry, the world and [bodyToName],
    together with its physics data; physics data kept for a name without
    body stays behind, no other name is touched, and the active camera is
    not reset. *)
Theorem deleteObject_removes (s : Peng3D) (NAME : string) (obj : Three.Object3D) :
  objects s !! NAME = Some obj ->
  let s' := deleteObject NAME s in
  objects s' = delete NAME (objects s)
  /\ physicsBodies s' = delete NAME (physicsBodies s)
  /\ (forall body,
        physicsBodies s !! NAME = Some body ->
        (Cannon.id body ∉ Cannon.bodies (world s'))
        /\ bodyToName s' !! Cannon.id body = None
        /\ objectPhysData s' = delete NAME (objectPhysData s))
  /\ (physicsBodies s !! NAME = None ->
      objectPhysData s' = objectPhysData s /\ world s' = world s)
  /\ (forall key, key <> NAME -> same_at key s s')
  /\ activeCamera s' = activeCamera s.
Proof.
  intros Hobj. cbv zeta. unfold deleteObject. rewrite Hobj.
  rewrite requestRender_objects, requestRender_physicsBodies,
    requestRender_objectPhysData, requestRender_world, requestRender_bodyToName,
    disposeObject_objects, disposeObject_physicsBodies.
  split; [reflexivity|]. split; [reflexivity|].
  split; [|split; [|split]].
  - intros body Hb. unfold _disposeObject. rewrite Hb. simpl.
    split; [set_solver|]. split; [apply lookup_delete_eq | reflexivity].
  - intros Hb. unfold _disposeObject. rewrite Hb. split; reflexivity.
  - intros key Hne. unfold same_at.
    rewrite requestRender_objects, requestRender_physicsBodies,
      requestRender_objectPhysData, disposeObject_objects,
      disposeObject_physicsBodies.
    rewrite !lookup_delete_ne by congruence.
    split; [reflexivity|]. split; [reflexivity|].
    apply disposeObject_objectPhysData_ne, Hne.
  - unfold _requestRender, _disposeObject.
    destruct (physicsBodies s !! NAME);
      destruct (renderPending _); reflexivity.
Qed.

(** *** What a completed load registers *)

Lemma update_object_registered (NAME key : string)
      (f : Three.Object3D -> Three.Object3D) (s : Peng3D) :
  is_Some (objects s !! key) -> is_Some (objects (update_object NAME f s) !! key).
Proof.
  intros Hkey. unfold update_object.
  destruct (objects s !! NAME) as [o|] eqn:Ho; [|exact Hkey]. simpl.
  destruct (decide (key = NAME)) as [-> | Hne].
  - rewrite lookup_insert_eq. eauto.
  - rewrite lookup_insert_ne by congruence. exact Hkey.
Qed.

Lemma setColor_registered (NAME COLOR key : string) (s : Peng3D) :
  is_Some (objects s !! key) -> is_Some (objects (setColor NAME COLOR s) !! key).
Proof.
  intros Hkey. unfold setColor.
  destruct (objects s !! NAME) as [o|] eqn:Ho; [|exact Hkey].
  rewrite requestRender_objects. simpl.
  destruct (decide (key = NAME)) as [-> | Hne].
  - rewrite lookup_insert_eq. eauto.
  - rewrite lookup_insert_ne by congruence. exact Hkey.
Qed.

Lemma load_scale_registered (NAME key : string) (f : list (string * JSON))
      (s s' : Peng3D) :
  load_scale NAME f s = Normal s' ->
  is_Some (objects s !! key) -> is_Some (objects s' !! key).
Proof.
  unfold load_scale. intros Hrun Hkey.
  destruct (JObj_get f "scale") as [[|b|n|str|l|sc]|];
    try (destruct (truthy _); [discriminate|]);
    try (injection Hrun as <-; exact Hkey).
  destruct (xyz_of sc) as [[[x y] z]|]; [|discriminate].
  injection Hrun as <-. apply update_object_registered, Hkey.
Qed.

Lemma load_color_registered (NAME key : string) (f : list (string * JSON))
      (s s' : Peng3D) :
  load_color NAME f s = Normal s' ->
  is_Some (objects s !! key) -> is_Some (objects s' !! key).
Proof.
  unfold load_color. intros Hrun Hkey.
  destruct (JObj_get f "color") as [v|]; [|injection Hrun as <-; exact Hkey].
  destruct (truthy v); [|injection Hrun as <-; exact Hkey].
  destruct v as [| |n| | |]; try discriminate.
  destruct (integer_value n) as [k|]; [|discriminate].
  destruct (0 <=? k)%Z; [|discriminate].
  injection Hrun as <-. apply setColor_registered, Hkey.
Qed.

Lemma load_physics_registered (NAME key : string) (f : list (string * JSON))
      (s s' : Peng3D) :
  load_physics NAME f s = Normal s' ->
  is_Some (objects s !! key) -> is_Some (objects s' !! key).
Proof.
  intros Hrun Hkey.
  pose proof (load_physics_frame NAME key f s s' (or_introl Hrun)) as H.
  rewrite H. exact Hkey.
Qed.

Lemma bind_Normal (c : Completion) (k : Peng3D -> Completion) (s' : Peng3D) :
  bind c k = Normal s' -> exists s1, c = Normal s1 /\ k s1 = Normal s'.
Proof. destruct c as [s1| |]; simpl; [eauto | discriminate | discriminate]. Qed.

Lemma load_entry_registers (TYPE : option string) (NAME : string)
      (f : list (string * JSON)) (s s' : Peng3D) :
  load_entry TYPE NAME f s = Normal s' -> is_Some (objects s' !! NAME).
Proof.
  unfold load_entry. cbv zeta.
  destruct (createObject_lookup TYPE NAME s) as (o0 & Ho0 & _).
  assert (is_Some (objects (createObject TYPE NAME s) !! NAME)) as H1 by eauto.
  set (s1 := createObject TYPE NAME s) in *. rewrite Ho0. clear Ho0.
  destruct (JObj_get f "pos") as [[| | | | |pos]|]; try discriminate.
  destruct (xyz_of pos) as [[[px py] pz]|]; [|discriminate].
  pose proof (update_object_registered NAME NAME
                (Three.with_position (Three.mkVector3 px py pz)) s1 H1) as H2.
  set (s2 := update_object NAME _ s1) in *.
  destruct (JObj_get f "rot") as [[| | | | |rot]|]; try discriminate.
  destruct (xyz_of rot) as [[[rx ry] rz]|]; [|discriminate].
  pose proof (update_object_registered NAME NAME
                (Object3D_setRotation rx ry rz) s2 H2) as H3.
  set (s3 := update_object NAME _ s2) in *. clearbody s3. clear H1 H2 s1 s2.
  intros Hrun.
  apply bind_Normal in Hrun as (s4 & H4 & Hrun).
  apply bind_Normal in Hrun as (s5 & H5 & Hrun).
  eapply load_physics_registered; [exact Hrun|].
  eapply load_color_registered; [exact H5|].
  eapply load_scale_registered; [exact H4 | exact H3].
Qed.

Lemma load_item_registers (item : JSON) (s s' : Peng3D) :
  load_item item s = Normal s' ->
  exists NAME, entry_name item = Some NAME /\ is_Some (objects s' !! NAME).
Proof.
  destruct item as [| | | | |f]; simpl; try discriminate.
  unfold entry_name. simpl.
  destruct (JObj_get f "name") as [[| | |NAME| |]|];
    try (destruct (JObj_get f "type") as [[| | | | |]|]; discriminate).
  intros Hrun. exists NAME. split; [reflexivity|].
  destruct (JObj_get f "type") as [[| | |t| |]|]; try discriminate;
    eapply load_entry_registers, Hrun.
Qed.

Lemma entry_names_cons (item : JSON) (items : list JSON) (NAME : string) :
  entry_name item = Some NAME ->
  entry_names (item :: items) = NAME :: entry_names items.
Proof. intros H. unfold entry_names. simpl. rewrite H. reflexivity. Qed.


(** *** One name at a time *)

Ltac elsewhere :=
  unfold same_at; branch;
  rewrite ?lookup_insert_ne, ?lookup_delete_ne by congruence;
  repeat split; reflexivity.

(** X15.  A block on one name leaves what the registries hold under every
    other name as it is: the object, the body and the physics data. *)
Theorem name_blocks_touch_one_name (NAME key : string) (b : NameBlock)
        (s s' : Peng3D) :
  key <> NAME ->
  run_block NAME b s = Normal s' \/ run_block NAME b s = Throw s' ->
  same_at key s s'.
Proof.
  intros Hne Hend. destruct b; simpl in Hend.
  12: { unfold setPhysProp in Hend. revert Hend. branch;
        intros [H | H]; inversion H; subst; elsewhere. }
  all: destruct Hend as [H | H]; inversion H; subst; clear H.
  - destruct e; simpl;
      unfold setPos, changePosition, moveObject, setRot, changeRotation,
        setRotYawPitch, lookAtObject, _requestRender, _updatePhysicsTransform;
      elsewhere.
  - unfold setScale, _requestRender. elsewhere.
  - unfold setColor, _requestRender. elsewhere.
  - unfold setLightProp, _requestRender. elsewhere.
  - unfold setCamera, _requestRender. elsewhere.
  - unfold setFOV, _requestRender. elsewhere.
  - unfold deleteObject, _requestRender, _disposeObject. elsewhere.
  - unfold groupObjects, _requestRender. elsewhere.
  - unfold ungroupObject, _requestRender. elsewhere.
  - unfold enablePhysics. elsewhere.
  - unfold pushObject. elsewhere.
Qed.

(** *** Properties every block keeps *)

Section Closure.

Variable P : Peng3D -> Prop.
Hypothesis HP : Closed P.

Lemma closed_bind (c : Completion) (k : Peng3D -> Completion) (s' : Peng3D) :
  bind c k = Normal s' \/ bind c k = Throw s' ->
  (forall s1, c = Normal s1 \/ c = Throw s1 -> P s1) ->
  (forall s1, c = Normal s1 -> P s1 ->
              k s1 = Normal s' \/ k s1 = Throw s' -> P s') ->
  P s'.
Proof.
  intros Hend Hc Hk. destruct c as [s1 | s1 |]; simpl in Hend.
  - apply (Hk s1 eq_refl); [apply Hc; left; reflexivity | exact Hend].
  - destruct Hend as [H | H]; inversion H; subst. apply Hc. right; reflexivity.
  - destruct Hend as [H | H]; discriminate H.
Qed.

Lemma closed_load_scale_step (NAME : string) (f : list (string * JSON))
      (s s' : Peng3D) :
  load_scale NAME f s = Normal s' \/ load_scale NAME f s = Throw s' ->
  P s -> P s'.
Proof.
  unfold load_scale. intros Hend Hs.
  destruct (JObj_get f "scale") as [[|b|n|str|l|sc]|];
    try (destruct (truthy _));
    try (destruct (xyz_of sc) as [[[x y] z]|]);
    destruct Hend as [H | H]; inversion H; subst; try exact Hs.
  apply (closed_load_scale P HP), Hs.
Qed.

Lemma closed_load_color_step (NAME : string) (f : list (string * JSON))
      (s s' : Peng3D) :
  load_color NAME f s = Normal s' \/ load_color NAME f s = Throw s' ->
  P s -> P s'.
Proof.
  unfold load_color. intros Hend Hs.
  destruct (JObj_get f "color") as [v|];
    [|destruct Hend as [H | H]; inversion H; subst; exact Hs].
  destruct (truthy v);
    [|destruct Hend as [H | H]; inversion H; subst; exact Hs].
  destruct v as [| |n| | |]; try (destruct Hend as [H | H]; discriminate H).
  destruct (integer_value n) as [k|]; [|destruct Hend as [H | H]; discriminate H].
  destruct (0 <=? k)%Z; [|destruct Hend as [H | H]; discriminate H].
  destruct Hend as [H | H]; inversion H; subst.
  apply (closed_setColor P HP), Hs.
Qed.

Lemma closed_load_physics_step (NAME : string) (f : list (string * JSON))
      (s s' : Peng3D) :
  load_physics NAME f s = Normal s' \/ load_physics NAME f s = Throw s' ->
  P s -> P s'.
Proof.
  unfold load_physics. intros Hend Hs.
  destruct (JObj_get f "physics") as [[| | | | |ph]|];
    try (destruct Hend as [H | H]; inversion H; subst; exact Hs).
  destruct (truthy_field ph "enabled");
    [|destruct Hend as [H | H]; inversion H; subst; exact Hs].
  destruct (truthy_field ph "fixed").
  - eapply (closed_setPhysProp P HP); [exact Hend|].
    apply (closed_enablePhysics P HP), Hs.
  - destruct Hend as [H | H]; inversion H; subst.
    apply (closed_enablePhysics P HP), Hs.
Qed.

Lemma closed_load_entry (TYPE : option string) (NAME : string)
      (f : list (string * JSON)) (s s' : Peng3D) :
  load_entry TYPE NAME f s = Normal s' \/ load_entry TYPE NAME f s = Throw s' ->
  P s -> P s'.
Proof.
  unfold load_entry. cbv zeta. intros Hend Hs.
  pose proof (closed_createObject P HP TYPE NAME s Hs) as H1.
  set (s1 := createObject TYPE NAME s) in *. clearbody s1.
  destruct (objects s1 !! NAME);
    [|destruct Hend as [H | H]; inversion H; subst; exact H1].
  destruct (JObj_get f "pos") as [[| | | | |pos]|];
    try (destruct Hend as [H | H]; inversion H; subst; exact H1).
  destruct (xyz_of pos) as [[[px py] pz]|];
    [|destruct Hend as [H | H]; discriminate H].
  pose proof (closed_load_position P HP NAME (Three.mkVector3 px py pz) s1 H1)
    as H2.
  set (s2 := update_object NAME _ s1) in *. clearbody s2.
  destruct (JObj_get f "rot") as [[| | | | |rot]|];
    try (destruct Hend as [H | H]; inversion H; subst; exact H2).
  destruct (xyz_of rot) as [[[rx ry] rz]|];
    [|destruct Hend as [H | H]; discriminate H].
  pose proof (closed_load_rotation P HP NAME rx ry rz s2 H2) as H3.
  set (s3 := update_object NAME _ s2) in *. clearbody s3.
  apply (closed_bind _ _ _ Hend).
  - intros s4 H4. apply (closed_load_scale_step NAME f s3 s4 H4 H3).
  - intros s4 _ H4 Hend4. apply (closed_bind _ _ _ Hend4).
    + intros s5 H5. apply (closed_load_color_step NAME f s4 s5 H5 H4).
    + intros s5 _ H5 Hend5.
      apply (closed_load_physics_step NAME f s5 s' Hend5 H5).
Qed.

Lemma closed_load_item (item : JSON) (s s' : Peng3D) :
  load_item item s = Normal s' \/ load_item item s = Throw s' ->
  P s -> P s'.
Proof.
  intros Hend Hs. destruct item as [| | | | |f]; simpl in Hend;
    try (destruct Hend as [H | H]; inversion H; subst; exact Hs).
  destruct (JObj_get f "type") as [[| | |t| |]|];
    destruct (JObj_get f "name") as [[| | |NAME| |]|];
    try (destruct Hend as [H | H]; discriminate H);
    eapply closed_load_entry; eauto.
Qed.

Lemma closed_load_items (items : list JSON) (s s' : Peng3D) :
  load_items items s = Normal s' \/ load_items items s = Throw s' ->
  P s -> P s'.
Proof.
  revert s. induction items as [|item items IH]; intros s Hend Hs.
  - simpl in Hend. destruct Hend as [H | H]; inversion H; subst; exact Hs.
  - simpl in Hend. apply (closed_bind _ _ _ Hend).
    + intros s1 H1. apply (closed_load_item item s s1 H1 Hs).
    + intros s1 _ H1 Hend1. apply (IH s1 Hend1 H1).
Qed.

Lemma closed_loadSceneJSON (text : ParseOutcome) (s s' : Peng3D) :
  loadSceneJSON text s = Normal s' \/ loadSceneJSON text s = Throw s' ->
  P s -> P s'.
Proof.
  intros Hend Hs. unfold loadSceneJSON, loadSceneJSON_try in Hend.
  destruct text as [|data].
  - destruct Hend as [H | H]; inversion H; subst.
    apply (closed_console_warn P HP), Hs.
  - pose proof (closed_deleteAllObjects P HP s Hs) as Hclear.
    destruct data as [|b|n|str|items|f];
      try (destruct Hend as [H | H]; inversion H; subst;
           apply (closed_console_warn P HP), Hclear).
    + destruct (String.eqb str "");
        destruct Hend as [H | H]; inversion H; subst.
      apply (closed_requestRender P HP), Hclear.
    + destruct (load_items items (deleteAllObjects s)) as [s1 | s1 |] eqn:Hitems;
        simpl in Hend; destruct Hend as [H | H]; inversion H; subst.
      * apply (closed_requestRender P HP).
        eapply closed_load_items; [left; exact Hitems | exact Hclear].
      * apply (closed_console_warn P HP).
        eapply closed_load_items; [right; exact Hitems | exact Hclear].
Qed.

Lemma closed_run_block (NAME : string) (b : NameBlock) (s s' : Peng3D) :
  run_block NAME b s = Normal s' \/ run_block NAME b s = Throw s' ->
  P s -> P s'.
Proof.
  intros Hend Hs.
  destruct b; simpl in Hend;
    try (destruct Hend as [H | H]; inversion H; subst; apply HP, Hs).
  eapply (closed_setPhysProp P HP); [exact Hend | exact Hs].
Qed.

Lemma closed_run (blk : Block) (s s' : Peng3D) :
  run blk s = Normal s' \/ run blk s = Throw s' ->
  P s -> P s'.
Proof.
  intros Hend Hs.
  destruct blk; simpl in Hend;
    try (destruct Hend as [H | H]; inversion H; subst; apply HP, Hs).
  - eapply closed_run_block; [exact Hend | exact Hs].
  - eapply closed_loadSceneJSON; [exact Hend | exact Hs].
Qed.

Lemma closed_reachable (s : Peng3D) :
  P Peng3D_init -> reachable s -> P s.
Proof.
  intros Hinit Hreach. induction Hreach as [|s s' blk _ IH Hend];
    [exact Hinit | eapply closed_run; [exact Hend | exact IH]].
Qed.

End Closure.

Lemma dispose_loop_euler (l : list string) (s : Peng3D) :
  _euler (foldl (fun acc name => _disposeObject (objects acc !! name) name acc) s l)
  = _euler s.
Proof.
  revert s. induction l as [|n l IH]; intros s; [reflexivity|].
  simpl. rewrite IH. unfold _disposeObject. branch; reflexivity.
Qed.

Lemma euler_order_closed :
  Closed (fun s => Three.order (_euler s) = Three.YXZ).
Proof.
  split; intros.
  - unfold createObject, _requestRender, _disposeObject. branch; simpl; assumption.
  - destruct e; simpl;
      unfold setPos, changePosition, moveObject, setRot, changeRotation,
        setRotYawPitch, lookAtObject, _requestRender, _updatePhysicsTransform,
        Euler_ofQuaternion;
      branch; simpl in *; congruence.
  - unfold setScale, _requestRender. branch; simpl; assumption.
  - unfold setColor, _requestRender. branch; simpl; assumption.
  - unfold setLightProp, _requestRender. branch; simpl; assumption.
  - unfold setCamera, _requestRender. branch; simpl; assumption.
  - unfold setFOV, _requestRender. branch; simpl; assumption.
  - unfold deleteObject, _requestRender, _disposeObject. branch; simpl; assumption.
  - unfold groupObjects, _requestRender. branch; simpl; assumption.
  - unfold ungroupObject, _requestRender. branch; simpl; assumption.
  - unfold enablePhysics. branch; simpl; assumption.
  - unfold pushObject. branch; simpl; assumption.
  - unfold setPhysProp in H. revert H. branch; intros [H | H];
      inversion H; subst; simpl; assumption.
  - unfold deleteAllObjects, _requestRender. branch;
      unfold set_renderPending, set_lastPhysTime, set_activeCamera;
      cbn [_euler]; rewrite dispose_loop_euler; assumption.
  - unfold setQualitySetting, _requestRender. branch; simpl; assumption.
  - exact H.
  - unfold stepPhysics, _requestRender. branch; simpl; assumption.
  - unfold getLookingAt. branch; simpl; assumption.
  - unfold getRotation, Euler_ofQuaternion. branch; simpl in *; congruence.
  - unfold getYawPitch, Euler_ofQuaternion. branch; simpl in *; congruence.
  - exact H.
  - unfold update_object. branch; simpl; assumption.
  - unfold update_object. branch; simpl; assumption.
  - unfold update_object. branch; simpl; assumption.
  - unfold _requestRender. branch; simpl; assumption.
  - exact H.
Qed.


(** *** Every body has its physics data *)


Ltac in_dom :=
  repeat match goal with
         | H : _ !! _ = Some _ |- _ => apply elem_of_dom_2 in H
         | H : _ !! _ = None |- _ => apply not_elem_of_dom_2 in H
         end;
  rewrite ?dom_insert_L, ?dom_delete_L, ?dom_fmap_L in *;
  set_solver.

Lemma phys_ok_dispose (o : option Three.Object3D) (name : string) (s : Peng3D) :
  phys_ok s -> phys_ok (_disposeObject o name s).
Proof.
  unfold phys_ok, _disposeObject. intros H. branch; in_dom.
Qed.

Lemma phys_ok_dispose_loop (l : list string) (s : Peng3D) :
  phys_ok s ->
  phys_ok (foldl (fun acc name => _disposeObject (objects acc !! name) name acc) s l).
Proof.
  revert s. induction l as [|n l IH]; intros s H; [exact H|].
  simpl. apply IH, phys_ok_dispose, H.
Qed.

Lemma phys_ok_closed : Closed phys_ok.
Proof.
  split; unfold phys_ok; intros.
  - unfold createObject.
    rewrite requestRender_physicsBodies, requestRender_objectPhysData. simpl.
    destruct (objects s !! N); [apply phys_ok_dispose|]; exact H.
  - destruct e; simpl;
      unfold setPos, changePosition, moveObject, setRot, changeRotation,
        setRotYawPitch, lookAtObject, _requestRender, _updatePhysicsTransform;
      branch; in_dom.
  - unfold setScale, _requestRender. branch; assumption.
  - unfold setColor, _requestRender. branch; assumption.
  - unfold setLightProp, _requestRender. branch; assumption.
  - unfold setCamera, _requestRender. branch; assumption.
  - unfold setFOV, _requestRender. branch; assumption.
  - unfold deleteObject.
    rewrite requestRender_physicsBodies, requestRender_objectPhysData.
    apply phys_ok_dispose, H.
  - unfold groupObjects, _requestRender. branch; in_dom.
  - unfold ungroupObject, _requestRender. branch; assumption.
  - unfold enablePhysics. branch; in_dom.
  - unfold pushObject. branch; in_dom.
  - unfold setPhysProp in H. revert H. branch; intros [H | H];
      inversion H; subst; simpl; in_dom.
  - unfold deleteAllObjects.
    rewrite requestRender_physicsBodies, requestRender_objectPhysData. simpl.
    apply phys_ok_dispose_loop, H.
  - unfold setQualitySetting, _requestRender. branch; assumption.
  - exact H.
  - unfold stepPhysics, _requestRender, world_step. branch; in_dom.
  - unfold getLookingAt. branch; assumption.
  - unfold getRotation. branch; assumption.
  - unfold getYawPitch. branch; assumption.
  - exact H.
  - unfold update_object. branch; assumption.
  - unfold update_object. branch; assumption.
  - unfold update_object. branch; assumption.
  - unfold _requestRender. branch; assumption.
  - exact H.
Qed.



(** X17.  The Euler temporary the rotation blocks share starts in the order
    XYZ; [setRotYawPitch] and [getYawPitch] on a registered object leave
    it in the order YXZ, no block sets it back, and from then on
    [getRotation] reports the angles of the YXZ decomposition. *)
Theorem euler_order_is_sticky (s : Peng3D) (NAME : string) (obj : Three.Object3D) :
  objects s !! NAME = Some obj ->
  Three.order (_euler Peng3D_init) = Three.XYZ
  /\ (forall YAW PITCH,
        Three.order (_euler (setRotYawPitch NAME YAW PITCH s)) = Three.YXZ)
  /\ Three.order (_euler (snd (getYawPitch NAME s))) = Three.YXZ
  /\ forall s1,
       Three.order (_euler s1) = Three.YXZ ->
       (forall blk s2,
          run blk s1 = Normal s2 \/ run blk s1 = Throw s2 ->
          Three.order (_euler s2) = Three.YXZ)
       /\ forall N o,
            objects s1 !! N = Some o ->
            fst (getRotation N s1)
            = (let e := Euler_ofQuaternion (Three.quaternion o) Three.YXZ in
               JSON_numbers [(Three.ex e * r2d)%float; (Three.ey e * r2d)%float;
                             (Three.ez e * r2d)%float]).
Proof.
  intros Hobj. split; [reflexivity|]. split; [|split].
  - intros YAW PITCH. unfold setRotYawPitch. rewrite Hobj.
    unfold _requestRender, _updatePhysicsTransform. branch; reflexivity.
  - unfold getYawPitch, Euler_ofQuaternion. rewrite Hobj. simpl.
    destruct (Euler_setFromQuaternion _ _) as [[x y] z]. reflexivity.
  - intros s1 Hs1. split.
    + intros blk s2 Hend.
      apply (closed_run _ euler_order_closed blk s1 s2 Hend Hs1).
    + intros N o Ho. unfold getRotation. rewrite Ho, Hs1. reflexivity.
Qed.

(** *** The world and the body registry *)

Lemma ids_ok_remove (M : gmap string positive) (W : gset positive)
      (B B' : gmap positive string) (next : positive) (N : string) (i : positive) :
  ids_ok M W B next ->
  M !! N = Some i ->
  (forall j, j <> i -> B' !! j = B !! j) ->
  ids_ok (delete N M) (W ∖ {[i]}) B' next.
Proof.
  intros [Hm Hw] HN HB. split.
  - intros n j Hn. apply lookup_delete_Some in Hn as [Hne Hn].
    destruct (Hm n j Hn) as [Hlt Hb]. split; [exact Hlt|].
    rewrite HB; [exact Hb|]. intros ->.
    destruct (Hm N i HN) as [_ Hb']. congruence.
  - intros j. rewrite elem_of_difference, Hw, elem_of_singleton. split.
    + intros [[n Hn] Hne]. exists n. apply lookup_delete_Some. split; [|exact Hn].
      intros ->. congruence.
    + intros [n Hn]. apply lookup_delete_Some in Hn as [Hne Hn].
      split; [eauto|]. intros ->.
      destruct (Hm n i Hn) as [_ Hb]. destruct (Hm N i HN) as [_ Hb']. congruence.
Qed.

Lemma ids_ok_add (M : gmap string positive) (W : gset positive)
      (B : gmap positive string) (next : positive) (N : string) :
  ids_ok M W B next ->
  M !! N = None ->
  ids_ok (<[N := next]> M) ({[next]} ∪ W) (<[next := N]> B) (Pos.succ next).
Proof.
  intros [Hm Hw] HN. split.
  - intros n j Hn. apply lookup_insert_Some in Hn as [[<- <-] | [Hne Hn]].
    + split; [lia | apply lookup_insert_eq].
    + destruct (Hm n j Hn) as [Hlt Hb]. split; [lia|].
      rewrite lookup_insert_ne by lia. exact Hb.
  - intros j. rewrite elem_of_union, elem_of_singleton, Hw. split.
    + intros [-> | [n Hn]].
      * exists N. apply lookup_insert_eq.
      * exists n. rewrite lookup_insert_ne; [exact Hn|]. congruence.
    + intros [n Hn]. apply lookup_insert_Some in Hn as [[<- <-] | [Hne Hn]]; eauto.
Qed.

Lemma bodies_ok_dispose (o : option Three.Object3D) (name : string) (s : Peng3D) :
  bodies_ok s -> bodies_ok (_disposeObject o name s).
Proof.
  unfold bodies_ok, _disposeObject. intros H. destruct o; [|exact H].
  destruct (physicsBodies s !! name) as [body|] eqn:Hb; simpl; [|exact H].
  rewrite fmap_delete.
  eapply ids_ok_remove; [exact H | rewrite lookup_fmap, Hb; reflexivity|].
  intros j Hj. apply lookup_delete_ne. congruence.
Qed.

Lemma bodies_ok_dispose_loop (l : list string) (s : Peng3D) :
  bodies_ok s ->
  bodies_ok (foldl (fun acc name => _disposeObject (objects acc !! name) name acc) s l).
Proof.
  revert s. induction l as [|n l IH]; intros s H; [exact H|].
  simpl. apply IH, bodies_ok_dispose, H.
Qed.

(** Writing a body with the same id under a name that has one. *)
Lemma same_ids_insert (bodies : gmap string Cannon.Body) (N : string)
      (b b' : Cannon.Body) :
  bodies !! N = Some b -> Cannon.id b' = Cannon.id b ->
  Cannon.id <$> <[N := b']> bodies = Cannon.id <$> bodies.
Proof.
  intros Hb Hid. rewrite fmap_insert. apply insert_id.
  rewrite lookup_fmap, Hb, Hid. reflexivity.
Qed.


Lemma bodies_ok_ext (s s' : Peng3D) :
  physicsBodies s' = physicsBodies s ->
  Cannon.bodies (world s') = Cannon.bodies (world s) ->
  bodyToName s' = bodyToName s ->
  nextBodyId s' = nextBodyId s ->
  bodies_ok s -> bodies_ok s'.
Proof. unfold bodies_ok. intros -> -> -> ->. auto. Qed.

Lemma bodies_ok_requestRender (s : Peng3D) :
  bodies_ok s -> bodies_ok (_requestRender s).
Proof.
  apply bodies_ok_ext; unfold _requestRender; destruct (renderPending s);
    reflexivity.
Qed.

(** Writing a body with the same id under a name that has one. *)
Lemma bodies_ok_same_id (s s' : Peng3D) (N : string) (b b' : Cannon.Body) :
  physicsBodies s !! N = Some b ->
  Cannon.id b' = Cannon.id b ->
  physicsBodies s' = <[N := b']> (physicsBodies s) ->
  Cannon.bodies (world s') = Cannon.bodies (world s) ->
  bodyToName s' = bodyToName s ->
  nextBodyId s' = nextBodyId s ->
  bodies_ok s -> bodies_ok s'.
Proof.
  unfold bodies_ok. intros Hb Hid -> -> -> ->.
  rewrite (same_ids_insert _ N b b' Hb Hid). auto.
Qed.

Lemma bodies_ok_updatePhysicsTransform (name : string) (s : Peng3D) :
  bodies_ok s -> bodies_ok (_updatePhysicsTransform name s).
Proof.
  intros H. unfold _updatePhysicsTransform.
  destruct (physicsBodies s !! name) as [body|] eqn:Hb; [|exact H].
  destruct (objects s !! name) as [obj|]; [|exact H].
  eapply (bodies_ok_same_id s); [exact Hb | | reflexivity.. | exact H].
  reflexivity.
Qed.

Lemma bodies_ok_edit (s s0 : Peng3D) (NAME : string) (obj' : Three.Object3D) :
  physicsBodies s0 = physicsBodies s ->
  world s0 = world s -> bodyToName s0 = bodyToName s ->
  nextBodyId s0 = nextBodyId s ->
  bodies_ok s ->
  bodies_ok
    (_requestRender
       (_updatePhysicsTransform NAME
          (set_objects (<[NAME := obj']> (objects s)) s0))).
Proof.
  intros Hb Hw Hn Hnext H.
  apply bodies_ok_requestRender, bodies_ok_updatePhysicsTransform.
  eapply (bodies_ok_ext s); [exact Hb | simpl; rewrite Hw; reflexivity
                            | exact Hn | exact Hnext | exact H].
Qed.

Lemma bodies_ok_closed : keeps_ids -> Closed bodies_ok.
Proof.
  intros [Hstep Himpulse]. split; intros.
  - unfold createObject. apply bodies_ok_requestRender.
    eapply bodies_ok_ext; [reflexivity.. |].
    destruct (objects s !! N); [apply bodies_ok_dispose|]; exact H.
  - destruct e; simpl;
      [ unfold setPos | unfold changePosition | unfold moveObject | unfold setRot
      | unfold changeRotation | unfold setRotYawPitch | unfold lookAtObject ];
      destruct (objects s !! N) as [obj|]; try exact H.
    1-6: apply bodies_ok_edit; [reflexivity.. | exact H].
    destruct (objects s !! TARGET); [|exact H].
    apply bodies_ok_edit; [reflexivity.. | exact H].
  - unfold setScale. destruct (objects s !! N); [|exact H].
    apply bodies_ok_requestRender.
    eapply bodies_ok_ext; [reflexivity.. | exact H].
  - unfold setColor. destruct (objects s !! N); [|exact H].
    apply bodies_ok_requestRender.
    eapply bodies_ok_ext; [reflexivity.. | exact H].
  - unfold setLightProp. destruct (objects s !! N) as [o|]; [|exact H].
    destruct (Three.node o); try exact H.
    apply bodies_ok_requestRender.
    eapply bodies_ok_ext; [reflexivity.. | exact H].
  - unfold setCamera. destruct (objects s !! N) as [o|]; [|exact H].
    destruct (Three.node o); try exact H.
    apply bodies_ok_requestRender.
    eapply bodies_ok_ext; [reflexivity.. | exact H].
  - unfold setFOV. destruct (objects s !! N) as [o|]; [|exact H].
    destruct (Three.node o); try exact H.
    apply bodies_ok_requestRender.
    eapply bodies_ok_ext; [reflexivity.. | exact H].
  - unfold deleteObject. apply bodies_ok_requestRender, bodies_ok_dispose, H.
  - unfold groupObjects. destruct (objects s !! C) as [child|]; [|exact H].
    destruct (objects s !! PARENT) as [parent|]; [|exact H].
    destruct (Pos.eqb _ _); [exact H|].
    apply bodies_ok_requestRender.
    destruct (physicsBodies s !! C) as [body|] eqn:Hb;
      [|eapply bodies_ok_ext; [reflexivity.. | exact H]].
    unfold bodies_ok in *. simpl. rewrite fmap_delete.
    eapply ids_ok_remove; [exact H | rewrite lookup_fmap, Hb; reflexivity|].
    reflexivity.
  - unfold ungroupObject. destruct (objects s !! N) as [o|]; [|exact H].
    destruct (Three.parent o); try exact H;
      destruct (Scene_attach (objects s) o) as [[p q] sc];
      apply bodies_ok_requestRender;
      (eapply bodies_ok_ext; [reflexivity.. | exact H]).
  - unfold enablePhysics. destruct (objects s !! N) as [o|]; [|exact H].
    destruct (negb (Three.isMesh o)); [exact H|].
    unfold bodies_ok in *.
    destruct (physicsBodies s !! N) as [old|] eqn:Hb; simpl.
    + rewrite fmap_insert, <- insert_delete_eq.
      replace ({[nextBodyId s]} ∪ Cannon.bodies (world s) ∖ {[Cannon.id old]})
        with ({[nextBodyId s]} ∪ (Cannon.bodies (world s) ∖ {[Cannon.id old]}))
        by reflexivity.
      apply ids_ok_add; [|apply lookup_delete_eq].
      eapply ids_ok_remove; [exact H | rewrite lookup_fmap, Hb; reflexivity|].
      intros j Hj. apply lookup_delete_ne. congruence.
    + rewrite fmap_insert. apply ids_ok_add; [exact H|].
      rewrite lookup_fmap, Hb. reflexivity.
  - unfold pushObject. destruct (physicsBodies s !! N) as [body|] eqn:Hb; [|exact H].
    eapply (bodies_ok_same_id s); [exact Hb | | reflexivity.. | exact H].
    rewrite Himpulse. reflexivity.
  - unfold setPhysProp in H. 
    destruct (physicsBodies s !! N) as [body|] eqn:Hb;
      [|destruct H as [H | H]; inversion H; subst; exact H0].
    destruct (String.eqb PROP "fixed").
    + destruct (objectPhysData s !! N) as [pd|];
        destruct H as [H | H]; inversion H; subst; try exact H0.
      eapply (bodies_ok_same_id s); [exact Hb | | reflexivity.. | exact H0].
      reflexivity.
    + destruct (objectPhysData s !! N) as [pd|].
      * destruct (Cannon.material body) eqn:Hmat;
          destruct (Cannon.World_getContactMaterial _ _ _);
          destruct H as [H | H]; inversion H; subst;
          (eapply (bodies_ok_same_id s); [exact Hb | | reflexivity.. | exact H0]);
          reflexivity.
      * destruct (String.eqb PROP "friction" || String.eqb PROP "bounciness");
          [destruct H as [H | H]; inversion H; subst; exact H0|].
        destruct (Cannon.material body);
          destruct H as [H | H]; inversion H; subst; try exact H0.
        eapply (bodies_ok_same_id s); [exact Hb | | reflexivity.. | exact H0].
        reflexivity.
  - unfold deleteAllObjects. apply bodies_ok_requestRender.
    eapply bodies_ok_ext; [reflexivity.. |].
    apply bodies_ok_dispose_loop, H.
  - unfold setQualitySetting.
    destruct (String.eqb SETTING "shadows");
      [|destruct (String.eqb SETTING "renderDistance")];
      apply bodies_ok_requestRender; try exact H;
      (eapply bodies_ok_ext; [reflexivity.. | exact H]).
  - eapply bodies_ok_ext; [reflexivity.. | exact H].
  - unfold stepPhysics. destruct (PrimFloat.eqb _ _);
      [eapply bodies_ok_ext; [reflexivity.. | exact H]|].
    apply bodies_ok_requestRender. unfold bodies_ok in *. simpl.
    rewrite <- map_fmap_compose.
    erewrite map_fmap_ext; [exact H|].
    intros n b _. simpl. destruct (in_world _ b); [apply Hstep | reflexivity].
  - unfold getLookingAt. destruct (objects s !! N); [|exact H].
    eapply bodies_ok_ext; [reflexivity.. | exact H].
  - unfold getRotation. destruct (objects s !! N); [|exact H].
    eapply bodies_ok_ext; [reflexivity.. | exact H].
  - unfold getYawPitch. destruct (objects s !! N); [|exact H].
    eapply bodies_ok_ext; [reflexivity.. | exact H].
  - eapply bodies_ok_ext; [reflexivity.. | exact H].
  - unfold update_object. destruct (objects s !! N); [|exact H].
    eapply bodies_ok_ext; [reflexivity.. | exact H].
  - unfold update_object. destruct (objects s !! N); [|exact H].
    eapply bodies_ok_ext; [reflexivity.. | exact H].
  - unfold update_object. destruct (objects s !! N); [|exact H].
    eapply bodies_ok_ext; [reflexivity.. | exact H].
  - apply bodies_ok_requestRender, H.
  - eapply bodies_ok_ext; [reflexivity.. | exact H].
Qed.

(** *** The objects of the scene *)

Lemma same_class_class_of (a a' b : Three.Node) :
  class_of a = class_of a' -> same_class a b = same_class a' b.
Proof. destruct a, a'; try discriminate; reflexivity. Qed.

Lemma ident_lookup (objs objs' : gmap string Three.Object3D) (k : string)
      (o' : Three.Object3D) :
  ident <$> objs' = ident <$> objs ->
  objs' !! k = Some o' ->
  exists o, objs !! k = Some o /\ ident o = ident o'.
Proof.
  intros Hmap Ho'.
  assert ((ident <$> objs) !! k = Some (ident o')) as H
    by (rewrite <- Hmap, lookup_fmap, Ho'; reflexivity).
  apply lookup_fmap_Some in H as (o & Hid & Ho). eauto.
Qed.

(** The invariant looks at an object only through [ident]. *)
Lemma objects_ok_same_ident (s s' : Peng3D) :
  ident <$> objects s' = ident <$> objects s ->
  nextObject3DId s' = nextObject3DId s ->
  config_renderDistance s' = config_renderDistance s ->
  config_shadows s' = config_shadows s ->
  objects_ok s -> objects_ok s'.
Proof.
  intros Hmap Hnext Hrd Hsh (Hobj & Huniq & Hshadows).
  unfold objects_ok. rewrite Hnext, Hrd, Hsh. split; [|split; [|exact Hshadows]].
  - intros k o' Ho'.
    destruct (ident_lookup _ _ k o' Hmap Ho') as (o & Ho & Hid).
    destruct (Hobj k o Ho) as (Hlt & Hord & Hcls & Hfar).
    injection Hid as Hi Ht Hr Hc.
    rewrite <- Hi, <- Hr, <- Ht. split; [exact Hlt|]. split; [exact Hord|].
    split.
    + rewrite <- (same_class_class_of _ _ _ Hc),
        (same_class_new_node _ s' s). exact Hcls.
    + intros fov aspect near far Hnode. rewrite Hnode in Hc.
      destruct (Three.node o) as [| |fov0 a0 n0 f0] eqn:Hn; try discriminate.
      injection Hc as ->. eapply Hfar. reflexivity.
  - intros k1 k2 o1' o2' H1 H2 Hids.
    destruct (ident_lookup _ _ k1 o1' Hmap H1) as (o1 & Ho1 & Hid1).
    destruct (ident_lookup _ _ k2 o2' Hmap H2) as (o2 & Ho2 & Hid2).
    injection Hid1 as Hi1 _ _ _. injection Hid2 as Hi2 _ _ _.
    apply (Huniq k1 k2 o1 o2 Ho1 Ho2). congruence.
Qed.

Lemma same_ident_insert (objs : gmap string Three.Object3D) (N : string)
      (o o' : Three.Object3D) :
  objs !! N = Some o -> ident o' = ident o ->
  ident <$> <[N := o']> objs = ident <$> objs.
Proof.
  intros Ho Hid. rewrite fmap_insert. apply insert_id.
  rewrite lookup_fmap, Ho, Hid. reflexivity.
Qed.

Lemma objects_ok_requestRender (s : Peng3D) :
  objects_ok s -> objects_ok (_requestRender s).
Proof.
  apply objects_ok_same_ident; unfold _requestRender;
    destruct (renderPending s); reflexivity.
Qed.

Lemma ident_setQuaternion (q : Three.Quaternion) (o : Three.Object3D) :
  ident (Object3D_setQuaternion q o) = ident o.
Proof.
  unfold Object3D_setQuaternion, Euler_ofQuaternion, ident.
  destruct (Euler_setFromQuaternion _ _) as [[x y] z]. reflexivity.
Qed.

Lemma ident_ungrouped (p : Three.Vector3) (q : Three.Quaternion)
      (sc : Three.Vector3) (o : Three.Object3D) :
  ident (Three.with_parent Three.SceneRoot
           (Three.with_scale sc
              (Object3D_setQuaternion q (Three.with_position p o))))
  = ident o.
Proof.
  transitivity (ident (Object3D_setQuaternion q (Three.with_position p o)));
    [reflexivity|].
  rewrite ident_setQuaternion. reflexivity.
Qed.

(** Rewriting the object under a name, [ident] kept. *)
Lemma objects_ok_same_ident_at (s s' : Peng3D) (N : string)
      (o o' : Three.Object3D) :
  objects s !! N = Some o ->
  ident o' = ident o ->
  objects s' = <[N := o']> (objects s) ->
  nextObject3DId s' = nextObject3DId s ->
  config_renderDistance s' = config_renderDistance s ->
  config_shadows s' = config_shadows s ->
  objects_ok s -> objects_ok s'.
Proof.
  intros Ho Hid Hobjs. apply objects_ok_same_ident.
  rewrite Hobjs. apply (same_ident_insert _ N o o' Ho Hid).
Qed.

Lemma objects_ok_same_objects (s s' : Peng3D) :
  objects s' = objects s ->
  nextObject3DId s' = nextObject3DId s ->
  config_renderDistance s' = config_renderDistance s ->
  config_shadows s' = config_shadows s ->
  objects_ok s -> objects_ok s'.
Proof. intros Ho. apply objects_ok_same_ident. rewrite Ho. reflexivity. Qed.

Lemma objects_ok_updatePhysicsTransform (name : string) (s : Peng3D) :
  objects_ok s -> objects_ok (_updatePhysicsTransform name s).
Proof.
  apply objects_ok_same_objects; unfold _updatePhysicsTransform;
    destruct (physicsBodies s !! name); try reflexivity;
    destruct (objects s !! name); reflexivity.
Qed.

Lemma objects_ok_edit (s s0 : Peng3D) (NAME : string)
      (obj obj' : Three.Object3D) :
  objects s !! NAME = Some obj ->
  ident obj' = ident obj ->
  nextObject3DId s0 = nextObject3DId s ->
  config_renderDistance s0 = config_renderDistance s ->
  config_shadows s0 = config_shadows s ->
  objects_ok s ->
  objects_ok
    (_requestRender
       (_updatePhysicsTransform NAME
          (set_objects (<[NAME := obj']> (objects s)) s0))).
Proof.
  intros Ho Hid Hn Hrd Hsh H.
  apply objects_ok_requestRender, objects_ok_updatePhysicsTransform.
  eapply (objects_ok_same_ident_at s); [exact Ho | exact Hid | reflexivity
                                       | exact Hn | exact Hrd | exact Hsh | exact H].
Qed.

Lemma objects_ok_delete (s s' : Peng3D) (N : string) :
  objects s' = delete N (objects s) ->
  nextObject3DId s' = nextObject3DId s ->
  config_renderDistance s' = config_renderDistance s ->
  config_shadows s' = config_shadows s ->
  objects_ok s -> objects_ok s'.
Proof.
  intros Ho Hnext Hrd Hsh (Hobj & Huniq & Hshadows).
  unfold objects_ok. rewrite Ho, Hnext, Hrd, Hsh.
  split; [|split; [|exact Hshadows]].
  - intros k o Hk. apply lookup_delete_Some in Hk as [_ Hk].
    destruct (Hobj k o Hk) as (H1 & H2 & H3 & H4).
    rewrite (same_class_new_node _ s' s). auto.
  - intros k1 k2 o1 o2 H1 H2.
    apply lookup_delete_Some in H1 as [_ H1].
    apply lookup_delete_Some in H2 as [_ H2]. eauto.
Qed.

Lemma objects_ok_dispose (o : option Three.Object3D) (name : string) (s : Peng3D) :
  objects_ok s -> objects_ok (_disposeObject o name s).
Proof.
  intros H. destruct o as [o|]; [|exact H].
  eapply (objects_ok_delete s _ name); [apply disposeObject_objects | | | | exact H];
    unfold _disposeObject; destruct (physicsBodies s !! name); reflexivity.
Qed.

Lemma objects_ok_dispose_loop (l : list string) (s : Peng3D) :
  objects_ok s ->
  objects_ok (foldl (fun acc name => _disposeObject (objects acc !! name) name acc) s l).
Proof.
  revert s. induction l as [|n l IH]; intros s H; [exact H|].
  simpl. apply IH, objects_ok_dispose, H.
Qed.


Lemma same_class_created (s s' : Peng3D) (T : option string) :
  same_class (new_node s T) (new_node s' T) = true.
Proof.
  unfold new_node. destruct T as [t|]; [|reflexivity].
  destruct (_sharedGeometries t); [reflexivity|].
  destruct (String.eqb t "Light"); [reflexivity|].
  destruct (String.eqb t "Camera"); reflexivity.
Qed.

Lemma objects_ok_createObject (T : option string) (N : string) (s : Peng3D) :
  objects_ok s -> objects_ok (createObject T N s).
Proof.
  intros H. unfold createObject. apply objects_ok_requestRender.
  set (s1 := match objects s !! N with
             | Some old => _disposeObject (Some old) N s
             | None => s
             end).
  assert (objects_ok s1) as (Hobj & Huniq & Hshadows)
    by (unfold s1; destruct (objects s !! N); [apply objects_ok_dispose|]; exact H).
  clearbody s1. unfold objects_ok. simpl. split; [|split; [|exact Hshadows]].
  - intros k o Hk. apply lookup_insert_Some in Hk as [[<- <-] | [Hne Hk]]; simpl.
    + split; [lia|]. split; [reflexivity|]. split; [apply same_class_created|].
      intros fov aspect near far Hnode. unfold new_node in Hnode.
      destruct T as [t|]; [|discriminate].
      destruct (_sharedGeometries t); [discriminate|].
      destruct (String.eqb t "Light"); [discriminate|].
      destruct (String.eqb t "Camera"); [|discriminate].
      injection Hnode as _ _ _ <-. reflexivity.
    + destruct (Hobj k o Hk) as (H1 & H2 & H3 & H4).
      split; [lia|]. split; [exact H2|]. split; [|exact H4].
      rewrite (same_class_new_node _ _ s1). exact H3.
  - intros k1 k2 o1 o2 H1 H2 Hids.
    apply lookup_insert_Some in H1 as [[<- <-] | [Hne1 H1]];
      apply lookup_insert_Some in H2 as [[<- <-] | [Hne2 H2]]; simpl in Hids.
    + reflexivity.
    + destruct (Hobj k2 o2 H2) as (Hlt & _). lia.
    + destruct (Hobj k1 o1 H1) as (Hlt & _). lia.
    + eauto.
Qed.

Lemma copy_loop_ident (l : list (string * Cannon.Body))
      (objs : gmap string Three.Object3D) :
  ident <$> foldl copy_body_to_object objs l = ident <$> objs.
Proof.
  revert objs. induction l as [|[n b] l IH]; intros objs; [reflexivity|].
  simpl. rewrite IH. unfold copy_body_to_object. simpl.
  destruct (objs !! n) as [m|] eqn:Hm; [|reflexivity].
  apply (same_ident_insert _ n m); [exact Hm|].
  unfold body_onto_object. rewrite ident_setQuaternion. reflexivity.
Qed.

Lemma objects_ok_setQualitySetting (SETTING : string) (VALUE : float)
      (s : Peng3D) :
  objects_ok s -> objects_ok (setQualitySetting SETTING VALUE s).
Proof.
  intros H. unfold setQualitySetting.
  destruct (String.eqb SETTING "shadows");
    [|destruct (String.eqb SETTING "renderDistance")];
    apply objects_ok_requestRender; [| |exact H].
  - eapply (objects_ok_same_ident (set_config_shadows _ s));
      [|reflexivity..|].
    + simpl. rewrite <- map_fmap_compose. apply map_fmap_ext.
      intros k o _. simpl. destruct (Three.isMesh o && _); reflexivity.
    + destruct H as (Hobj & Huniq & _). split; [exact Hobj|].
      split; [exact Huniq|]. simpl.
      destruct (PrimFloat.leb 1 VALUE); [right | left]; reflexivity.
  - destruct H as (Hobj & Huniq & Hshadows). unfold objects_ok.
    cbn -[new_node same_class]. split; [|split; [|exact Hshadows]].
    + intros k o' Hk. apply lookup_fmap_Some in Hk as (o & <- & Ho).
      destruct (Hobj k o Ho) as (H1 & H2 & H3 & H4).
      destruct (Three.node o) eqn:Hn; cbn -[new_node same_class]; rewrite ?Hn;
        (split; [exact H1|]); (split; [exact H2|]);
        (split; [rewrite (same_class_new_node _ _ s); exact H3|]);
        intros fov' aspect' near' far' Hnode; try discriminate.
      injection Hnode as _ _ _ <-. reflexivity.
    + intros k1 k2 o1' o2' H1 H2 Hids.
      apply lookup_fmap_Some in H1 as (o1 & <- & Ho1).
      apply lookup_fmap_Some in H2 as (o2 & <- & Ho2).
      apply (Huniq k1 k2 o1 o2 Ho1 Ho2).
      destruct (Three.node o1), (Three.node o2); exact Hids.
Qed.

Lemma objects_ok_closed : Closed objects_ok.
Proof.
  split; intros.
  - apply objects_ok_createObject, H.
  - destruct e; simpl;
      [ unfold setPos | unfold changePosition | unfold moveObject | unfold setRot
      | unfold changeRotation | unfold setRotYawPitch | unfold lookAtObject ];
      destruct (objects s !! N) as [obj|] eqn:Hobj; try exact H.
    1-6: eapply objects_ok_edit;
      [exact Hobj | rewrite ?ident_setQuaternion; reflexivity
      | reflexivity.. | exact H].
    destruct (objects s !! TARGET); [|exact H].
    eapply objects_ok_edit;
      [exact Hobj | rewrite !ident_setQuaternion; reflexivity
      | reflexivity.. | exact H].
  - unfold setScale. destruct (objects s !! N) as [o|] eqn:Ho; [|exact H].
    apply objects_ok_requestRender.
    eapply (objects_ok_same_ident_at s);
      [exact Ho | | reflexivity.. | exact H]. reflexivity.
  - unfold setColor. destruct (objects s !! N) as [o|] eqn:Ho; [|exact H].
    apply objects_ok_requestRender.
    eapply (objects_ok_same_ident_at s);
      [exact Ho | | reflexivity.. | exact H].
    unfold ident. destruct (Three.node o) eqn:Hn; simpl; rewrite ?Hn; reflexivity.
  - unfold setLightProp. destruct (objects s !! N) as [o|] eqn:Ho; [|exact H].
    destruct (Three.node o) eqn:Hn; try exact H.
    apply objects_ok_requestRender.
    eapply (objects_ok_same_ident_at s);
      [exact Ho | | reflexivity.. | exact H].
    unfold ident. simpl. rewrite Hn. reflexivity.
  - unfold setCamera. destruct (objects s !! N) as [o|] eqn:Ho; [|exact H].
    destruct (Three.node o) eqn:Hn; try exact H.
    apply objects_ok_requestRender.
    eapply (objects_ok_same_ident_at s);
      [exact Ho | | reflexivity.. | exact H].
    unfold ident. simpl. rewrite Hn. reflexivity.
  - unfold setFOV. destruct (objects s !! N) as [o|] eqn:Ho; [|exact H].
    destruct (Three.node o) eqn:Hn; try exact H.
    apply objects_ok_requestRender.
    eapply (objects_ok_same_ident_at s);
      [exact Ho | | reflexivity.. | exact H].
    unfold ident. simpl. rewrite Hn. reflexivity.
  - unfold deleteObject. apply objects_ok_requestRender, objects_ok_dispose, H.
  - unfold groupObjects. destruct (objects s !! C) as [child|] eqn:Hc; [|exact H].
    destruct (objects s !! PARENT) as [parent|]; [|exact H].
    destruct (Pos.eqb _ _); [exact H|].
    apply objects_ok_requestRender.
    destruct (physicsBodies s !! C);
      (eapply (objects_ok_same_ident_at s);
       [exact Hc | | reflexivity.. | exact H]); reflexivity.
  - unfold ungroupObject. destruct (objects s !! N) as [o|] eqn:Ho; [|exact H].
    destruct (Three.parent o); try exact H;
      destruct (Scene_attach (objects s) o) as [[p q] sc];
      apply objects_ok_requestRender;
      (eapply (objects_ok_same_ident_at s);
       [exact Ho | | reflexivity.. | exact H]);
      apply ident_ungrouped.
  - unfold enablePhysics. destruct (objects s !! N) as [o|]; [|exact H].
    destruct (negb (Three.isMesh o)); [exact H|].
    eapply objects_ok_same_objects; [| | | | exact H];
      destruct (physicsBodies s !! N); reflexivity.
  - unfold pushObject. destruct (physicsBodies s !! N); [|exact H].
    eapply objects_ok_same_objects; [reflexivity.. | exact H].
  - eapply objects_ok_same_objects; [| | | | exact H0];
      [apply (setPhysProp_objects N PROP VAL s s' H) | | |];
      unfold setPhysProp in H;
      destruct (physicsBodies s !! N) as [body|];
      try (destruct H as [H | H]; inversion H; subst; reflexivity);
      destruct (String.eqb PROP "fixed");
      destruct (objectPhysData s !! N);
      try (destruct H as [H | H]; inversion H; subst; reflexivity);
      try (destruct (Cannon.material body);
           destruct (Cannon.World_getContactMaterial _ _ _);
           destruct H as [H | H]; inversion H; subst; reflexivity);
      destruct (String.eqb PROP "friction" || String.eqb PROP "bounciness");
      try (destruct H as [H | H]; inversion H; subst; reflexivity);
      destruct (Cannon.material body);
      destruct H as [H | H]; inversion H; subst; reflexivity.
  - unfold deleteAllObjects. apply objects_ok_requestRender.
    eapply objects_ok_same_objects; [reflexivity.. |].
    apply objects_ok_dispose_loop, H.
  - apply objects_ok_setQualitySetting, H.
  - eapply objects_ok_same_objects; [reflexivity.. | exact H].
  - unfold stepPhysics. destruct (PrimFloat.eqb _ _);
      [eapply objects_ok_same_objects; [reflexivity.. | exact H]|].
    apply objects_ok_requestRender.
    eapply objects_ok_same_ident; [| | | | exact H]; try reflexivity.
    simpl. apply copy_loop_ident.
  - unfold getLookingAt. destruct (objects s !! N); [|exact H].
    eapply objects_ok_same_objects; [reflexivity.. | exact H].
  - unfold getRotation. destruct (objects s !! N); [|exact H].
    eapply objects_ok_same_objects; [reflexivity.. | exact H].
  - unfold getYawPitch. destruct (objects s !! N); [|exact H].
    eapply objects_ok_same_objects; [reflexivity.. | exact H].
  - eapply objects_ok_same_objects; [reflexivity.. | exact H].
  - unfold update_object. destruct (objects s !! N) as [o|] eqn:Ho; [|exact H].
    eapply (objects_ok_same_ident_at s);
      [exact Ho | | reflexivity.. | exact H]. reflexivity.
  - unfold update_object. destruct (objects s !! N) as [o|] eqn:Ho; [|exact H].
    eapply (objects_ok_same_ident_at s);
      [exact Ho | | reflexivity.. | exact H]. reflexivity.
  - unfold update_object. destruct (objects s !! N) as [o|] eqn:Ho; [|exact H].
    eapply (objects_ok_same_ident_at s);
      [exact Ho | | reflexivity.. | exact H]. reflexivity.
  - apply objects_ok_requestRender, H.
  - eapply objects_ok_same_objects; [reflexivity.. | exact H].
Qed.

Lemma bodies_ok_init : bodies_ok Peng3D_init.
Proof.
  split.
  - intros n i H. simpl in H. rewrite fmap_empty, lookup_empty in H. discriminate.
  - intros i. simpl. split; [set_solver|].
    intros [n H]. rewrite fmap_empty, lookup_empty in H. discriminate.
Qed.

Lemma bodies_ok_spec (s : Peng3D) :
  bodies_ok s ->
  (forall i,
     i ∈ Cannon.bodies (world s)
     <-> exists n b, physicsBodies s !! n = Some b /\ Cannon.id b = i)
  /\ (forall n b,
        physicsBodies s !! n = Some b -> bodyToName s !! Cannon.id b = Some n)
  /\ (forall n1 n2 b1 b2,
        physicsBodies s !! n1 = Some b1 -> physicsBodies s !! n2 = Some b2 ->
        Cannon.id b1 = Cannon.id b2 -> n1 = n2).
Proof.
  intros [Hm Hw].
  assert (forall n b,
            physicsBodies s !! n = Some b -> bodyToName s !! Cannon.id b = Some n)
    as Hname.
  { intros n b Hb. apply (Hm n (Cannon.id b)). rewrite lookup_fmap, Hb. reflexivity. }
  split; [|split; [exact Hname|]].
  - intros i. rewrite Hw. split.
    + intros [n Hn]. apply lookup_fmap_Some in Hn as (b & Hid & Hb). eauto.
    + intros (n & b & Hb & Hid). exists n. rewrite lookup_fmap, Hb, <- Hid.
      reflexivity.
  - intros n1 n2 b1 b2 H1 H2 Hids.
    pose proof (Hname n1 b1 H1) as Hn1. pose proof (Hname n2 b2 H2) as Hn2.
    rewrite Hids in Hn1. congruence.
Qed.

(** X18.  With an engine that hands bodies back under their ids, in every
    state a script can reach the physics world holds exactly the bodies of
    the registry, so every registered body is stepped; [bodyToName] has the
    name of every registered body under its id, and no two names share a
    body id. *)
Theorem world_agrees_with_registry (s : Peng3D) :
  keeps_ids ->
  reachable s ->
  (forall i,
     i ∈ Cannon.bodies (world s)
     <-> exists n b, physicsBodies s !! n = Some b /\ Cannon.id b = i)
  /\ (forall n b, physicsBodies s !! n = Some b -> in_world (world s) b = true)
  /\ (forall n b,
        physicsBodies s !! n = Some b -> bodyToName s !! Cannon.id b = Some n)
  /\ (forall n1 n2 b1 b2,
        physicsBodies s !! n1 = Some b1 -> physicsBodies s !! n2 = Some b2 ->
        Cannon.id b1 = Cannon.id b2 -> n1 = n2).
Proof.
  intros Hids Hreach.
  pose proof (closed_reachable bodies_ok (bodies_ok_closed Hids) s
                bodies_ok_init Hreach) as Hok.
  destruct (bodies_ok_spec s Hok) as (Hw & Hname & Huniq).
  split; [exact Hw|]. split; [|split; [exact Hname | exact Huniq]].
  intros n b Hb. unfold in_world. apply bool_decide_eq_true_2, Hw. eauto.
Qed.

Lemma reachable_registries (s : Peng3D) : reachable s -> registries_ok s.
Proof.
  intros Hreach. induction Hreach as [|s s' blk _ IH Hend].
  - split; [intros key o H | intros n [b H]];
      simpl in H; rewrite lookup_empty in H; discriminate.
  - eapply registries_ok_run; [exact Hend | exact IH].
Qed.

Lemma dispose_loop_gravity (l : list string) (s : Peng3D) :
  Cannon.gravity
    (world (foldl (fun acc name => _disposeObject (objects acc !! name) name acc)
                  s l))
  = Cannon.gravity (world s).
Proof.
  revert s. induction l as [|n l IH]; intros s; [reflexivity|].
  simpl. rewrite IH. unfold _disposeObject.
  destruct (objects s !! n); [|reflexivity].
  destruct (physicsBodies s !! n); reflexivity.
Qed.

(** X19.  [deleteAllObjects] in a reachable state leaves the object registry,
    the body registry and the physics world empty, forgets the active
    camera and rewinds the physics clock to its initial value; gravity
    stays as it was set. *)
Theorem deleteAllObjects_clears (s : Peng3D) :
  keeps_ids ->
  reachable s ->
  let s' := deleteAllObjects s in
  objects s' = ∅
  /\ physicsBodies s' = ∅
  /\ Cannon.bodies (world s') = ∅
  /\ activeCamera s' = None
  /\ _lastPhysTime s' = 0%float
  /\ Cannon.gravity (world s') = Cannon.gravity (world s).
Proof.
  intros Hids Hreach. cbv zeta.
  assert (reachable (deleteAllObjects s)) as Hreach'
    by (apply (reachable_run s _ DeleteAllObjects Hreach); left; reflexivity).
  pose proof (closed_reachable bodies_ok (bodies_ok_closed Hids) _
                bodies_ok_init Hreach') as Hok.
  destruct (bodies_ok_spec _ Hok) as (Hw & _).
  assert (physicsBodies (deleteAllObjects s) = ∅) as Hbodies.
  { apply deleteAllObjects_physicsBodies.
    apply (registries_ok_bool s), reachable_registries, Hreach. }
  split; [apply deleteAllObjects_objects|]. split; [exact Hbodies|].
  split.
  { apply set_eq. intros i. rewrite Hw, Hbodies. split; [|set_solver].
    intros (n & b & Hb & _). rewrite lookup_empty in Hb. discriminate. }
  split; [|split; [apply deleteAllObjects_lastPhysTime|]].
  - unfold deleteAllObjects, _requestRender.
    destruct (renderPending _); reflexivity.
  - unfold deleteAllObjects. rewrite requestRender_world. simpl.
    apply dispose_loop_gravity.
Qed.


Lemma objects_ok_init : objects_ok Peng3D_init.
Proof.
  split; [|split; [|right; reflexivity]].
  - intros k o H. simpl in H. rewrite lookup_empty in H. discriminate.
  - intros k1 k2 o1 o2 H. simpl in H. rewrite lookup_empty in H. discriminate.
Qed.

(** X20.  In every state a script can reach, two names never share a
    three.js object and every id is below the id counter; so the test
    [item !== obj] of [getLookingAt] leaves out the source and nothing else:
    its targets are the meshes registered under the other names. *)
Theorem scene_objects_are_distinct (s : Peng3D) :
  reachable s ->
  (forall k1 k2 o1 o2,
     objects s !! k1 = Some o1 -> objects s !! k2 = Some o2 ->
     (Three.id o1 = Three.id o2 <-> k1 = k2))
  /\ (forall k o,
        objects s !! k = Some o -> (Three.id o < nextObject3DId s)%positive)
  /\ forall NAME obj,
       objects s !! NAME = Some obj ->
       forall item,
         item ∈ lookingAt_targets s obj
         <-> exists key,
               key <> NAME /\ objects s !! key = Some item
               /\ Three.isMesh item = true.
Proof.
  intros Hreach.
  destruct (closed_reachable objects_ok objects_ok_closed s objects_ok_init Hreach)
    as (Hobj & Huniq & _).
  assert (forall k1 k2 o1 o2,
            objects s !! k1 = Some o1 -> objects s !! k2 = Some o2 ->
            (Three.id o1 = Three.id o2 <-> k1 = k2)) as Hiff.
  { intros k1 k2 o1 o2 H1 H2. split; [apply (Huniq k1 k2 o1 o2 H1 H2)|].
    intros ->. congruence. }
  split; [exact Hiff|]. split; [intros k o Ho; apply (Hobj k o Ho)|].
  intros NAME obj Hobj' item. rewrite lookingAt_targets_spec. split.
  - intros [[key Hkey] [Hid Hmesh]]. exists key.
    split; [|split; assumption].
    intros ->. apply Hid. congruence.
  - intros (key & Hne & Hkey & Hmesh). split; [eauto|]. split; [|exact Hmesh].
    intros Hid. apply Hne. apply (Hiff key NAME item obj Hkey Hobj'), Hid.
Qed.

(** X21.  In every state a script can reach, the shadows setting is 0 or 1,
    the far plane of every camera is the configured render distance (the
    far bound of the [getLookingAt] ray), every object keeps its Euler
    angles in the order XYZ, and its node is of the class its recorded type
    asks for. *)
Theorem quality_settings_hold (s : Peng3D) :
  reachable s ->
  (config_shadows s = 0%Z \/ config_shadows s = 1%Z)
  /\ forall key o,
       objects s !! key = Some o ->
       (forall fov aspect near f,
          Three.node o = Three.PerspectiveCamera fov aspect near f ->
          f = config_renderDistance s
          /\ f = far (lookingAt_ray s o))
       /\ Three.order (Three.rotation o) = Three.XYZ
       /\ same_class (Three.node o) (new_node s (Three.userData_type o)) = true.
Proof.
  intros Hreach.
  destruct (closed_reachable objects_ok objects_ok_closed s objects_ok_init Hreach)
    as (Hobj & _ & Hshadows).
  split; [exact Hshadows|]. intros key o Ho.
  destruct (Hobj key o Ho) as (_ & Hord & Hcls & Hfar).
  split; [|split; assumption].
  intros fov aspect near f Hnode.
  split; [|simpl]; eapply Hfar, Hnode.
Qed.

Lemma ltb_leb (a b : float) :
  PrimFloat.ltb a b = true -> PrimFloat.leb a b = true.
Proof.
  rewrite ltb_spec, leb_spec. unfold SFltb, SFleb.
  destruct (SFcompare _ _) as [[| |]|]; congruence.
Qed.

(** X22.  [setQualitySetting]: ['shadows'] stores 1 for a value of at least
    1 and 0 otherwise, sets both shadow flags of every mesh attached to
    the scene root accordingly and leaves lights and cameras as they are;
    ['renderDistance'] stores the value but never less than 1, and gives
    it to every camera as its far plane; any other setting changes
    nothing. *)
Theorem quality_settings_apply (s : Peng3D) (VALUE : float) :
  (let s' := setQualitySetting "shadows" VALUE s in
   let on := PrimFloat.leb 1 VALUE in
   config_shadows s' = (if on then 1 else 0)%Z
   /\ (forall key o,
         objects s !! key = Some o ->
         Three.isMesh o = true -> Three.parent o = Three.SceneRoot ->
         objects s' !! key = Some (Three.with_shadows on on o))
   /\ (forall key o,
         objects s !! key = Some o -> Three.isMesh o = false ->
         objects s' !! key = Some o))
  /\ (let s' := setQualitySetting "renderDistance" VALUE s in
      config_renderDistance s' = Math_max 1 VALUE
      /\ (PrimFloat.is_nan VALUE = false ->
          PrimFloat.leb 1 (config_renderDistance s') = true)
      /\ (forall key o fov aspect near far,
            objects s !! key = Some o ->
            Three.node o = Three.PerspectiveCamera fov aspect near far ->
            Three.node <$> objects s' !! key
            = Some (Three.PerspectiveCamera fov aspect near (Math_max 1 VALUE)))
      /\ (forall key o,
            objects s !! key = Some o -> Three.isCamera o = false ->
            objects s' !! key = Some o))
  /\ forall SETTING,
       String.eqb SETTING "shadows" = false ->
       String.eqb SETTING "renderDistance" = false ->
       scene_unchanged s (setQualitySetting SETTING VALUE s).
Proof.
  split; [|split].
  - cbv zeta. unfold setQualitySetting.
    change (String.eqb "shadows" "shadows") with true. cbv iota zeta.
    rewrite requestRender_objects.
    split; [|split].
    + unfold _requestRender. destruct (renderPending _); simpl;
        destruct (PrimFloat.leb 1 VALUE); reflexivity.
    + intros key o Ho Hmesh Hparent. simpl. rewrite lookup_fmap, Ho. simpl.
      rewrite Hmesh.
      assert (in_scene (size (objects s)) (objects s) o = true) as ->.
      { destruct (size (objects s)); simpl; rewrite Hparent; reflexivity. }
      simpl. destruct (PrimFloat.leb 1 VALUE); reflexivity.
    + intros key o Ho Hmesh. simpl. rewrite lookup_fmap, Ho. simpl.
      rewrite Hmesh. reflexivity.
  - cbv zeta. unfold setQualitySetting.
    change (String.eqb "renderDistance" "shadows") with false.
    change (String.eqb "renderDistance" "renderDistance") with true.
    cbv iota zeta. rewrite requestRender_objects, requestRender_config.
    split; [reflexivity|]. split; [|split].
    + intros Hnan. simpl. unfold Math_max. rewrite Hnan.
      change (PrimFloat.is_nan 1) with false. cbv iota.
      destruct (PrimFloat.ltb 1 VALUE) eqn:Hlt; [apply ltb_leb, Hlt|].
      destruct (PrimFloat.ltb VALUE 1); reflexivity.
    + intros key o fov aspect near far Ho Hnode. simpl.
      rewrite lookup_fmap, Ho. simpl. rewrite Hnode. reflexivity.
    + intros key o Ho Hcam. simpl. rewrite lookup_fmap, Ho. simpl.
      unfold Three.isCamera in Hcam.
      destruct (Three.node o); [reflexivity | reflexivity | discriminate].
  - intros SETTING H1 H2. unfold setQualitySetting. rewrite H1, H2.
    unfold scene_unchanged, _requestRender.
    destruct (renderPending s); [left | right]; reflexivity.
Qed.

End Coverage.

(** ** The properties on concrete scenes *)

Module Scenes.

(** A cube ["A"] with physics, pushed along X. *)
Definition pushed_cube : Peng3D :=
  pushObject (E := Stub.engine) "A" 1 0 0
    (enablePhysics "A" (createObject (Some "Cube") "A" Peng3D_init)).

(** A cube ["A"] at the origin and a sphere ["B"] five units down [-Z]. *)
Definition cube_and_sphere : Peng3D :=
  setPos "B" 0 0 (-5)
    (createObject (Some "Sphere") "B" (createObject (Some "Cube") "A" Peng3D_init)).

(** The cube moved to [(10, 0, 0)] and the sphere grouped into it. *)
Definition grouped : Peng3D :=
  groupObjects "B" "A" (setPos "A" 10 0 0 cube_and_sphere).

(** A cube turned by ninety degrees about X. *)
Definition turned_cube : Peng3D :=
  setRot (E := Stub.engine) "A" 90 0 0
    (createObject (Some "Cube") "A" Peng3D_init).

(** A fixed cube ["A"], moved, turned and coloured, under a tinted light
    ["L"]. *)
Definition workshop : Peng3D :=
  let s :=
    setColor (E := Stub.engine) "L" "#ffcc88"
      (setPos "L" 0 4 0
         (createObject (Some "Light") "L"
            (enablePhysics "A"
               (setColor (E := Stub.engine) "A" "#12ab00"
                  (setRot (E := Stub.engine) "A" 0 45 0
                     (setPos "A" 1 2 (-3)
                        (createObject (Some "Cube") "A" Peng3D_init))))))) in
  match setPhysProp "A" "fixed" 1 s with
  | Normal s' => s'
  | _ => s
  end.

(** A cube ["A"] with physics and a sphere ["B"] with physics. *)
Definition two_bodies : Peng3D :=
  enablePhysics "B"
    (createObject (Some "Sphere") "B"
       (enablePhysics "A" (createObject (Some "Cube") "A" Peng3D_init))).

(** A cube with physics in front of a camera, at render distance 50. *)
Definition studio : Peng3D :=
  setQualitySetting "renderDistance" 50
    (createObject (Some "Camera") "Cam"
       (enablePhysics "A" (createObject (Some "Cube") "A" Peng3D_init))).

End Scenes.



(** C2 on a scene: re-creating the pushed cube twice leaves no body under
    its name and takes body [1] out of the world. *)
Lemma create_twice_keeps_one_witness :
  physicsBodies
    (createObject (Some "Light") "A"
       (createObject (Some "Sphere") "A" Scenes.pushed_cube)) !! "A" = None
  /\ 1%positive ∉ Cannon.bodies
       (world (createObject (Some "Light") "A"
                 (createObject (Some "Sphere") "A" Scenes.pushed_cube))).
Proof.
  pose proof (create_twice_keeps_one Scenes.pushed_cube "A"
                (Some "Sphere") (Some "Light")) as H.
  cbv zeta in H.
  destruct H as (_ & _ & Hnone & Hworld); [vm_compute; reflexivity|].
  split; [exact Hnone|].
  eapply (Hworld (Stub.applyImpulse (Cannon.mkVec3 1 0 0) Cannon.Vec3_zero
                    (Cannon.mkBody 1 "A" Cannon.Vec3_zero
                       (Cannon.mkQuaternion 0 0 0 1) Cannon.Vec3_zero
                       Cannon.Vec3_zero 1 Cannon.DYNAMIC
                       Cannon.DefaultPhysMaterial 0.01 0.01
                       (Cannon.Box (Cannon.mkVec3 0.5 0.5 0.5)) true))).
  vm_compute. reflexivity.
Defined.

(** C3 on a scene: the first step at reading [1000] leaves the pushed body
    alone, and the second step records [1016]. *)
Lemma first_step_sets_baseline_witness :
  physicsBodies (stepPhysics (E := Stub.engine) 1000 Scenes.pushed_cube)
  = physicsBodies Scenes.pushed_cube
  /\ _lastPhysTime
       (stepPhysics (E := Stub.engine) 1016
          (stepPhysics (E := Stub.engine) 1000 Scenes.pushed_cube)) = 1016%float.
Proof.
  pose proof (first_step_sets_baseline (E := Stub.engine)
                Scenes.pushed_cube 1000 1016) as H.
  cbv zeta in H.
  destruct H as (_ & _ & Hbodies & _ & _ & _ & Hclock);
    [vm_compute; reflexivity | vm_compute; reflexivity |].
  split; [exact Hbodies | exact Hclock].
Defined.

(** C4 on a scene: after the second step the cube is where its body is. *)
Lemma running_step_steps_and_copies_witness :
  let s1 := stepPhysics (E := Stub.engine) 1000 Scenes.pushed_cube in
  let s2 := stepPhysics (E := Stub.engine) 1016 s1 in
  exists b m',
    physicsBodies s2 !! "A" = Some b
    /\ objects s2 !! "A" = Some m'
    /\ Three.position m' = Vector3_of_Vec3 (Cannon.position b)
    /\ Three.quaternion m' = Quaternion_of_CQuaternion (Cannon.quaternion b).
Proof.
  intros s1 s2.
  pose proof (running_step_steps_and_copies (E := Stub.engine) s1 1016) as H.
  cbv zeta in H. fold s2 in H.
  destruct H as (_ & Hcopy & _); [vm_compute; reflexivity|].
  destruct (physicsBodies s2 !! "A") as [b|] eqn:Hb;
    [|vm_compute in Hb; discriminate Hb].
  destruct (objects s1 !! "A") as [m|] eqn:Hm;
    [|vm_compute in Hm; discriminate Hm].
  destruct (Hcopy "A" b m Hb Hm) as (m' & Hm' & Hpos & Hquat & _).
  exists b, m'. repeat split; assumption.
Defined.

(** The second step moves the pushed cube, and the object follows. *)
Lemma second_step_moves_the_cube :
  let s2 :=
    stepPhysics (E := Stub.engine) 1016
      (stepPhysics (E := Stub.engine) 1000 Scenes.pushed_cube) in
  Three.position <$> (objects s2 !! "A")
  = Some (Three.mkVector3 0.016 (-0.0025088000000000003) 0)
  /\ Vector3_of_Vec3 <$> (Cannon.position <$> (physicsBodies s2 !! "A"))
     = Some (Three.mkVector3 0.016 (-0.0025088000000000003) 0)
  /\ Cannon.velocity <$> (physicsBodies s2 !! "A")
     = Some (Cannon.mkVec3 1 (-0.15680000000000002) 0).
Proof. vm_compute. repeat split. Qed.



(** With the sphere behind the cube nothing is hit. *)
Lemma lookingAt_nothing_behind :
  fst (getLookingAt (E := Stub.engine) "A"
         (setPos "B" 0 0 5 Scenes.cube_and_sphere)) = RString "".
Proof. vm_compute. reflexivity. Qed.





(** An entry without [pos] throws after its object has been created: the
    old cube is gone and a sphere named ["S"] is left at the origin. *)
Lemma entry_without_pos_leaves_partial_scene :
  exists s',
    loadSceneJSON (E := Stub.engine)
      (Parsed (JArr [JObj [("name", JStr "S"); ("type", JStr "Sphere")]]))
      Scenes.pushed_cube = Normal s'
    /\ console_warnings s' = ["Load Scene Failed"]
    /\ objects s' !! "A" = None
    /\ Three.userData_type <$> (objects s' !! "S") = Some (Some "Sphere").
Proof. eexists. split; [vm_compute; reflexivity|]. vm_compute. repeat split. Qed.

(** X2 on a scene: the workshop comes back with both names,
    the cube at its position, in its colour and fixed. *)
Lemma workshop_reloads :
  exists s',
    reload (E := Stub.engine) Scenes.workshop = Normal s'
    /\ dom (objects s') = dom (objects Scenes.workshop)
    /\ forall key obj,
         objects Scenes.workshop !! key = Some obj ->
         restored Scenes.workshop key obj s'.
Proof.
  apply reload_restores.
  - apply registries_ok_bool. split; vm_compute; reflexivity.
  - vm_compute. reflexivity.
Defined.

(** ** The further properties on concrete scenes *)

(** The stand-in engine hands bodies back under their ids. *)
Lemma Stub_keeps_ids : keeps_ids (E := Stub.engine).
Proof.
  split; intros; simpl; [unfold Stub.step; destruct (Cannon.type b)|];
    reflexivity.
Qed.

Lemma pushed_cube_reachable : reachable (E := Stub.engine) Scenes.pushed_cube.
Proof.
  apply (reachable_run
           (enablePhysics "A" (createObject (Some "Cube") "A" Peng3D_init))
           Scenes.pushed_cube (OnName "A" (PushObject 1 0 0)));
    [|left; reflexivity].
  apply (reachable_run
           (createObject (Some "Cube") "A" Peng3D_init)
           (enablePhysics "A" (createObject (Some "Cube") "A" Peng3D_init))
           (OnName "A" EnablePhysics)); [|left; reflexivity].
  apply (reachable_run Peng3D_init (createObject (Some "Cube") "A" Peng3D_init)
           (CreateObject (Some "Cube") "A"));
    [apply reachable_init | left; reflexivity].
Qed.

Lemma studio_reachable : reachable (E := Stub.engine) Scenes.studio.
Proof.
  apply (reachable_run
           (createObject (Some "Camera") "Cam"
              (enablePhysics "A" (createObject (Some "Cube") "A" Peng3D_init)))
           Scenes.studio (SetQualitySetting "renderDistance" 50));
    [|left; unfold Scenes.studio; cbn [run run_block]; reflexivity].
  apply (reachable_run
           (enablePhysics "A" (createObject (Some "Cube") "A" Peng3D_init))
           (createObject (Some "Camera") "Cam"
              (enablePhysics "A" (createObject (Some "Cube") "A" Peng3D_init)))
           (CreateObject (Some "Camera") "Cam"));
    [|left; unfold Scenes.studio; cbn [run run_block]; reflexivity].
  apply (reachable_run
           (createObject (Some "Cube") "A" Peng3D_init)
           (enablePhysics "A" (createObject (Some "Cube") "A" Peng3D_init))
           (OnName "A" EnablePhysics)); [|left; unfold Scenes.studio; cbn [run run_block]; reflexivity].
  apply (reachable_run Peng3D_init (createObject (Some "Cube") "A" Peng3D_init)
           (CreateObject (Some "Cube") "A"));
    [apply reachable_init | left; cbn [run]; reflexivity].
Qed.

(** X1 on a scene: the pushed cube. *)
Lemma reachable_registries_ok_witness :
  names_agree Scenes.pushed_cube = true
  /\ bodies_have_objects Scenes.pushed_cube = true.
Proof. exact (reachable_registries_ok _ pushed_cube_reachable). Defined.


(** X3 on a colour. *)
Lemma hex_text_round_trip_witness :
  Color_hexStyle ("#" ++ toString16_padStart6 1223424) = Some 1223424%Z.
Proof. apply hex_text_round_trip. lia. Defined.


(** X4 on a scene: physics enabled again for the pushed cube. *)
Lemma enablePhysics_gives_fresh_body_witness :
  synced (enablePhysics "A" Scenes.pushed_cube) "A".
Proof.
  refine (proj1 (enablePhysics_gives_fresh_body Scenes.pushed_cube "A" _ _ _));
    vm_compute; reflexivity.
Defined.


(** X5 on a scene: the sphere, with its body, grouped into the cube. *)
Lemma groupObjects_drops_body_witness :
  physicsBodies (groupObjects "B" "A" Scenes.two_bodies) !! "B" = None
  /\ is_Some (objectPhysData (groupObjects "B" "A" Scenes.two_bodies) !! "B").
Proof.
  destruct (groupObjects_drops_body (E := Stub.engine) Scenes.two_bodies "B" "A" _ _
              ltac:(vm_compute; reflexivity) ltac:(vm_compute; reflexivity)
              ltac:(vm_compute; discriminate))
    as (_ & _ & Hb & _ & Hp & _).
  rewrite Hb, Hp. split; [apply lookup_delete_eq|]. eexists. vm_compute. reflexivity.
Defined.


(** X6 on a scene: the pushed cube fixed and released. *)
Lemma fixed_flag_toggles_witness :
  exists s1 s2,
    setPhysProp "A" "fixed" 1 Scenes.pushed_cube = Normal s1
    /\ setPhysProp "A" "fixed" 0 s1 = Normal s2
    /\ Cannon.type <$> physicsBodies s2 !! "A" = Some Cannon.DYNAMIC.
Proof.
  destruct (fixed_flag_toggles Scenes.pushed_cube "A" _ _ 0
              ltac:(vm_compute; reflexivity) ltac:(vm_compute; reflexivity)
              ltac:(vm_compute; reflexivity))
    as (s1 & s2 & b1 & b2 & H1 & _ & _ & _ & _ & _ & _ & _ & H2 & Hb2 & Ht2 & _).
  exists s1, s2. split; [exact H1|]. split; [exact H2|].
  rewrite Hb2. simpl. rewrite Ht2. reflexivity.
Defined.


(** X8 on a scene: friction, then bounciness, for the pushed cube. *)
Lemma friction_then_bounciness_witness :
  exists s1 s2,
    setPhysProp "A" "friction" 0.5 Scenes.pushed_cube = Normal s1
    /\ setPhysProp "A" "bounciness" 0.9 s1 = Normal s2
    /\ length (Cannon.contactmaterials (world s2)) = 2%nat.
Proof.
  destruct (friction_then_bounciness Scenes.pushed_cube "A" _ _ 0.5 0.9
              ltac:(vm_compute; reflexivity) ltac:(vm_compute; reflexivity)
              ltac:(vm_compute; reflexivity) ltac:(vm_compute; reflexivity))
    as (s1 & s2 & H1 & _ & _ & H2 & Hcm & _).
  exists s1, s2. split; [exact H1|]. split; [exact H2|].
  rewrite Hcm. vm_compute. reflexivity.
Defined.


(** X7 on a scene: the cube is neither a light nor a camera. *)
Lemma wrong_kind_is_noop_witness :
  setCamera "A" Scenes.pushed_cube = Scenes.pushed_cube.
Proof.
  destruct (wrong_kind_is_noop (E := Stub.engine) Scenes.pushed_cube "A" _
              ltac:(vm_compute; reflexivity)) as (_ & Hcam & _).
  destruct Hcam as [H _]; [vm_compute; reflexivity | exact H].
Defined.

(** X9 on a scene: the position of the pushed cube, set and read. *)
Lemma array_reporters_read_back_witness :
  getPosition "A" (setPos "A" 1 2 3 Scenes.pushed_cube) = JSON_numbers [1; 2; 3]%float.
Proof.
  refine (proj1 (array_reporters_read_back Scenes.pushed_cube "A" _ 1 2 3 _)).
  vm_compute. reflexivity.
Defined.




(** X11 on a scene: two contacts between the cube and the sphere. *)
Lemma getTouching_lists_each_name_once_witness :
  exists names,
    getTouching [(1, 2); (2, 1)]%positive "A" Scenes.two_bodies
    = JArr (List.map JStr names)
    /\ NoDup names.
Proof.
  destruct (getTouching_lists_each_name_once [(1, 2); (2, 1)]%positive "A"
              Scenes.two_bodies _ ltac:(vm_compute; reflexivity))
    as (names & H1 & H2 & _).
  exists names. split; assumption.
Defined.


(** X13 on a scene: the pushed cube deleted. *)
Lemma deleteObject_removes_witness :
  objects (deleteObject "A" Scenes.pushed_cube)
  = delete "A" (objects Scenes.pushed_cube).
Proof.
  refine (proj1 (deleteObject_removes Scenes.pushed_cube "A" _ _)).
  vm_compute. reflexivity.
Defined.






(** X17 on a scene: the pushed cube. *)
Lemma euler_order_is_sticky_witness :
  Three.order (_euler (snd (getYawPitch (E := Stub.engine) "A" Scenes.pushed_cube)))
  = Three.YXZ.
Proof.
  destruct (euler_order_is_sticky (E := Stub.engine) Scenes.pushed_cube "A" _
              ltac:(vm_compute; reflexivity)) as (_ & _ & H & _).
  exact H.
Defined.


(** X18 on a scene: the pushed cube, with the stand-in engine. *)
Lemma world_agrees_with_registry_witness :
  exists b,
    physicsBodies Scenes.pushed_cube !! "A" = Some b
    /\ in_world (world Scenes.pushed_cube) b = true.
Proof.
  destruct (world_agrees_with_registry Scenes.pushed_cube Stub_keeps_ids
              pushed_cube_reachable) as (_ & H & _).
  assert (Hb : is_Some (physicsBodies Scenes.pushed_cube !! "A"))
    by (vm_compute; eexists; reflexivity).
  destruct Hb as [b Hb].
  exists b. split; [exact Hb | exact (H _ _ Hb)].
Defined.


(** X19 on a scene: the studio cleared. *)
Lemma deleteAllObjects_clears_witness :
  Cannon.bodies (world (deleteAllObjects Scenes.studio)) = ∅.
Proof.
  destruct (deleteAllObjects_clears Scenes.studio Stub_keeps_ids studio_reachable)
    as (_ & _ & H & _).
  exact H.
Defined.


(** X20 on a scene: the studio. *)
Lemma scene_objects_are_distinct_witness :
  exists o,
    objects Scenes.studio !! "Cam" = Some o
    /\ (Three.id o < nextObject3DId Scenes.studio)%positive.
Proof.
  destruct (scene_objects_are_distinct Scenes.studio studio_reachable)
    as (_ & H & _).
  assert (Ho : is_Some (objects Scenes.studio !! "Cam"))
    by (vm_compute; eexists; reflexivity).
  destruct Ho as [o Ho].
  exists o. split; [exact Ho | exact (H _ _ Ho)].
Defined.


(** X21 on a scene: the studio. *)
Lemma quality_settings_hold_witness :
  config_shadows Scenes.studio = 0%Z \/ config_shadows Scenes.studio = 1%Z.
Proof.
  destruct (quality_settings_hold Scenes.studio studio_reachable) as (H & _).
  exact H.
Defined.


(** X15 on a scene: the cube scaled, seen from the name ["B"]. *)
Lemma name_blocks_touch_one_name_witness :
  same_at "B" Scenes.pushed_cube (setScale "A" 2 2 2 Scenes.pushed_cube).
Proof.
  apply (name_blocks_touch_one_name (E := Stub.engine) "A" "B" (SetScale 2 2 2));
    [discriminate | left; cbn [run_block]; reflexivity].
Defined.
